(** * YAML iframe preview: a shallow embedding of [src/extension.ts]

    The extension keeps one webview preview per YAML document, decides which
    address the embedded frame loads (remote https page, loopback demo server
    or bundled resource), and streams debounced snapshots of the document
    into the webview.  The development below embeds the functions of
    [extension.ts] and the event loop they run on, and states the properties
    of the design document about them. *)

From Stdlib Require Import ZArith NArith Ascii String DecimalString DecimalN.
From stdpp Require Import base decidable option list gmap strings.

Local Open Scope string_scope.
Local Open Scope Z_scope.

(** ** JavaScript values used by the extension *)

(** A call either returns or throws; a rejected promise is a throw at the
    [await]. *)
Inductive Outcome (A : Type) : Type :=
| Returned (a : A)
| Thrown (msg : string).
Arguments Returned {A} a.
Arguments Thrown {A} msg.

(** Truthiness of a [string | undefined]: [undefined] and the empty string
    are falsy. *)
Definition truthy (v : option string) : bool :=
  match v with
  | None => false
  | Some s => negb (bool_decide (s = ""))
  end.

(** [a && v] for a boolean [a]: the value [v] when both are truthy. *)
Definition js_and (a : bool) (v : option string) : option string :=
  if (a && truthy v)%bool then v else None.

(** [s.split(sep)] for a one-character separator. *)
Fixpoint js_split (sep : ascii) (s : string) : list string :=
  match s with
  | EmptyString => [EmptyString]
  | String c rest =>
      if bool_decide (c = sep) then EmptyString :: js_split sep rest
      else match js_split sep rest with
           | h :: t => String c h :: t
           | [] => [String c EmptyString]
           end
  end.

(** Whether [c] occurs in [s]. *)
Fixpoint has_char (c : ascii) (s : string) : bool :=
  match s with
  | EmptyString => false
  | String c' rest => (bool_decide (c' = c) || has_char c rest)%bool
  end.

(** [xs[0]] on an array of strings ([undefined] on the empty array). *)
Definition js_first (xs : list string) : option string := head xs.

Definition lower_ascii (c : ascii) : ascii :=
  let n := nat_of_ascii c in
  if (Nat.leb 65 n && Nat.leb n 90)%bool then ascii_of_nat (n + 32) else c.

(** [s.toLowerCase()] on the ASCII letters. *)
Fixpoint toLowerCase (s : string) : string :=
  match s with
  | EmptyString => EmptyString
  | String c rest => String (lower_ascii c) (toLowerCase rest)
  end.

(** [s.endsWith(suffix)]. *)
Definition endsWith (s suffix : string) : bool :=
  let n := String.length s in
  let m := String.length suffix in
  (Nat.leb m n && bool_decide (substring (n - m) m s = suffix))%bool.

(** Template-literal rendering of a port number. *)
Definition show_port (p : N) : string := NilZero.string_of_uint (N.to_uint p).

(** ** Host interfaces *)

(** The two properties of a parsed [URL] that the extension reads. *)
Record URL := mkURL { protocol : string; origin : string }.

Record Webview := mkWebview {
  cspSource : string;
  asWebviewUri : string → string   (* rendered with [toString()] *)
}.

Record ExtensionContext := mkContext { extensionUri : string }.

(** What the extension calls but does not define: the [URL] constructor of
    the runtime ([None] when it throws), [vscode.Uri.joinPath],
    [vscode.workspace.asRelativePath] and the webview that
    [createWebviewPanel] hands out. *)
Class HostApi := {
  URL_new : string → option URL;
  Uri_joinPath : string → list string → string;
  asRelativePath : string → string;
  panelWebview : nat → Webview      (* [panel.webview] of the n-th panel created *)
}.

(** ** Source resolution: [isHttpsUrl] and [resolveAppSrc] *)

Section Resolver.
Context `{HostApi}.

Definition isHttpsUrl (value : option string) : bool :=
  match value with
  | None => false
  | Some v =>
      if negb (truthy (Some v)) then false
      else match URL_new v with
           | Some u => bool_decide (protocol u = "https:")
           | None => false           (* catch { return false } *)
           end
  end.

(** The branch of [resolveAppSrc] that produced a result.  The source
    returns the three strings only; the tag records which [return] ran. *)
Inductive ContentSource := Remote | LocalServed | LocalBundled.

Record AppSrc := mkAppSrc {
  src : string;
  frameSrcCsp : string;
  targetOrigin : string
}.

Definition resolveAppSrc_branch (webview : Webview) (context : ExtensionContext)
    (remoteUrl : string) (demoUrl : option string) (allowHttp : bool)
    : Outcome (ContentSource * AppSrc) :=
  if isHttpsUrl (Some remoteUrl) then
    match URL_new remoteUrl with
    | Some u =>
        Returned (Remote,
          {| src := remoteUrl; frameSrcCsp := origin u; targetOrigin := origin u |})
    | None => Thrown "Invalid URL"
    end
  else
    match js_and allowHttp demoUrl with
    | Some d =>
        match URL_new d with
        | Some u =>
            Returned (LocalServed,
              {| src := d; frameSrcCsp := origin u; targetOrigin := origin u |})
        | None => Thrown "Invalid URL"
        end
    | None =>
        let demoPath :=
          Uri_joinPath (extensionUri context) ["src"; "./demo/index.html"] in
        let demoUri := asWebviewUri webview demoPath in
        Returned (LocalBundled,
          {| src := demoUri;
             frameSrcCsp := cspSource webview +:+ " vscode-resource:";
             targetOrigin := "*" |})
    end.

Definition outcome_map {A B} (f : A → B) (o : Outcome A) : Outcome B :=
  match o with
  | Returned a => Returned (f a)
  | Thrown m => Thrown m
  end.

Definition resolveAppSrc (webview : Webview) (context : ExtensionContext)
    (remoteUrl : string) (demoUrl : option string) (allowHttp : bool)
    : Outcome AppSrc :=
  outcome_map snd (resolveAppSrc_branch webview context remoteUrl demoUrl allowHttp).

End Resolver.

(** ** The loopback demo server: [startDemoServer] *)

Record ServerResponse := mkResponse {
  statusCode : Z;
  headers : list (string * string);
  body : option string          (* [Some] once [res.end] ran *)
}.

(** A fresh [http.ServerResponse]: status 200, no header, not ended. *)
Definition freshResponse : ServerResponse :=
  {| statusCode := 200; headers := []; body := None |}.

Definition setStatus (code : Z) (res : ServerResponse) : ServerResponse :=
  {| statusCode := code; headers := headers res; body := body res |}.

Definition setHeader (name value : string) (res : ServerResponse) : ServerResponse :=
  {| statusCode := statusCode res;
     headers := headers res ++ [(name, value)];
     body := body res |}.

Definition endWith (data : string) (res : ServerResponse) : ServerResponse :=
  {| statusCode := statusCode res; headers := headers res; body := Some data |}.

(** [req.url ? req.url.split("?")[0] : "/"] *)
Definition urlPath (url : option string) : option string :=
  match url with
  | Some u => if truthy (Some u) then js_first (js_split "?"%char u) else Some "/"
  | None => Some "/"
  end.

(** The request listener given to [http.createServer].  [fs] is the file
    system at the time of the request: [fs.readFile] rejects on a path that
    is not there. *)
Definition requestListener (demoPath : string) (fs : gmap string string)
    (url : option string) : ServerResponse :=
  let p := urlPath url in
  if (bool_decide (p ≠ Some "/") && bool_decide (p ≠ Some "/index.html"))%bool then
    endWith "Not Found" (setStatus 404 freshResponse)
  else
    match fs !! demoPath with
    | Some html =>
        endWith html (setHeader "Content-Type" "text/html; charset=utf-8" freshResponse)
    | None =>
        endWith "Failed to load demo" (setStatus 500 freshResponse)
    end.

(** [server.address()] *)
Inductive Address :=
| AddrNull
| AddrPipe (path : string)
| AddrInfo (port : N).

(** How [server.listen(0, "127.0.0.1", ...)] ends: an ['error'] event, or the
    listening callback with the address the server then reports. *)
Inductive ListenOutcome :=
| ListenError (msg : string)
| Listening (addr : Address).

Record Server := mkServer {
  sv_demoPath : string;
  sv_listening : bool
}.

Definition closeServer (s : Server) : Server :=
  {| sv_demoPath := sv_demoPath s; sv_listening := false |}.

Definition demoUrlOfPort (port : N) : string :=
  "http://127.0.0.1:" +:+ show_port port +:+ "/index.html".

Section DemoServer.
Context `{HostApi}.

(** The server object that [http.createServer] made, in its final state,
    and what the promise settles to. *)
Definition startDemoServer (context : ExtensionContext) (listen : ListenOutcome)
    : Server * Outcome string :=
  let demoPath := Uri_joinPath (extensionUri context) ["src"; "demo"; "index.html"] in
  match listen with
  | ListenError msg =>
      ({| sv_demoPath := demoPath; sv_listening := false |}, Thrown msg)
  | Listening (AddrInfo port) =>
      ({| sv_demoPath := demoPath; sv_listening := true |},
       Returned (demoUrlOfPort port))
  | Listening _ =>
      (closeServer {| sv_demoPath := demoPath; sv_listening := true |},
       Thrown "Demo server failed to bind")
  end.

End DemoServer.

(** ** The webview document: [escapeHtml] and [getWebviewHtml] *)

Definition escape_char (c : ascii) : string :=
  let n := nat_of_ascii c in
  if Nat.eqb n 38 then "&amp;"
  else if Nat.eqb n 60 then "&lt;"
  else if Nat.eqb n 62 then "&gt;"
  else if Nat.eqb n 34 then "&quot;"
  else if Nat.eqb n 39 then "&#039;"
  else String c EmptyString.

(** The five chained [replace] calls; [&] is replaced first, so one pass
    over the characters gives the same string. *)
Fixpoint escapeHtml (input : string) : string :=
  match input with
  | EmptyString => EmptyString
  | String c rest => escape_char c +:+ escapeHtml rest
  end.

(** The values interpolated into the template of [getWebviewHtml]; the
    fixed markup around them is left out.  [html_source] is the branch of
    [resolveAppSrc] that ran. *)
Record WebviewHtml := mkHtml {
  html_nonce : string;          (* script-src 'nonce-...' and <script nonce> *)
  html_imgSrc : string;         (* img-src ${webview.cspSource} https: data: *)
  html_frameSrc : string;       (* frame-src ${frameSrcCsp} *)
  html_mode : string;
  html_modeDetail : string;
  html_iframeSrc : string;      (* <iframe src="..."> *)
  html_relayTarget : string;    (* postMessage(msg, JSON.stringify(targetOrigin)) *)
  html_source : ContentSource
}.

Section Html.
Context `{HostApi}.

Definition getWebviewHtml (webview : Webview) (context : ExtensionContext)
    (nonce : string) (remoteUrl : string) (demoUrl : option string)
    (allowHttp : bool) : Outcome WebviewHtml :=
  match resolveAppSrc_branch webview context remoteUrl demoUrl allowHttp with
  | Thrown m => Thrown m
  | Returned (kind, r) =>
      Returned
        {| html_nonce := nonce;
           html_imgSrc := cspSource webview;
           html_frameSrc := frameSrcCsp r;
           html_mode :=
             escapeHtml (if isHttpsUrl (Some remoteUrl) then "remote" else "local");
           html_modeDetail :=
             escapeHtml (if isHttpsUrl (Some remoteUrl) then remoteUrl
                         else "src/demo/index.html");
           html_iframeSrc := escapeHtml (src r);
           html_relayTarget := targetOrigin r;
           html_source := kind |}
  end.

End Html.

(** ** Debouncing: [debounce] *)

(** The closure returned by [debounce(fn, delayMs)].  [timer] is the pending
    timeout, written as the time at which the delay asked of [setTimeout]
    ends: the time of the call plus [delayMs]; [None] when none is pending
    (the source keeps the stale handle after the timeout ran; clearing a
    handle that already ran does nothing). *)
Record Debounced := mkDebounced {
  timer : option Z;
  delayMs : Z
}.

Definition debounce (delay : Z) : Debounced :=
  {| timer := None; delayMs := delay |}.

(** Calling the debounced function at time [now]:
    [if (timer) clearTimeout(timer); timer = setTimeout(..., delayMs)]. *)
Definition debounced_call (now : Z) (d : Debounced) : Debounced :=
  {| timer := Some (now + delayMs d); delayMs := delayMs d |}.

(** The delay that the runtime gives a timeout asked with the delay
    [after], in milliseconds.  The extension runs on Node, whose
    [setTimeout] sets a delay larger than [TIMEOUT_MAX] or less than 1
    to 1. *)
Definition TIMEOUT_MAX : Z := 2147483647.

Definition timeoutDelay (after : Z) : Z :=
  if ((1 <=? after) && (after <=? TIMEOUT_MAX))%bool then after else 1.

(** The time at which the runtime runs the pending timeout, if any. *)
Definition timeout_runs_at (d : Debounced) : option Z :=
  (λ asked, asked - delayMs d + timeoutDelay (delayMs d)) <$> timer d.

Definition timer_due (now : Z) (d : Debounced) : bool :=
  match timeout_runs_at d with
  | Some t => t <=? now
  | None => false
  end.

Definition timer_ran (d : Debounced) : Debounced :=
  {| timer := None; delayMs := delayMs d |}.

(** ** The editor, as the command handler sees it *)

(** A [vscode.TextDocument]; its [uri.toString()] is the key under which the
    editor holds it. *)
Record TextDocument := mkDoc {
  doc_fsPath : string;
  doc_fileName : string;
  doc_languageId : string;
  doc_text : string;
  doc_version : Z
}.

(** The [yamlIframePreview] settings; [None] is an unset key. *)
Record Config := mkConfig {
  cfg_remoteUrl : option string;
  cfg_debounceMs : option Z;
  cfg_allowHttp : option bool
}.

Record Payload := mkPayload {
  yaml : string;
  uri : string;
  fileName : string;
  languageId : string;
  version : Z
}.

Record Message := mkMessage { msg_type : string; payload : Payload }.

(** One run of the command handler past [createWebviewPanel]: the panel and
    the variables its closures share. *)
Record Panel := mkPanel {
  p_key : string;                 (* [key] *)
  p_title : string;
  p_html : option WebviewHtml;    (* [panel.webview.html], once assigned *)
  p_disposed : bool;
  p_reveals : nat;                (* calls of [panel.reveal] *)
  p_posts : list Message;         (* calls of [panel.webview.postMessage], oldest first *)
  p_send : option Debounced;      (* [sendUpdate] *)
  p_subscribed : bool;            (* [disposable] registered and not disposed *)
  p_onDispose : bool;             (* the [onDidDispose] handler is registered *)
  p_server : option nat           (* [demoServer] *)
}.

Record World := mkWorld {
  clock : Z;                          (* milliseconds *)
  extension : ExtensionContext;
  config : Config;
  documents : gmap string TextDocument;
  files : gmap string string;
  panels : list Panel;                (* in creation order *)
  servers : list Server;              (* in creation order *)
  previewByDoc : gmap string nat;     (* key to the entry's panel *)
  notices : list string;
  responses : list ServerResponse
}.

Definition with_clock (t : Z) (w : World) : World :=
  mkWorld t (extension w) (config w) (documents w) (files w) (panels w)
          (servers w) (previewByDoc w) (notices w) (responses w).
Definition with_config (c : Config) (w : World) : World :=
  mkWorld (clock w) (extension w) c (documents w) (files w) (panels w)
          (servers w) (previewByDoc w) (notices w) (responses w).
Definition with_documents (d : gmap string TextDocument) (w : World) : World :=
  mkWorld (clock w) (extension w) (config w) d (files w) (panels w)
          (servers w) (previewByDoc w) (notices w) (responses w).
Definition with_files (f : gmap string string) (w : World) : World :=
  mkWorld (clock w) (extension w) (config w) (documents w) f (panels w)
          (servers w) (previewByDoc w) (notices w) (responses w).
Definition with_panels (ps : list Panel) (w : World) : World :=
  mkWorld (clock w) (extension w) (config w) (documents w) (files w) ps
          (servers w) (previewByDoc w) (notices w) (responses w).
Definition with_servers (ss : list Server) (w : World) : World :=
  mkWorld (clock w) (extension w) (config w) (documents w) (files w) (panels w)
          ss (previewByDoc w) (notices w) (responses w).
Definition with_previewByDoc (m : gmap string nat) (w : World) : World :=
  mkWorld (clock w) (extension w) (config w) (documents w) (files w) (panels w)
          (servers w) m (notices w) (responses w).
Definition with_notices (ns : list string) (w : World) : World :=
  mkWorld (clock w) (extension w) (config w) (documents w) (files w) (panels w)
          (servers w) (previewByDoc w) ns (responses w).
Definition with_responses (rs : list ServerResponse) (w : World) : World :=
  mkWorld (clock w) (extension w) (config w) (documents w) (files w) (panels w)
          (servers w) (previewByDoc w) (notices w) rs.

Definition showMessage (text : string) (w : World) : World :=
  with_notices (notices w ++ [text]) w.

Definition isYaml (doc : TextDocument) : bool :=
  (bool_decide (doc_languageId doc = "yaml")
   || endsWith (toLowerCase (doc_fsPath doc)) ".yml"
   || endsWith (toLowerCase (doc_fsPath doc)) ".yaml")%bool.

(** [Math.max(0, cfg.get<number>("debounceMs", 300))] *)
Definition effectiveDebounceMs (c : Config) : Z :=
  Z.max 0 (default 300 (cfg_debounceMs c)).

(** The message built by the callback given to [debounce]. *)
Definition updateMessage (key : string) (doc : TextDocument) : Message :=
  {| msg_type := "yaml:update";
     payload := {| yaml := doc_text doc;
                   uri := key;
                   fileName := doc_fileName doc;
                   languageId := doc_languageId doc;
                   version := doc_version doc |} |}.

Definition panel_reveal (p : Panel) : Panel :=
  mkPanel (p_key p) (p_title p) (p_html p) (p_disposed p) (S (p_reveals p))
          (p_posts p) (p_send p) (p_subscribed p) (p_onDispose p) (p_server p).

Definition panel_post (m : Message) (p : Panel) : Panel :=
  mkPanel (p_key p) (p_title p) (p_html p) (p_disposed p) (p_reveals p)
          (p_posts p ++ [m]) (p_send p) (p_subscribed p) (p_onDispose p) (p_server p).

Definition panel_with_send (d : option Debounced) (p : Panel) : Panel :=
  mkPanel (p_key p) (p_title p) (p_html p) (p_disposed p) (p_reveals p)
          (p_posts p) d (p_subscribed p) (p_onDispose p) (p_server p).

(** [sendUpdate()] called at time [now]. *)
Definition sendUpdate (now : Z) (p : Panel) : Panel :=
  panel_with_send (debounced_call now <$> p_send p) p.

(** The listener given to [onDidChangeTextDocument], run for a change of the
    document [changed]. *)
Definition onDidChangeTextDocument (now : Z) (changed : string) (p : Panel) : Panel :=
  if p_subscribed p then
    if bool_decide (changed ≠ p_key p) then p else sendUpdate now p
  else p.

(** The timeout set by [debounce] runs.  The callback starts with
    [panel.webview], a getter of the editor that throws once the panel is
    disposed: on a disposed panel the callback ends there, with an error
    that nothing of the extension sees, and [postMessage] is not reached.
    Otherwise it reads the document as it is now and posts it.  (The
    document of a panel is always there: the editor keeps the object the
    handler captured.) *)
Definition timeout_fires (docs : gmap string TextDocument) (p : Panel) : Panel :=
  let p' := panel_with_send (timer_ran <$> p_send p) p in
  if p_disposed p then p'
  else match docs !! p_key p with
       | Some doc => panel_post (updateMessage (p_key p) doc) p'
       | None => p'
       end.

Definition timeout_due (now : Z) (p : Panel) : bool :=
  match p_send p with
  | Some d => timer_due now d
  | None => false
  end.

(** The handler given to [panel.onDidDispose], together with the panel
    becoming disposed. *)
Definition panel_disposed (p : Panel) : Panel :=
  mkPanel (p_key p) (p_title p) (p_html p) true (p_reveals p) (p_posts p)
          (p_send p) (if p_onDispose p then false else p_subscribed p)
          (p_onDispose p) (p_server p).

(** The document after an edit that leaves [text] in it. *)
Definition edited (text : string) (doc : TextDocument) : TextDocument :=
  mkDoc (doc_fsPath doc) (doc_fileName doc) (doc_languageId doc) text
        (doc_version doc + 1).

(** ** The command handler and the event loop *)

Section EventLoop.
Context `{HostApi}.

(** The panel as [createWebviewPanel] returns it. *)
Definition blankPanel (key : string) : Panel :=
  mkPanel key ("Preview: " +:+ asRelativePath key) None false 0 [] None false false None.

(** The panel once the handler has run to its end at time [now]:
    [webview.html] assigned, [sendUpdate] created and called once, the change
    listener and the dispose handler registered. *)
Definition wiredPanel (key : string) (now debounceMs : Z) (html : WebviewHtml)
    (demoServer : option nat) : Panel :=
  mkPanel key ("Preview: " +:+ asRelativePath key) (Some html) false 0 []
    (Some (debounced_call now (debounce debounceMs))) true true demoServer.

(** The part of the command handler after the registry miss, run to its
    end with nothing else handled in between: its [await]s are resolved in
    place ([showTextDocument] changes nothing that is kept here).  [listen]
    is how the bind ends if a server is started, [nonce] what [getNonce]
    draws.  The stretches between the [await]s are given one by one further
    down. *)
Definition createPreview (key : string) (listen : ListenOutcome) (nonce : string)
    (w : World) : World * Outcome unit :=
  let id := length (panels w) in
  let w1 := with_panels (panels w ++ [blankPanel key]) w in
  let remoteUrl := default "" (cfg_remoteUrl (config w)) in
  let debounceMs := effectiveDebounceMs (config w) in
  let allowHttp := default true (cfg_allowHttp (config w)) in
  let started :=
    if negb (isHttpsUrl (Some remoteUrl)) then
      let '(sv, r) := startDemoServer (extension w) listen in
      (with_servers (servers w1 ++ [sv]) w1,
       outcome_map (λ url, (Some (length (servers w1)), Some url)) r)
    else (w1, Returned (None, None)) in
  match started with
  | (w2, Thrown m) => (w2, Thrown m)
  | (w2, Returned (demoServer, demoUrl)) =>
      match getWebviewHtml (panelWebview id) (extension w) nonce
                           remoteUrl demoUrl allowHttp with
      | Thrown m => (w2, Thrown m)
      | Returned html =>
          (* sendUpdate = debounce(...); sendUpdate();
             onDidChangeTextDocument(...); onDidDispose(...); previewByDoc.set *)
          let wired := wiredPanel key (clock w) debounceMs html demoServer in
          (with_previewByDoc (<[key := id]> (previewByDoc w2))
             (with_panels (<[id := wired]> (panels w2)) w2),
           Returned tt)
      end
  end.

(** The handler of the command [yamlIframePreview.open]; [editor] is the key
    of the document in [vscode.window.activeTextEditor] ([None], or a key the
    editor does not hold, when there is no active editor). *)
Definition openCmd (editor : option string) (listen : ListenOutcome) (nonce : string)
    (w : World) : World * Outcome unit :=
  match editor ≫= (λ key, pair key <$> documents w !! key) with
  | None => (showMessage "No active editor." w, Returned tt)
  | Some (key, doc) =>
      if negb (isYaml doc) then
        (showMessage "Open a YAML (.yml/.yaml) file to use this preview." w,
         Returned tt)
      else
        match previewByDoc w !! key with
        | Some existing =>
            (with_panels (alter panel_reveal existing (panels w)) w, Returned tt)
        | None => createPreview key listen nonce w
        end
  end.

(** *** The handler from one [await] to the next

    The handler is [async]: an invocation gives way to whatever else is to
    be handled at [await showTextDocument] (line 36) and, when it starts the
    demo server, at [await startDemoServer] (line 59), where the bind is
    awaited.  [openCmd] is an invocation that nothing interrupts; the three
    functions below are its stretches between those points, for invocations
    that overlap. *)

(** Where the first stretch of an invocation ends. *)
Inductive Begun :=
| Finished                      (* the handler has returned *)
| AwaitsShow (key : string).    (* it waits at [await showTextDocument] *)

(** From the start of the handler to [await showTextDocument]: the guards
    and the registry lookup. *)
Definition openCmd_begin (editor : option string) (w : World) : World * Begun :=
  match editor ≫= (λ key, pair key <$> documents w !! key) with
  | None => (showMessage "No active editor." w, Finished)
  | Some (key, doc) =>
      if negb (isYaml doc) then
        (showMessage "Open a YAML (.yml/.yaml) file to use this preview." w,
         Finished)
      else
        match previewByDoc w !! key with
        | Some existing =>
            (with_panels (alter panel_reveal existing (panels w)) w, Finished)
        | None => (w, AwaitsShow key)
        end
  end.

(** The variables of an invocation that has read the settings. *)
Record Locals := mkLocals {
  l_key : string;
  l_panel : nat;              (* [panel] *)
  l_remoteUrl : string;
  l_debounceMs : Z;
  l_allowHttp : bool;
  l_server : option nat       (* the server whose bind is awaited, if any *)
}.

(** From [showTextDocument] resolving to [await startDemoServer]: the panel
    is created and the settings are read; unless the remote URL is an https
    URL, the server is created and asked to listen.  With an https URL
    nothing is awaited and the handler goes straight on. *)
Definition openCmd_shown (key : string) (w : World) : World * Locals :=
  let id := length (panels w) in
  let w1 := with_panels (panels w ++ [blankPanel key]) w in
  let remoteUrl := default "" (cfg_remoteUrl (config w)) in
  let debounceMs := effectiveDebounceMs (config w) in
  let allowHttp := default true (cfg_allowHttp (config w)) in
  if negb (isHttpsUrl (Some remoteUrl)) then
    let demoPath :=
      Uri_joinPath (extensionUri (extension w)) ["src"; "demo"; "index.html"] in
    (with_servers (servers w1 ++ [mkServer demoPath false]) w1,
     mkLocals key id remoteUrl debounceMs allowHttp (Some (length (servers w1))))
  else (w1, mkLocals key id remoteUrl debounceMs allowHttp None).

(** Lines 64 to 93, the end of the handler: the content of the webview is
    assigned, [sendUpdate] is created and called, the listeners are
    registered and the registry entry is set.  The assignment to
    [panel.webview.html] starts with the getter [panel.webview], which
    throws when the panel was disposed in the meantime. *)
Definition openCmd_finish (loc : Locals) (demoServer : option nat)
    (demoUrl : option string) (nonce : string) (w : World) : World * Outcome unit :=
  if default true (p_disposed <$> panels w !! l_panel loc) then
    (w, Thrown "Webview is disposed")
  else
    match getWebviewHtml (panelWebview (l_panel loc)) (extension w) nonce
                         (l_remoteUrl loc) demoUrl (l_allowHttp loc) with
    | Thrown m => (w, Thrown m)
    | Returned html =>
        let wired := wiredPanel (l_key loc) (clock w) (l_debounceMs loc) html
                                demoServer in
        (with_previewByDoc (<[l_key loc := l_panel loc]> (previewByDoc w))
           (with_panels (<[l_panel loc := wired]> (panels w)) w),
         Returned tt)
    end.

(** From the bind settling to the end of the handler; without a server the
    handler has awaited nothing and this is its end. *)
Definition openCmd_settled (loc : Locals) (listen : ListenOutcome) (nonce : string)
    (w : World) : World * Outcome unit :=
  match l_server loc with
  | Some s =>
      let '(sv, r) := startDemoServer (extension w) listen in
      let w2 := with_servers (<[s := sv]> (servers w)) w in
      match r with
      | Thrown m => (w2, Thrown m)
      | Returned url => openCmd_finish loc (Some s) (Some url) nonce w2
      end
  | None => openCmd_finish loc None None nonce w
  end.

(** The editor disposes panel [i] (the user closes it). *)
Definition panelClosed (i : nat) (w : World) : World :=
  match panels w !! i with
  | Some p =>
      if p_disposed p then w
      else
        let w1 := with_panels (<[i := panel_disposed p]> (panels w)) w in
        if p_onDispose p then
          (* disposable.dispose(); if (demoServer) demoServer.close();
             previewByDoc.delete(key) *)
          let w2 := match p_server p with
                    | Some s => with_servers (alter closeServer s (servers w1)) w1
                    | None => w1
                    end in
          with_previewByDoc (delete (p_key p) (previewByDoc w2)) w2
        else w1
  | None => w
  end.

(** The document under [key] gets the text [text]; the editor bumps its
    version and notifies the change listeners. *)
Definition docChange (key text : string) (w : World) : World :=
  match documents w !! key with
  | Some doc =>
      let doc' := edited text doc in
      with_panels (onDidChangeTextDocument (clock w) key <$> panels w)
        (with_documents (<[key := doc']> (documents w)) w)
  | None => w
  end.

(** A request reaches server [sv]. *)
Definition httpRequest (sv : nat) (url : option string) (w : World) : World :=
  match servers w !! sv with
  | Some s =>
      if sv_listening s then
        with_responses
          (responses w ++ [requestListener (sv_demoPath s) (files w) url]) w
      else w
  | None => w
  end.

(** Time passes: the clock moves on by [dt] and the timeouts that the
    runtime has due by then run. *)
Definition advance (dt : Z) (w : World) : World :=
  let now := clock w + Z.max 0 dt in
  with_panels
    ((λ p, if timeout_due now p then timeout_fires (documents w) p else p)
       <$> panels w)
    (with_clock now w).

(** What the event loop handles.  [CmdOpen] is an invocation of the command
    that is handled to its end before the next event: whatever it awaits
    settles with nothing else in between.  Invocations that overlap are not
    among these events; they are put together from the stretches above. *)
Inductive Event :=
| CmdOpen (editor : option string) (listen : ListenOutcome) (nonce : string)
| DocChange (key text : string)
| PanelClosed (panel : nat)
| HttpRequest (server : nat) (url : option string)
| ConfigChanged (c : Config)
| FileWritten (path : string) (content : option string)
| Tick.

Definition handle (e : Event) (w : World) : World :=
  match e with
  | CmdOpen editor listen nonce => fst (openCmd editor listen nonce w)
  | DocChange key text => docChange key text w
  | PanelClosed i => panelClosed i w
  | HttpRequest sv url => httpRequest sv url w
  | ConfigChanged c => with_config c w
  | FileWritten path content =>
      with_files (match content with
                  | Some data => <[path := data]> (files w)
                  | None => delete path (files w)
                  end) w
  | Tick => w
  end.

(** An event together with the time elapsed since the one before it. *)
Definition step (w : World) (te : Z * Event) : World :=
  handle (snd te) (advance (fst te) w).

Definition run (w : World) (evs : list (Z * Event)) : World :=
  foldl step w evs.

End EventLoop.

(** A world in which the extension has just been activated. *)
Definition freshWorld (ctx : ExtensionContext) (c : Config)
    (docs : gmap string TextDocument) (fs : gmap string string) : World :=
  mkWorld 0 ctx c docs fs [] [] ∅ [] [].

(** ** A concrete host

    A stand-in for the runtime, used only to run the development on the
    concrete inputs of the examples; the properties themselves are proved
    for any [HostApi].  Its [URL] constructor reads absolute URLs
    [scheme:rest] and, for the schemes with an authority,
    [scheme://user@host:port/path], with the origin [scheme://host:port]
    and the default port of the scheme left out.  It agrees with the
    runtime's constructor on URLs written without white space whose host is
    a plain name or a dotted IPv4 address in decimal, which is what the
    examples and the address of the demo server are; it does not trim white
    space, validate or normalise the host, or read IPv6 literals. *)

Module NodeHost.

Definition is_digit (c : ascii) : bool :=
  let n := nat_of_ascii c in (Nat.leb 48 n && Nat.leb n 57)%bool.

Definition is_alpha (c : ascii) : bool :=
  let n := nat_of_ascii (lower_ascii c) in (Nat.leb 97 n && Nat.leb n 122)%bool.

Definition is_scheme_char (c : ascii) : bool :=
  (is_alpha c || is_digit c
   || bool_decide (c = "+"%char) || bool_decide (c = "-"%char)
   || bool_decide (c = "."%char))%bool.

(** The scheme, in lower case, and what follows the colon. *)
Fixpoint scan_scheme (s : string) : option (string * string) :=
  match s with
  | EmptyString => None
  | String c rest =>
      if bool_decide (c = ":"%char) then Some (EmptyString, rest)
      else if is_scheme_char c then
        match scan_scheme rest with
        | Some (sc, r) => Some (String (lower_ascii c) sc, r)
        | None => None
        end
      else None
  end.

Definition is_slash (c : ascii) : bool :=
  (bool_decide (c = "/"%char) || Nat.eqb (nat_of_ascii c) 92)%bool.

Fixpoint skip_slashes (s : string) : string :=
  match s with
  | String c rest => if is_slash c then skip_slashes rest else s
  | EmptyString => EmptyString
  end.

Fixpoint authority (s : string) : string :=
  match s with
  | String c rest =>
      if (is_slash c || bool_decide (c = "?"%char) || bool_decide (c = "#"%char))%bool
      then EmptyString
      else String c (authority rest)
  | EmptyString => EmptyString
  end.

(** Split at the last occurrence of [sep]. *)
Fixpoint split_last (sep : ascii) (s : string) : option (string * string) :=
  match s with
  | EmptyString => None
  | String c rest =>
      match split_last sep rest with
      | Some (a, b) => Some (String c a, b)
      | None => if bool_decide (c = sep) then Some (EmptyString, rest) else None
      end
  end.

Fixpoint parse_digits (acc : N) (s : string) : option N :=
  match s with
  | EmptyString => Some acc
  | String c rest =>
      if is_digit c
      then parse_digits (acc * 10 + N.of_nat (nat_of_ascii c - 48))%N rest
      else None
  end.

Fixpoint all_digits (s : string) : bool :=
  match s with
  | EmptyString => true
  | String c rest => (is_digit c && all_digits rest)%bool
  end.

Definition default_port (scheme : string) : option N :=
  if bool_decide (scheme = "http") then Some 80%N
  else if bool_decide (scheme = "https") then Some 443%N
  else if bool_decide (scheme = "ws") then Some 80%N
  else if bool_decide (scheme = "wss") then Some 443%N
  else if bool_decide (scheme = "ftp") then Some 21%N
  else None.

Definition parse_authority (scheme : string) (dflt : N) (rest : string) : option URL :=
  let auth := authority (skip_slashes rest) in
  let hostport := match split_last "@"%char auth with
                  | Some (_, hp) => hp
                  | None => auth
                  end in
  let '(host, port) := match split_last ":"%char hostport with
                       | Some (h, p) => (h, Some p)
                       | None => (hostport, None)
                       end in
  if bool_decide (host = "") then None
  else
    let base := scheme +:+ "://" +:+ toLowerCase host in
    match port with
    | None => Some (mkURL (scheme +:+ ":") base)
    | Some EmptyString => Some (mkURL (scheme +:+ ":") base)
    | Some digits =>
        match parse_digits 0 digits with
        | Some p =>
            if (65535 <? p)%N then None
            else if (p =? dflt)%N then Some (mkURL (scheme +:+ ":") base)
            else Some (mkURL (scheme +:+ ":") (base +:+ ":" +:+ show_port p))
        | None => None
        end
    end.

Definition parse_url (s : string) : option URL :=
  match s with
  | EmptyString => None
  | String c _ =>
      if is_alpha c then
        match scan_scheme s with
        | Some (scheme, rest) =>
            match default_port scheme with
            | Some dflt => parse_authority scheme dflt rest
            | None => Some (mkURL (scheme +:+ ":") "null")
            end
        | None => None
        end
      else None
  end.

Fixpoint join_segments (base : string) (segs : list string) : string :=
  match segs with
  | [] => base
  | seg :: more =>
      let seg' := match seg with
                  | String "." (String "/" tail) => tail
                  | _ => seg
                  end in
      join_segments (base +:+ "/" +:+ seg') more
  end.

Definition host : HostApi :=
  {| URL_new := parse_url;
     Uri_joinPath := join_segments;
     asRelativePath := λ key, key;
     panelWebview := λ _,
       {| cspSource := "https://*.vscode-cdn.net";
          asWebviewUri := λ p, "https://file+.vscode-resource.vscode-cdn.net" +:+ p |} |}.

End NodeHost.

(** ** Vocabulary of the properties *)

(** A live session for [key]: a panel whose change listener is registered. *)
Definition is_live (key : string) (p : Panel) : bool :=
  (p_subscribed p && bool_decide (p_key p = key))%bool.

Definition live_sessions (key : string) (w : World) : nat :=
  length (List.filter (is_live key) (panels w)).

(** The registry and the panels agree: every entry points at a panel that is
    wired for that key, every listening panel is the entry of its key, and a
    panel listens exactly from the end of the handler to its disposal. *)
Definition registry_ok (w : World) : Prop :=
  (∀ key i, previewByDoc w !! key = Some i →
     ∃ p, panels w !! i = Some p ∧ p_key p = key ∧ p_subscribed p = true)
  ∧ (∀ i p, panels w !! i = Some p → p_subscribed p = true →
       previewByDoc w !! p_key p = Some i)
  ∧ (∀ i p, panels w !! i = Some p →
       p_subscribed p = (p_onDispose p && negb (p_disposed p))%bool).


(** An open request for [key] that gets past the guards of the handler: the
    active editor shows a YAML document and the registry has no entry. *)
Definition opens_fresh (key : string) (w : World) : Prop :=
  (∃ doc, documents w !! key = Some doc ∧ isYaml doc = true)
  ∧ previewByDoc w !! key = None.

(** Two states of a panel that differ at most in what was posted, revealed
    or scheduled. *)
Definition same_wiring (p p' : Panel) : Prop :=
  p_key p' = p_key p ∧ p_subscribed p' = p_subscribed p
  ∧ p_onDispose p' = p_onDispose p ∧ p_disposed p' = p_disposed p.

(** The pending timeout of a panel, if any. *)
Definition pending (p : Panel) : option Z := p_send p ≫= timer.

(** Panel [i] carries a live session for [key]: it is not disposed and its
    listener is registered, it has posted [sent] so far, its [sendUpdate]
    has delay [delay] and a timeout that the runtime runs at [due] (if one
    is pending), and the document is [doc]. *)
Definition streaming (w : World) (i : nat) (key : string) (sent : list Message)
    (delay : Z) (due : option Z) (doc : TextDocument) : Prop :=
  ∃ p d, panels w !! i = Some p ∧ p_key p = key ∧ p_subscribed p = true
         ∧ p_disposed p = false ∧ p_posts p = sent
         ∧ p_send p = Some d ∧ delayMs d = delay ∧ timeout_runs_at d = due
         ∧ documents w !! key = Some doc.

(** Whether a timeout that the runtime runs at [due] has run by [now]. *)
Definition elapsed (now : Z) (due : option Z) : bool :=
  match due with
  | Some t => t <=? now
  | None => false
  end.

(** Change notifications for [key]: each new text with the time elapsed
    since the event before it. *)
Definition changes (key : string) (cs : list (Z * string)) : list (Z * Event) :=
  (λ c, (fst c, DocChange key (snd c))) <$> cs.

(** A document, an installation and a file system to run examples on. *)
Module Demo.

Definition ctx : ExtensionContext := mkContext "/ext".
Definition key : string := "file:///work/a.yaml".
Definition doc : TextDocument := mkDoc "/work/a.yaml" "/work/a.yaml" "yaml" "a: 1" 1.
Definition demoPath : string := "/ext/src/demo/index.html".
Definition webview : Webview := panelWebview (HostApi := NodeHost.host) 0.

Definition world (c : Config) : World :=
  freshWorld ctx c {[ key := doc ]} {[ demoPath := "<html>demo</html>" ]}.

(** What [resolveAppSrc] returns for the bundled page on this installation. *)
Definition bundled : AppSrc :=
  mkAppSrc "https://file+.vscode-resource.vscode-cdn.net/ext/src/demo/index.html"
           "https://*.vscode-cdn.net vscode-resource:" "*".

Definition defaults : Config := mkConfig None None None.

(** A debounce delay beyond what [setTimeout] takes. *)
Definition slow : Config := mkConfig None (Some 3000000000) None.

(** The default installation after one open request whose server bound
    port 54321, and the panel of that session. *)
Definition opened : World :=
  fst (openCmd (H := NodeHost.host) (Some key) (Listening (AddrInfo 54321)) "n0"
         (world defaults)).

Definition servedHtml : WebviewHtml :=
  mkHtml "n0" "https://*.vscode-cdn.net" "http://127.0.0.1:54321" "local"
         "src/demo/index.html" "http://127.0.0.1:54321/index.html"
         "http://127.0.0.1:54321" LocalServed.

Definition panel : Panel :=
  wiredPanel (H := NodeHost.host) key 0 300 servedHtml (Some 0%nat).

End Demo.


(** ** [escapeHtml] as the source writes it, and [getNonce] *)

(** [s.replace(/c/g, by)] for a one-character pattern. *)
Fixpoint replaceAll (c : ascii) (by_ : string) (s : string) : string :=
  match s with
  | EmptyString => EmptyString
  | String a rest =>
      (if bool_decide (a = c) then by_ else String a EmptyString)
        +:+ replaceAll c by_ rest
  end.

(** The five [replace] calls of [escapeHtml], in the order of the source. *)
Definition escapeHtml_replaces (input : string) : string :=
  replaceAll "'" "&#039;"
    (replaceAll (ascii_of_nat 34) "&quot;"
       (replaceAll ">" "&gt;"
          (replaceAll "<" "&lt;"
             (replaceAll "&" "&amp;" input)))).

(** What a browser reads back from escaped text: the five entities that
    [escapeHtml] writes, decoded. *)
Fixpoint unescapeHtml (s : string) : string :=
  match s with
  | String "&" (String "a" (String "m" (String "p" (String ";" rest)))) =>
      String "&" (unescapeHtml rest)
  | String "&" (String "l" (String "t" (String ";" rest))) =>
      String "<" (unescapeHtml rest)
  | String "&" (String "g" (String "t" (String ";" rest))) =>
      String ">" (unescapeHtml rest)
  | String "&" (String "q" (String "u" (String "o" (String "t" (String ";" rest))))) =>
      String (ascii_of_nat 34) (unescapeHtml rest)
  | String "&" (String "#" (String "0" (String "3" (String "9" (String ";" rest))))) =>
      String "'" (unescapeHtml rest)
  | String c rest => String c (unescapeHtml rest)
  | EmptyString => EmptyString
  end.

(** The characters that [escapeHtml] replaces, [&] apart. *)
Definition is_markup_char (c : ascii) : bool :=
  let n := nat_of_ascii c in
  (Nat.eqb n 60 || Nat.eqb n 62 || Nat.eqb n 34 || Nat.eqb n 39)%bool.

Fixpoint string_forallb (f : ascii → bool) (s : string) : bool :=
  match s with
  | EmptyString => true
  | String c rest => (f c && string_forallb f rest)%bool
  end.

Definition possible : string :=
  "ABCDEFGHIJKLMNOPQRSTUVWXYZabcdefghijklmnopqrstuvwxyz0123456789".

(** [s.charAt(i)] for an integer [i]: the empty string out of range. *)
Definition charAt (s : string) (i : Z) : string :=
  if i <? 0 then EmptyString
  else match String.get (Z.to_nat i) s with
       | Some c => String c EmptyString
       | None => EmptyString
       end.

(** The loop of [getNonce] from iteration [i] on, [n] iterations left;
    [floors k] is what [Math.floor(Math.random() * possible.length)] gives
    in iteration [k]. *)
Fixpoint getNonce_from (floors : nat → Z) (i n : nat) (text : string) : string :=
  match n with
  | O => text
  | S n' => getNonce_from floors (S i) n' (text +:+ charAt possible (floors i))
  end.

Definition getNonce (floors : nat → Z) : string :=
  getNonce_from floors 0 32 EmptyString.

(** An ASCII letter or digit. *)
Definition is_alnum (c : ascii) : bool :=
  let n := nat_of_ascii c in
  ((Nat.leb 48 n && Nat.leb n 57) || (Nat.leb 65 n && Nat.leb n 90)
   || (Nat.leb 97 n && Nat.leb n 122))%bool.

(** ** Invariants of the sessions *)

(** The versions [vs] never go down. *)
Definition ascending (vs : list Z) : Prop :=
  ∀ j k a b, (j ≤ k)%nat → vs !! j = Some a → vs !! k = Some b → a ≤ b.

(** What holds of every panel at time [now] with the documents [docs]: its
    document is there; a listening panel has its [sendUpdate] and its
    dispose handler and is not disposed; a pending timeout was set at [now]
    or before; a listening panel with no timeout pending has posted the
    document as it is now; and what was posted are [yaml:update] messages
    for its document, in version order, none ahead of the document. *)
Definition panel_ok (now : Z) (docs : gmap string TextDocument) (p : Panel) : Prop :=
  ∃ doc, docs !! p_key p = Some doc
  ∧ (p_subscribed p = true →
     is_Some (p_send p) ∧ p_disposed p = false ∧ p_onDispose p = true)
  ∧ (∀ d t, p_send p = Some d → timer d = Some t → t ≤ now + delayMs d)
  ∧ (p_subscribed p = true → pending p = None →
     last (p_posts p) = Some (updateMessage (p_key p) doc))
  ∧ Forall (λ m, msg_type m = "yaml:update" ∧ uri (payload m) = p_key p
                 ∧ version (payload m) ≤ doc_version doc) (p_posts p)
  ∧ ascending ((λ m, version (payload m)) <$> p_posts p).

Definition sessions_ok (w : World) : Prop :=
  Forall (panel_ok (clock w) (documents w)) (panels w).

(** Every server that a panel holds is held by that panel alone and is in
    the list of servers, and it listens while the panel does. *)
Definition servers_ok (w : World) : Prop :=
  ∀ i p s, panels w !! i = Some p → p_server p = Some s →
    (∀ j q, panels w !! j = Some q → p_server q = Some s → j = i)
    ∧ ∃ sv, servers w !! s = Some sv
            ∧ (p_subscribed p = true → sv_listening sv = true).

(** What a panel keeps for life: its document, title, content, server and
    debounce delay. *)
Definition same_frame (p p' : Panel) : Prop :=
  p_key p' = p_key p ∧ p_title p' = p_title p ∧ p_html p' = p_html p
  ∧ p_server p' = p_server p ∧ delayMs <$> p_send p' = delayMs <$> p_send p.

(** None of [<], [>], the double and the single quote occurs in [s]. *)
Definition markup_free (s : string) : Prop :=
  string_forallb (λ c, negb (is_markup_char c)) s = true.

(** More of the example installation: a text file beside the YAML document,
    a remote configuration, and the session of [Demo.opened] once it has
    posted the document twice. *)
Module Demo2.

Definition notesKey : string := "file:///work/notes.txt".
Definition notes : TextDocument :=
  mkDoc "/work/notes.txt" "/work/notes.txt" "plaintext" "hello" 1.

Definition docs : gmap string TextDocument :=
  {[ Demo.key := Demo.doc; notesKey := notes ]}.

Definition files : gmap string string := {[ Demo.demoPath := "<html>demo</html>" ]}.

Definition world (c : Config) : World := freshWorld Demo.ctx c docs files.

Definition remote : Config := mkConfig (Some "https://ex.com/app?a=1&b=2") None None.

Definition openDemo : Z * Event :=
  (0, CmdOpen (Some Demo.key) (Listening (AddrInfo 54321)) "n0").

Definition history : list (Z * Event) :=
  [openDemo; (300, Tick); (50, DocChange Demo.key "a: 2"); (300, Tick)].

Definition synced : Panel :=
  mkPanel Demo.key "Preview: file:///work/a.yaml" (Some Demo.servedHtml) false 0
    [updateMessage Demo.key Demo.doc;
     updateMessage Demo.key (edited "a: 2" Demo.doc)]
    (Some (mkDebounced None 300)) true true (Some 0%nat).

Definition upperCase : TextDocument :=
  mkDoc "/work/CONFIG.YAML" "/work/CONFIG.YAML" "plaintext" "" 1.

End Demo2.

(** ** Invocations that overlap *)

(** An invocation of the command in flight: where it waits, with what it
    holds there. *)
Inductive Await :=
| AtShow (key : string)        (* at [await showTextDocument] *)
| AtListen (loc : Locals).     (* at [await startDemoServer] *)

Definition await_key (a : Await) : string :=
  match a with
  | AtShow key => key
  | AtListen loc => l_key loc
  end.

(** The editor together with the invocations of the command, in the order
    in which they were made; [None] for one that is over. *)
Record Flight := mkFlight {
  world : World;
  inflight : list (option Await)
}.

(** What happens next: the command is invoked and runs to its first
    [await]; [showTextDocument] resolves or rejects for invocation [n]; the
    bind that invocation [n] awaits settles; or the event loop handles one
    of its events. *)
Inductive Act :=
| Invoke (editor : option string)
| ShowDone (n : nat) (nonce : string)
| ShowFailed (n : nat)
| ListenDone (n : nat) (listen : ListenOutcome) (nonce : string)
| Happens (e : Event).

Section Flights.
Context `{HostApi}.

Definition act (a : Act) (f : Flight) : Flight :=
  match a with
  | Invoke editor =>
      match openCmd_begin editor (world f) with
      | (w, Finished) => mkFlight w (inflight f)
      | (w, AwaitsShow key) => mkFlight w (inflight f ++ [Some (AtShow key)])
      end
  | ShowDone n nonce =>
      match inflight f !! n with
      | Some (Some (AtShow key)) =>
          let '(w, loc) := openCmd_shown key (world f) in
          match l_server loc with
          | Some _ => mkFlight w (<[n := Some (AtListen loc)]> (inflight f))
          | None =>
              mkFlight (fst (openCmd_finish loc None None nonce w))
                       (<[n := None]> (inflight f))
          end
      | _ => f
      end
  | ShowFailed n =>
      match inflight f !! n with
      | Some (Some (AtShow _)) => mkFlight (world f) (<[n := None]> (inflight f))
      | _ => f
      end
  | ListenDone n listen nonce =>
      match inflight f !! n with
      | Some (Some (AtListen loc)) =>
          mkFlight (fst (openCmd_settled loc listen nonce (world f)))
                   (<[n := None]> (inflight f))
      | _ => f
      end
  | Happens e => mkFlight (handle e (world f)) (inflight f)
  end.

(** An act together with the time elapsed since the one before it. *)
Definition fstep (f : Flight) (ta : Z * Act) : Flight :=
  act (snd ta) (mkFlight (advance (fst ta) (world f)) (inflight f)).

Definition frun (f : Flight) (acts : list (Z * Act)) : Flight :=
  foldl fstep f acts.

(** The document for which the act starts a new preview in the world [w]:
    an invocation that gets past the guards and misses the registry. *)
Definition starts (a : Act) (w : World) : option string :=
  let begun editor :=
    match snd (openCmd_begin editor w) with
    | AwaitsShow key => Some key
    | Finished => None
    end in
  match a with
  | Invoke editor => begun editor
  | Happens (CmdOpen editor _ _) => begun editor
  | _ => None
  end.

End Flights.

(** No invocation for [key] is in flight. *)
Definition calm (key : string) (f : Flight) : Prop :=
  ∀ n a, inflight f !! n = Some (Some a) → await_key a ≠ key.

(** No invocation starts a preview for a document while another invocation
    for the same document is in flight. *)
Fixpoint orderly `{HostApi} (f : Flight) (acts : list (Z * Act)) : Prop :=
  match acts with
  | [] => True
  | ta :: rest =>
      (∀ key, starts (snd ta) (advance (fst ta) (world f)) = Some key → calm key f)
      ∧ orderly (fstep f ta) rest
  end.

(** What an invocation in flight relies on: the registry has no entry for
    its document, and the panel it has created is still as created, or
    disposed. *)
Definition await_ok (w : World) (a : Await) : Prop :=
  previewByDoc w !! await_key a = None
  ∧ match a with
    | AtShow _ => True
    | AtListen loc =>
        ∃ q, panels w !! l_panel loc = Some q ∧ p_key q = l_key loc
             ∧ p_subscribed q = false ∧ p_onDispose q = false
    end.

(** Registry and panels agree, and the invocations in flight are for
    different documents, none of which has a registry entry. *)
Definition flight_ok (f : Flight) : Prop :=
  registry_ok (world f)
  ∧ (∀ n a, inflight f !! n = Some (Some a) → await_ok (world f) a)
  ∧ (∀ n m a b, inflight f !! n = Some (Some a) → inflight f !! m = Some (Some b) →
       await_key a = await_key b → n = m).
(** * Properties *)

(** ** Source resolution *)

Section ResolverFacts.
Context {H : HostApi}.

Lemma isHttpsUrl_true (v : string) :
  isHttpsUrl (Some v) = true ↔
  v ≠ "" ∧ ∃ u, URL_new v = Some u ∧ protocol u = "https:".
Proof.
  unfold isHttpsUrl, truthy. split.
  - destruct (bool_decide_reflect (v = "")) as [->|Hne]; simpl; [discriminate|].
    destruct (URL_new v) as [u|]; [|discriminate].
    intros Hp. apply bool_decide_eq_true in Hp. eauto.
  - intros [Hne (u & Hu & Hp)].
    rewrite bool_decide_eq_false_2 by done. simpl.
    rewrite Hu. by apply bool_decide_eq_true.
Qed.

Lemma isHttpsUrl_malformed (v : string) :
  URL_new v = None → isHttpsUrl (Some v) = false.
Proof.
  intros Hv. unfold isHttpsUrl. destruct (negb _); [done|]. by rewrite Hv.
Qed.

Lemma isHttpsUrl_empty : isHttpsUrl (Some "") = false.
Proof. reflexivity. Qed.


Lemma resolve_remote webview ctx v demoUrl allowHttp :
  isHttpsUrl (Some v) = true →
  ∃ u, URL_new v = Some u ∧ protocol u = "https:" ∧
       resolveAppSrc_branch webview ctx v demoUrl allowHttp =
       Returned (Remote, mkAppSrc v (origin u) (origin u)).
Proof.
  intros Hs. pose proof Hs as Hs'. apply isHttpsUrl_true in Hs' as [_ (u & Hu & Hp)].
  exists u. unfold resolveAppSrc_branch. by rewrite Hs, Hu.
Qed.

Lemma resolve_not_remote webview ctx v demoUrl allowHttp r :
  isHttpsUrl (Some v) = false →
  resolveAppSrc_branch webview ctx v demoUrl allowHttp ≠ Returned (Remote, r).
Proof.
  intros Hs. unfold resolveAppSrc_branch. rewrite Hs.
  destruct (js_and allowHttp demoUrl) as [d|]; [|discriminate].
  destruct (URL_new d); discriminate.
Qed.


(** C4: resolution returns through the remote branch exactly when the
    configured value parses as a URL whose protocol is [https:]; the frame
    then loads the configured value itself, and both the frame-src entry and
    the target origin of the relay are the origin of that URL.  The runtime's
    URL constructor is assumed to reject the empty string. *)
Theorem remote_iff_https_url
    (Hempty : URL_new "" = None)
    (webview : Webview) (ctx : ExtensionContext) (v : string)
    (demoUrl : option string) (allowHttp : bool) :
  ((∃ r, resolveAppSrc_branch webview ctx v demoUrl allowHttp = Returned (Remote, r))
   ↔ (∃ u, URL_new v = Some u ∧ protocol u = "https:"))
  ∧ (∀ r, resolveAppSrc_branch webview ctx v demoUrl allowHttp = Returned (Remote, r) →
       ∃ u, URL_new v = Some u ∧
            src r = v ∧ targetOrigin r = origin u ∧ frameSrcCsp r = origin u).
Proof.
  split; [split|].
  - intros [r Hr]. destruct (isHttpsUrl (Some v)) eqn:Hs.
    + apply isHttpsUrl_true in Hs as [_ Hu]. exact Hu.
    + by apply resolve_not_remote with (r := r) in Hr.
  - intros (u & Hu & Hp).
    assert (isHttpsUrl (Some v) = true) as Hs.
    { apply isHttpsUrl_true. split; [|eauto]. intros ->. congruence. }
    destruct (resolve_remote webview ctx v demoUrl allowHttp Hs) as (u' & _ & _ & Hr).
    eauto.
  - intros r Hr. destruct (isHttpsUrl (Some v)) eqn:Hs.
    + destruct (resolve_remote webview ctx v demoUrl allowHttp Hs) as (u & Hu & _ & Hr').
      rewrite Hr' in Hr. injection Hr as <-. by exists u.
    + by apply resolve_not_remote with (r := r) in Hr.
Qed.

End ResolverFacts.

Lemma remote_iff_https_url_witness :
  URL_new (HostApi := NodeHost.host) "" = None ∧
  ∃ r, resolveAppSrc_branch (H := NodeHost.host) Demo.webview Demo.ctx
         "https://ex.com/app" None true = Returned (Remote, r) ∧
       src r = "https://ex.com/app" ∧ targetOrigin r = "https://ex.com".
Proof.
  split; [reflexivity|].
  pose proof (remote_iff_https_url (H := NodeHost.host) eq_refl Demo.webview Demo.ctx
                "https://ex.com/app" None true) as [[_ Hr] Ht].
  destruct Hr as [r Hr].
  { exists (mkURL "https:" "https://ex.com"). split; reflexivity. }
  exists r. split; [exact Hr|].
  destruct (Ht r Hr) as (u & Hu & Hsrc & Hto & _).
  split; [exact Hsrc|]. rewrite Hto.
  vm_compute in Hu. injection Hu as <-. reflexivity.
Defined.

Section PolicyFacts.
Context {H : HostApi}.

Lemma resolve_served webview ctx v d u :
  isHttpsUrl (Some v) = false → d ≠ "" → URL_new d = Some u →
  resolveAppSrc_branch webview ctx v (Some d) true =
  Returned (LocalServed, mkAppSrc d (origin u) (origin u)).
Proof.
  intros Hs Hd Hu. unfold resolveAppSrc_branch, js_and. rewrite Hs. simpl.
  rewrite bool_decide_eq_false_2 by done. simpl. by rewrite Hu.
Qed.

Lemma demoUrlOfPort_nonempty p : demoUrlOfPort p ≠ "".
Proof. discriminate. Qed.

(** C5: what [resolveAppSrc] hands to the template, by branch.  For the
    remote and the served branch the frame-src entry is the one origin of
    the address loaded, and the relay posts to that same origin; for the
    bundled branch the frame-src entry holds the webview's [cspSource] (and
    [vscode-resource:]) and the relay posts to ["*"]; [getWebviewHtml] puts
    these values, unchanged, into the frame-src directive and the relay
    script.  A server that bound port [p] gives the address
    [http://127.0.0.1:p/index.html], and, the runtime reading the origin of
    that address as [http://127.0.0.1:p], the served branch pins frame-src
    and target origin to it. *)
Theorem embedding_policy_by_source
    (webview : Webview) (ctx : ExtensionContext) (remoteUrl : string) :
  (∀ demoUrl allowHttp kind r,
     resolveAppSrc_branch webview ctx remoteUrl demoUrl allowHttp = Returned (kind, r) →
     match kind with
     | Remote =>
         ∃ u, URL_new remoteUrl = Some u ∧ src r = remoteUrl ∧
              frameSrcCsp r = origin u ∧ targetOrigin r = origin u
     | LocalServed =>
         ∃ d u, demoUrl = Some d ∧ URL_new d = Some u ∧ src r = d ∧
                frameSrcCsp r = origin u ∧ targetOrigin r = origin u
     | LocalBundled =>
         frameSrcCsp r = cspSource webview +:+ " vscode-resource:" ∧
         targetOrigin r = "*"
     end
     ∧ ∀ nonce, ∃ html,
         getWebviewHtml webview ctx nonce remoteUrl demoUrl allowHttp = Returned html
         ∧ html_source html = kind
         ∧ html_frameSrc html = frameSrcCsp r
         ∧ html_relayTarget html = targetOrigin r)
  ∧ (∀ (p : N) (u : URL),
       isHttpsUrl (Some remoteUrl) = false →
       URL_new (demoUrlOfPort p) = Some u →
       origin u = "http://127.0.0.1:" +:+ show_port p →
       snd (startDemoServer ctx (Listening (AddrInfo p)))
         = Returned ("http://127.0.0.1:" +:+ show_port p +:+ "/index.html")
       ∧ resolveAppSrc_branch webview ctx remoteUrl
           (Some ("http://127.0.0.1:" +:+ show_port p +:+ "/index.html")) true
         = Returned (LocalServed,
             mkAppSrc ("http://127.0.0.1:" +:+ show_port p +:+ "/index.html")
                      ("http://127.0.0.1:" +:+ show_port p)
                      ("http://127.0.0.1:" +:+ show_port p))).
Proof.
  split.
  - intros demoUrl allowHttp kind r Hr. split.
    + revert Hr. unfold resolveAppSrc_branch.
      destruct (isHttpsUrl (Some remoteUrl)).
      { destruct (URL_new remoteUrl) as [u|] eqn:Hu; [|discriminate].
        intros [= <- <-]. by exists u. }
      destruct (js_and allowHttp demoUrl) as [d|] eqn:Hand.
      { destruct (URL_new d) as [u|] eqn:Hu; [|discriminate].
        intros [= <- <-]. exists d, u. split; [|done].
        unfold js_and in Hand. by destruct (allowHttp && truthy demoUrl)%bool. }
      intros [= <- <-]. done.
    + intros nonce. unfold getWebviewHtml. rewrite Hr. by eexists.
  - intros p u Hs Hu Ho. split; [reflexivity|].
    rewrite <- Ho.
    apply (resolve_served webview ctx remoteUrl (demoUrlOfPort p) u Hs
             (demoUrlOfPort_nonempty p) Hu).
Qed.

End PolicyFacts.

(** ** The concrete host reads loopback origins as the runtime does *)

Lemma digits_of_uint d : NodeHost.all_digits (NilEmpty.string_of_uint d) = true.
Proof. induction d; simpl; auto. Qed.

Lemma parse_digits_acc d a :
  NodeHost.parse_digits (Npos a) (NilEmpty.string_of_uint d)
  = Some (Npos (Pos.of_uint_acc d a)).
Proof.
  revert a. induction d; intros a; [reflexivity| | | | | | | | | |];
  cbn [NilEmpty.string_of_uint NodeHost.parse_digits Pos.of_uint_acc];
  (match goal with |- (if ?b then _ else _) = _ => change b with true end);
  cbv iota; rewrite <- IHd; f_equal;
  (match goal with
   | |- context [N.of_nat ?t] =>
       let v := eval vm_compute in (N.of_nat t) in change (N.of_nat t) with v
   end); lia.
Qed.

Lemma parse_digits_uint d :
  NodeHost.parse_digits 0 (NilEmpty.string_of_uint d) = Some (Pos.of_uint d).
Proof.
  induction d; [reflexivity| | | | | | | | | |];
  cbn [NilEmpty.string_of_uint NodeHost.parse_digits Pos.of_uint];
  (match goal with |- (if ?b then _ else _) = _ => change b with true end);
  cbv iota; first [exact IHd | apply (parse_digits_acc d)].
Qed.

(** Printing a port and reading it back gives the port. *)
Lemma parse_show_port p : NodeHost.parse_digits 0 (show_port p) = Some p.
Proof.
  unfold show_port, NilZero.string_of_uint.
  rewrite <- (DecimalN.Unsigned.of_to p) at 2.
  destruct (N.to_uint p) eqn:E; try apply parse_digits_uint.
  reflexivity.
Qed.

Lemma show_port_nonempty p : show_port p ≠ "".
Proof. unfold show_port, NilZero.string_of_uint. by destruct (N.to_uint p). Qed.

Lemma digits_show_port p : NodeHost.all_digits (show_port p) = true.
Proof.
  unfold show_port, NilZero.string_of_uint.
  destruct (N.to_uint p) eqn:E; try (rewrite <- E; apply digits_of_uint);
    reflexivity.
Qed.

Lemma authority_digits ds rest :
  NodeHost.all_digits ds = true →
  NodeHost.authority (ds +:+ String "/" rest) = ds.
Proof.
  induction ds as [|c ds IH]; simpl; [done|].
  intros Hd. apply andb_true_iff in Hd as [Hc Hd].
  assert ((NodeHost.is_slash c || bool_decide (c = "?"%char)
           || bool_decide (c = "#"%char))%bool = false) as ->.
  { revert Hc. unfold NodeHost.is_digit, NodeHost.is_slash.
    destruct c as [[] [] [] [] [] [] [] []]; vm_compute; congruence. }
  by rewrite IH.
Qed.

Lemma split_last_digits sep ds :
  NodeHost.is_digit sep = false → NodeHost.all_digits ds = true →
  NodeHost.split_last sep ds = None.
Proof.
  intros Hsep. induction ds as [|c ds IH]; simpl; [done|].
  intros Hd. apply andb_true_iff in Hd as [Hc Hd]. rewrite (IH Hd).
  rewrite bool_decide_eq_false_2; [done|]. intros ->. congruence.
Qed.

Lemma split_last_cons_none sep c rest :
  NodeHost.split_last sep rest = None → c ≠ sep →
  NodeHost.split_last sep (String c rest) = None.
Proof. intros Hr Hc. simpl. rewrite Hr. by rewrite bool_decide_eq_false_2. Qed.

Lemma split_last_cons_some sep c rest a b :
  NodeHost.split_last sep rest = Some (a, b) →
  NodeHost.split_last sep (String c rest) = Some (String c a, b).
Proof. intros Hr. simpl. by rewrite Hr. Qed.

Lemma split_last_here sep rest :
  NodeHost.split_last sep rest = None →
  NodeHost.split_last sep (String sep rest) = Some ("", rest).
Proof. intros Hr. simpl. rewrite Hr. by rewrite bool_decide_eq_true_2. Qed.

Lemma append_cons c s t : String c s +:+ t = String c (s +:+ t).
Proof. reflexivity. Qed.

Lemma append_nil t : "" +:+ t = t.
Proof. reflexivity. Qed.

Lemma scan_scheme_http rest :
  NodeHost.scan_scheme ("http:" +:+ rest) = Some ("http", rest).
Proof. reflexivity. Qed.

Lemma authority_loopback rest :
  NodeHost.authority (NodeHost.skip_slashes ("//127.0.0.1:" +:+ rest))
  = "127.0.0.1:" +:+ NodeHost.authority rest.
Proof. reflexivity. Qed.

(** For every port but the default one of [http] the model of the URL
    constructor reads the address of the demo server with the origin
    [http://127.0.0.1:p]. *)
Lemma loopback_origin (p : N) :
  (p ≤ 65535)%N → p ≠ 80%N →
  NodeHost.parse_url (demoUrlOfPort p)
  = Some (mkURL "http:" ("http://127.0.0.1:" +:+ show_port p)).
Proof.
  intros Hle Hne.
  pose proof (digits_show_port p) as Hd.
  pose proof (parse_show_port p) as Hp.
  pose proof (show_port_nonempty p) as Hn.
  change (demoUrlOfPort p)
    with ("http:" +:+ "//127.0.0.1:" +:+ show_port p +:+ String "/" "index.html").
  unfold NodeHost.parse_url.
  change (NodeHost.is_alpha "h") with true. cbv iota.
  rewrite scan_scheme_http.
  change (NodeHost.default_port "http") with (Some 80%N). cbv iota beta.
  unfold NodeHost.parse_authority.
  rewrite authority_loopback, (authority_digits _ _ Hd).
  assert (NodeHost.split_last "@" ("127.0.0.1:" +:+ show_port p) = None) as ->.
  { rewrite !append_cons, append_nil.
    repeat (apply split_last_cons_none; [|discriminate]).
    by apply split_last_digits. }
  assert (NodeHost.split_last ":" ("127.0.0.1:" +:+ show_port p)
          = Some ("127.0.0.1", show_port p)) as ->.
  { rewrite !append_cons, append_nil.
    repeat apply split_last_cons_some.
    apply split_last_here. by apply split_last_digits. }
  change (bool_decide ("127.0.0.1" = "")) with false.
  change (toLowerCase "127.0.0.1") with "127.0.0.1". cbv iota beta.
  destruct (show_port p) as [|c ds] eqn:Eds; [done|].
  rewrite Hp.
  assert ((65535 <? p)%N = false) as -> by (apply N.ltb_ge; lia).
  assert ((p =? 80)%N = false) as -> by (by apply N.eqb_neq).
  by rewrite Eds.
Qed.

Lemma embedding_policy_by_source_witness :
  resolveAppSrc_branch (H := NodeHost.host) Demo.webview Demo.ctx ""
      (Some "http://127.0.0.1:54321/index.html") true
    = Returned (LocalServed,
        mkAppSrc "http://127.0.0.1:54321/index.html"
                 "http://127.0.0.1:54321" "http://127.0.0.1:54321")
  ∧ frameSrcCsp Demo.bundled = cspSource Demo.webview +:+ " vscode-resource:"
  ∧ targetOrigin Demo.bundled = "*".
Proof.
  pose proof (embedding_policy_by_source (H := NodeHost.host)
                Demo.webview Demo.ctx "") as [_ Hport].
  pose proof (embedding_policy_by_source (H := NodeHost.host)
                Demo.webview Demo.ctx "http://insecure.example") as [Hkind _].
  split.
  - exact (proj2 (Hport 54321%N (mkURL "http:" "http://127.0.0.1:54321")
                    eq_refl (loopback_origin 54321 ltac:(lia) ltac:(lia)) eq_refl)).
  - exact (proj1 (Hkind None false LocalBundled Demo.bundled eq_refl)).
Defined.

(** ** The demo server *)

Lemma js_split_cons sep s : ∃ h t, js_split sep s = h :: t.
Proof.
  induction s as [|c s IH]; simpl; [eauto|].
  destruct (bool_decide (c = sep)); [eauto|].
  destruct IH as (h & t & ->). eauto.
Qed.

Lemma js_split_prefix sep p q :
  has_char sep p = false →
  js_split sep (p +:+ String sep q) = p :: js_split sep q.
Proof.
  induction p as [|c p IH]; simpl.
  - intros _. by rewrite bool_decide_eq_true_2.
  - intros Hc. apply orb_false_iff in Hc as [Hc Hp].
    rewrite Hc. by rewrite (IH Hp).
Qed.

Lemma urlPath_query p q :
  has_char "?" p = false → urlPath (Some (p +:+ String "?" q)) = Some p.
Proof.
  intros Hp. unfold urlPath, truthy.
  rewrite bool_decide_eq_false_2 by (destruct p; discriminate). simpl.
  by rewrite (js_split_prefix _ _ _ Hp).
Qed.

Lemma requestListener_by_path demoPath fs url url' :
  urlPath url = urlPath url' →
  requestListener demoPath fs url = requestListener demoPath fs url'.
Proof. intros Hp. unfold requestListener. by rewrite Hp. Qed.

(** C10: the listener matches on what precedes the first [?] of the request
    URL, and takes a missing (or empty) URL for [/]: [/index.html?x=1] and
    [/?q] are answered as [/index.html] and [/] are, with status 200 and the
    payload when the file can be read. *)
Theorem query_string_ignored
    (demoPath : string) (fs : gmap string string) (p q : string)
    (Hp : has_char "?" p = false) :
  urlPath (Some (p +:+ "?" +:+ q)) = Some p
  ∧ (p ≠ "" →
     requestListener demoPath fs (Some (p +:+ "?" +:+ q))
       = requestListener demoPath fs (Some p))
  ∧ requestListener demoPath fs None = requestListener demoPath fs (Some "/")
  ∧ requestListener demoPath fs (Some "") = requestListener demoPath fs (Some "/")
  ∧ (∀ html, fs !! demoPath = Some html →
       requestListener demoPath fs (Some "/index.html?x=1")
         = mkResponse 200 [("Content-Type", "text/html; charset=utf-8")] (Some html)
       ∧ requestListener demoPath fs (Some "/?q")
         = mkResponse 200 [("Content-Type", "text/html; charset=utf-8")] (Some html)).
Proof.
  split; [|split; [|split; [|split]]].
  - exact (urlPath_query p q Hp).
  - intros Hne. apply requestListener_by_path.
    change (urlPath (Some (p +:+ String "?" q)) = urlPath (Some p)).
    rewrite (urlPath_query p q Hp). unfold urlPath, truthy.
    rewrite bool_decide_eq_false_2 by done. simpl.
    clear Hne. induction p as [|c p IH]; [done|].
    simpl in *. apply orb_false_iff in Hp as [Hc Hp]. rewrite Hc.
    destruct (js_split_cons "?" p) as (h & t & Hs).
    specialize (IH Hp). rewrite Hs in *. simpl in *. congruence.
  - reflexivity.
  - reflexivity.
  - intros html Hf. unfold requestListener. simpl. by rewrite Hf.
Qed.

Lemma query_string_ignored_witness :
  urlPath (Some "/index.html?x=1") = Some "/index.html"
  ∧ requestListener Demo.demoPath (files (Demo.world (mkConfig None None None)))
      (Some "/index.html?x=1")
    = mkResponse 200 [("Content-Type", "text/html; charset=utf-8")]
        (Some "<html>demo</html>").
Proof.
  pose proof (query_string_ignored Demo.demoPath
                (files (Demo.world (mkConfig None None None)))
                "/index.html" "x=1" eq_refl) as (Hpath & _ & _ & _ & Hserved).
  split; [exact Hpath|].
  exact (proj1 (Hserved "<html>demo</html>" eq_refl)).
Defined.

Lemma requestListener_served demoPath fs url html :
  urlPath url = Some "/" ∨ urlPath url = Some "/index.html" →
  fs !! demoPath = Some html →
  requestListener demoPath fs url
    = mkResponse 200 [("Content-Type", "text/html; charset=utf-8")] (Some html).
Proof.
  intros Hp Hf. unfold requestListener. rewrite Hf. by destruct Hp as [-> | ->].
Qed.

Lemma requestListener_unreadable demoPath fs url :
  urlPath url = Some "/" ∨ urlPath url = Some "/index.html" →
  fs !! demoPath = None →
  requestListener demoPath fs url = mkResponse 500 [] (Some "Failed to load demo").
Proof.
  intros Hp Hf. unfold requestListener. rewrite Hf. by destruct Hp as [-> | ->].
Qed.

Lemma requestListener_not_found demoPath fs url :
  urlPath url ≠ Some "/" → urlPath url ≠ Some "/index.html" →
  requestListener demoPath fs url = mkResponse 404 [] (Some "Not Found").
Proof.
  intros H1 H2. unfold requestListener.
  by rewrite !bool_decide_eq_true_2.
Qed.

(** C8: a request that reaches a listening demo server gets one response.
    When its path is [/] or [/index.html] the response is 200 with
    [Content-Type: text/html; charset=utf-8] and the content the file has at
    that moment (a request after the file was rewritten carries the new
    content), or 500 when the file cannot be read; any other path gets 404.
    The request changes nothing else: panels, registry and servers stay as
    they were. *)
Theorem demo_server_responses
    (w : World) (sv : nat) (s : Server) (url : option string)
    (Hsv : servers w !! sv = Some s) (Hlisten : sv_listening s = true) :
  let res := requestListener (sv_demoPath s) (files w) url in
  let w' := httpRequest sv url w in
  responses w' = (responses w ++ [res])%list
  ∧ (urlPath url = Some "/" ∨ urlPath url = Some "/index.html" →
       match files w !! sv_demoPath s with
       | Some html =>
           res = mkResponse 200 [("Content-Type", "text/html; charset=utf-8")] (Some html)
       | None => statusCode res = 500
       end
       ∧ ∀ data,
           responses (httpRequest sv url
                        (with_files (<[sv_demoPath s := data]> (files w)) w))
           = (responses w ++
               [mkResponse 200 [("Content-Type", "text/html; charset=utf-8")]
                           (Some data)])%list)
  ∧ (urlPath url ≠ Some "/" → urlPath url ≠ Some "/index.html" → statusCode res = 404)
  ∧ panels w' = panels w ∧ previewByDoc w' = previewByDoc w ∧ servers w' = servers w.
Proof.
  simpl. unfold httpRequest. rewrite Hsv, Hlisten. simpl.
  split; [done|]. split; [|split; [|done]].
  - intros Hp. split.
    + destruct (files w !! sv_demoPath s) as [html|] eqn:Hf.
      * by apply requestListener_served.
      * by rewrite requestListener_unreadable.
    + intros data. rewrite Hsv, Hlisten. simpl. f_equal. f_equal.
      apply requestListener_served; [done|]. apply lookup_insert_eq.
  - intros H1 H2. by rewrite requestListener_not_found.
Qed.

(** ** The command handler *)

Lemma insert_last {A} (l : list A) (x y : A) :
  <[length l := x]> (l ++ [y])%list = (l ++ [x])%list.
Proof. induction l as [|a l IH]; simpl; [done|]. by rewrite IH. Qed.


Section CommandFacts.
Context {H : HostApi}.

(** What a run of [createPreview] leaves behind: at most one more server,
    one more panel, and a registry entry only when the handler ran to its
    end. *)
Lemma createPreview_result key listen nonce w :
  (∃ html demoServer svs,
     createPreview key listen nonce w =
       (mkWorld (clock w) (extension w) (config w) (documents w) (files w)
          (panels w ++ [wiredPanel key (clock w) (effectiveDebounceMs (config w))
                          html demoServer])
          (servers w ++ svs) (<[key := length (panels w)]> (previewByDoc w))
          (notices w) (responses w),
        Returned tt)
     ∧ (length svs ≤ 1)%nat)
  ∨ (∃ m svs,
       createPreview key listen nonce w =
         (mkWorld (clock w) (extension w) (config w) (documents w) (files w)
            (panels w ++ [blankPanel key]) (servers w ++ svs) (previewByDoc w)
            (notices w) (responses w),
          Thrown m)
       ∧ (length svs ≤ 1)%nat).
Proof.
  unfold createPreview.
  destruct (isHttpsUrl _); simpl.
  - destruct (getWebviewHtml _ _ _ _ _ _) as [html|m].
    + left. exists html, None, []. rewrite app_nil_r.
      unfold with_previewByDoc, with_panels; simpl. rewrite insert_last.
      split; [done | simpl; lia].
    + right. exists m, []. rewrite app_nil_r. split; [done | simpl; lia].
  - destruct listen as [m|[|path|port]]; simpl.
    + right. exists m, [mkServer
        (Uri_joinPath (extensionUri (extension w)) ["src"; "demo"; "index.html"]) false].
      split; [done | simpl; lia].
    + right. eexists _, [_]. split; [done | simpl; lia].
    + right. eexists _, [_]. split; [done | simpl; lia].
    + destruct (getWebviewHtml _ _ _ _ _ _) as [html|m].
      * left. eexists html, _, [_].
        unfold with_previewByDoc, with_panels; simpl. rewrite insert_last.
        split; [done | simpl; lia].
      * right. eexists m, [_]. split; [done | simpl; lia].
Qed.

Lemma createPreview_servers key listen nonce w :
  servers (fst (createPreview key listen nonce w)) =
  if isHttpsUrl (Some (default "" (cfg_remoteUrl (config w)))) then servers w
  else (servers w ++ [fst (startDemoServer (extension w) listen)])%list.
Proof.
  unfold createPreview.
  destruct (isHttpsUrl _); simpl.
  - by destruct (getWebviewHtml _ _ _ _ _ _).
  - destruct listen as [m|[|path|port]]; simpl; try done.
    by destruct (getWebviewHtml _ _ _ _ _ _).
Qed.

(** An invocation that nothing interrupts is its stretches run one after
    the other. *)
Lemma createPreview_stretches key listen nonce w :
  createPreview key listen nonce w
  = openCmd_settled (snd (openCmd_shown key w)) listen nonce
      (fst (openCmd_shown key w)).
Proof.
  unfold createPreview, openCmd_shown, openCmd_settled, openCmd_finish.
  assert (∀ x : Panel,
            default true (p_disposed <$> (panels w ++ [x])%list !! length (panels w))
            = p_disposed x) as Hnew.
  { intros x. by rewrite list_lookup_middle. }
  destruct (isHttpsUrl _); simpl.
  - by rewrite Hnew.
  - destruct (startDemoServer (extension w) listen) as [sv [url|m]]; simpl;
      rewrite insert_last; [|done].
    by rewrite Hnew.
Qed.

Lemma openCmd_stretches editor listen nonce w :
  openCmd editor listen nonce w
  = match openCmd_begin editor w with
    | (w1, Finished) => (w1, Returned tt)
    | (w1, AwaitsShow key) =>
        openCmd_settled (snd (openCmd_shown key w1)) listen nonce
          (fst (openCmd_shown key w1))
    end.
Proof.
  unfold openCmd, openCmd_begin.
  destruct (editor ≫= _) as [[key doc]|]; [|done].
  destruct (negb (isYaml doc)); [done|].
  destruct (previewByDoc w !! key); [done|].
  apply createPreview_stretches.
Qed.


Lemma openCmd_fresh key listen nonce w :
  opens_fresh key w →
  openCmd (Some key) listen nonce w = createPreview key listen nonce w.
Proof.
  intros [(doc & Hdoc & Hyaml) Hmiss]. unfold openCmd. simpl.
  by rewrite Hdoc; simpl; rewrite Hyaml, Hmiss.
Qed.



End CommandFacts.

Lemma demo_opens_fresh (c : Config) : opens_fresh Demo.key (Demo.world c).
Proof. split; [exists Demo.doc; split; reflexivity | reflexivity]. Qed.



Section FailureFacts.
Context {H : HostApi}.
Local Arguments isHttpsUrl : simpl never.

Lemma getWebviewHtml_malformed wv ctx nonce v demoUrl allowHttp :
  URL_new v = None →
  getWebviewHtml wv ctx nonce v demoUrl allowHttp
    = getWebviewHtml wv ctx nonce "" demoUrl allowHttp.
Proof.
  intros Hv. unfold getWebviewHtml, resolveAppSrc_branch.
  by rewrite (isHttpsUrl_malformed v Hv).
Qed.

Lemma createPreview_malformed key listen nonce w v d a :
  URL_new v = None →
  createPreview key listen nonce (with_config (mkConfig (Some v) d a) w)
  = (with_config (mkConfig (Some v) d a)
       (fst (createPreview key listen nonce (with_config (mkConfig None d a) w))),
     snd (createPreview key listen nonce (with_config (mkConfig None d a) w))).
Proof.
  intros Hv. unfold createPreview. simpl.
  rewrite (isHttpsUrl_malformed v Hv). simpl.
  destruct listen as [m|[|path|port]]; simpl; try done.
  rewrite (getWebviewHtml_malformed _ _ _ v _ _ Hv).
  by destruct (getWebviewHtml _ _ _ _ _ _).
Qed.

(** C3, as the code has it.  A remote URL that does not parse never raises
    and is taken as absent: [isHttpsUrl] answers [false], resolution gives
    what it gives for the empty string, and the whole command does what it
    does with the setting unset.  A failure to start the demo server is not
    caught: the command rejects with that error after the panel was
    created, and the panel gets no content, no listener and no registry
    entry. *)
Theorem malformed_remote_is_absent_bind_failure_rejects
    (w : World) (key : string) (listen : ListenOutcome) (nonce : string) :
  (∀ v, URL_new v = None →
     isHttpsUrl (Some v) = false
     ∧ (∀ wv ctx demoUrl allowHttp,
          resolveAppSrc_branch wv ctx v demoUrl allowHttp
            = resolveAppSrc_branch wv ctx "" demoUrl allowHttp)
     ∧ (∀ editor d a,
          openCmd editor listen nonce (with_config (mkConfig (Some v) d a) w)
          = (with_config (mkConfig (Some v) d a)
               (fst (openCmd editor listen nonce (with_config (mkConfig None d a) w))),
             snd (openCmd editor listen nonce (with_config (mkConfig None d a) w)))))
  ∧ (∀ m, opens_fresh key w →
       isHttpsUrl (Some (default "" (cfg_remoteUrl (config w)))) = false →
       snd (startDemoServer (extension w) listen) = Thrown m →
       openCmd (Some key) listen nonce w
       = (mkWorld (clock w) (extension w) (config w) (documents w) (files w)
            (panels w ++ [blankPanel key])
            (servers w ++ [fst (startDemoServer (extension w) listen)])
            (previewByDoc w) (notices w) (responses w),
          Thrown m)).
Proof.
  split.
  - intros v Hv. split; [by apply isHttpsUrl_malformed|]. split.
    + intros wv ctx demoUrl allowHttp. unfold resolveAppSrc_branch.
      by rewrite (isHttpsUrl_malformed v Hv).
    + intros editor d a. unfold openCmd. simpl.
      destruct (editor ≫= _) as [[k doc]|]; [|done].
      destruct (negb (isYaml doc)); [done|].
      destruct (previewByDoc w !! k); [done|].
      by apply createPreview_malformed.
  - intros m Hopen Hs Hthrown. rewrite (openCmd_fresh _ _ _ _ Hopen).
    unfold createPreview. rewrite Hs. simpl.
    destruct (startDemoServer (extension w) listen) as [sv r] eqn:Hstart.
    simpl in Hthrown. subst r. done.
Qed.

End FailureFacts.

Lemma malformed_remote_is_absent_bind_failure_rejects_witness :
  isHttpsUrl (H := NodeHost.host) (Some "not a url") = false
  ∧ openCmd (H := NodeHost.host) (Some Demo.key) (ListenError "EADDRINUSE") "n0"
      (Demo.world (mkConfig None None None))
    = (mkWorld 0 Demo.ctx (mkConfig None None None)
         {[ Demo.key := Demo.doc ]} {[ Demo.demoPath := "<html>demo</html>" ]}
         [blankPanel (H := NodeHost.host) Demo.key]
         [mkServer Demo.demoPath false] ∅ [] [],
       Thrown "EADDRINUSE").
Proof.
  pose proof (malformed_remote_is_absent_bind_failure_rejects (H := NodeHost.host)
                (Demo.world (mkConfig None None None)) Demo.key
                (ListenError "EADDRINUSE") "n0") as [Hmal Hbind].
  split.
  - exact (proj1 (Hmal "not a url" eq_refl)).
  - exact (Hbind "EADDRINUSE" (demo_opens_fresh _) eq_refl eq_refl).
Defined.

(** C3 fails as stated: when the demo server cannot bind, the open command
    rejects; the panel it created has no content, so nothing was resolved
    to the bundled page. *)
Lemma bind_failure_aborts_open :
  let r := openCmd (H := NodeHost.host) (Some Demo.key) (ListenError "EADDRINUSE")
             "n0" (Demo.world (mkConfig None None None)) in
  snd r = Thrown "EADDRINUSE"
  ∧ (p_html <$> panels (fst r) !! 0%nat) = Some None
  ∧ previewByDoc (fst r) !! Demo.key = None.
Proof. vm_compute. repeat split; reflexivity. Qed.

(** ** The change streamer *)



Section PanelFacts.
Context {H : HostApi}.

Lemma advance_panel dt w i p :
  panels w !! i = Some p →
  panels (advance dt w) !! i =
  Some (if timeout_due (clock w + Z.max 0 dt) p
        then timeout_fires (documents w) p else p).
Proof. intros Hp. unfold advance. simpl. by rewrite list_lookup_fmap, Hp. Qed.

Lemma panelClosed_panel i w p :
  panels w !! i = Some p → p_disposed p = false →
  panels (panelClosed i w) !! i = Some (panel_disposed p).
Proof.
  intros Hp Hd. unfold panelClosed. rewrite Hp, Hd.
  assert (<[i := panel_disposed p]> (panels w) !! i = Some (panel_disposed p)) as Hi.
  { apply list_lookup_insert_eq. by apply lookup_lt_Some with p. }
  destruct (p_onDispose p); [|done]. by destruct (p_server p).
Qed.

Lemma panelClosed_other i j w p :
  i ≠ j → panels w !! i = Some p → panels (panelClosed j w) !! i = Some p.
Proof.
  intros Hij Hp. unfold panelClosed.
  destruct (panels w !! j) as [q|]; [|done].
  destruct (p_disposed q); [done|].
  assert (<[j := panel_disposed q]> (panels w) !! i = Some p) as Hi.
  { by rewrite list_lookup_insert_ne. }
  destruct (p_onDispose q); [|done]. by destruct (p_server q).
Qed.

Lemma openCmd_panel editor listen nonce w i p :
  panels w !! i = Some p →
  panels (fst (openCmd editor listen nonce w)) !! i = Some p
  ∨ panels (fst (openCmd editor listen nonce w)) !! i = Some (panel_reveal p).
Proof.
  intros Hp. unfold openCmd.
  destruct (editor ≫= _) as [[key doc]|]; [|by left].
  destruct (negb (isYaml doc)); [by left|].
  destruct (previewByDoc w !! key) as [j|]; simpl.
  - destruct (decide (i = j)) as [->|Hij].
    + right. by rewrite list_lookup_alter_eq, Hp.
    + left. by rewrite list_lookup_alter_ne.
  - left.
    destruct (createPreview_result key listen nonce w)
      as [(html & sv & svs & -> & _) | (m & svs & -> & _)]; simpl;
      by apply lookup_app_l_Some.
Qed.

(** A disposed panel stays disposed, and no handler posts to it. *)
Lemma handle_disposed e w i p :
  panels w !! i = Some p → p_disposed p = true →
  ∃ p', panels (handle e w) !! i = Some p'
        ∧ p_disposed p' = true ∧ p_posts p' = p_posts p.
Proof.
  intros Hp Hd. destruct e as [editor listen nonce|key text|j|sv url|c|path content|]; simpl.
  - destruct (openCmd_panel editor listen nonce w i p Hp) as [-> | ->]; eauto.
  - unfold docChange. destruct (documents w !! key); [|eauto]. simpl.
    rewrite list_lookup_fmap, Hp. simpl. eexists. split; [done|].
    unfold onDidChangeTextDocument.
    destruct (p_subscribed p); [|done].
    by destruct (bool_decide (key ≠ p_key p)).
  - destruct (decide (i = j)) as [<-|Hij].
    + unfold panelClosed. rewrite Hp, Hd. eauto.
    + rewrite (panelClosed_other i j w p Hij Hp). eauto.
  - unfold httpRequest. destruct (servers w !! sv) as [s|]; [|eauto].
    destruct (sv_listening s); eauto.
  - eauto.
  - eauto.
  - eauto.
Qed.

(** On a disposed panel the timeout runs without posting. *)
Lemma timeout_fires_disposed docs p :
  p_disposed p = true →
  p_disposed (timeout_fires docs p) = true
  ∧ p_posts (timeout_fires docs p) = p_posts p
  ∧ pending (timeout_fires docs p) = None.
Proof.
  intros Hd. unfold timeout_fires, pending. rewrite Hd. simpl.
  repeat split; try done. by destruct (p_send p).
Qed.

Lemma step_disposed te w i p :
  panels w !! i = Some p → p_disposed p = true →
  ∃ p', panels (step w te) !! i = Some p'
        ∧ p_disposed p' = true ∧ p_posts p' = p_posts p.
Proof.
  intros Hp Hd. unfold step.
  pose proof (advance_panel (fst te) w i p Hp) as Hadv.
  set (p1 := if timeout_due (clock w + Z.max 0 (fst te)) p
             then timeout_fires (documents w) p else p) in Hadv.
  assert (p_disposed p1 = true ∧ p_posts p1 = p_posts p) as [Hd1 Hposts1].
  { subst p1. destruct (timeout_due _ p); [|done].
    by destruct (timeout_fires_disposed (documents w) p Hd) as (? & ? & _). }
  destruct (handle_disposed (snd te) _ i p1 Hadv Hd1) as (p' & Hp' & Hd' & Hposts').
  exists p'. split; [done|]. split; [done|]. congruence.
Qed.

Lemma run_disposed evs w i p :
  panels w !! i = Some p → p_disposed p = true →
  ∃ p', panels (run w evs) !! i = Some p'
        ∧ p_disposed p' = true ∧ p_posts p' = p_posts p.
Proof.
  revert w p. induction evs as [|te evs IH]; intros w p Hp Hd; simpl.
  - by exists p.
  - destruct (step_disposed te w i p Hp Hd) as (p1 & Hp1 & Hd1 & Hposts1).
    destruct (IH _ p1 Hp1 Hd1) as (p' & Hp' & Hd' & Hposts').
    exists p'. split; [done|]. split; [done|]. congruence.
Qed.

(** C2: once the editor has disposed the panel of a session, nothing is
    posted to it any more, whatever happens afterwards.  The timeout that is
    pending at that moment is not cleared and the extension checks nothing:
    the timeout still runs, and its callback ends at [panel.webview], which
    throws on a disposed panel, before it reaches [postMessage]. *)
Theorem no_snapshot_after_dispose
    (w : World) (i : nat) (p : Panel) (evs : list (Z * Event))
    (Hp : panels w !! i = Some p)
    (Hlive : p_disposed p = false) :
  ∃ p0 p',
    panels (panelClosed i w) !! i = Some p0
    ∧ p_disposed p0 = true ∧ p_posts p0 = p_posts p ∧ pending p0 = pending p
    ∧ panels (run (panelClosed i w) evs) !! i = Some p'
    ∧ p_disposed p' = true
    ∧ p_posts p' = p_posts p
    ∧ (∀ dt, timeout_due (clock w + Z.max 0 dt) p = true →
         ∃ p1, panels (step (panelClosed i w) (dt, Tick)) !! i = Some p1
               ∧ pending p1 = None ∧ p_posts p1 = p_posts p).
Proof.
  pose proof (panelClosed_panel i w p Hp Hlive) as Hp0.
  destruct (run_disposed evs _ i _ Hp0 eq_refl) as (p' & Hp' & Hd' & Hposts').
  exists (panel_disposed p), p'. repeat split; try done.
  intros dt Hdue.
  change (step (panelClosed i w) (dt, Tick)) with (advance dt (panelClosed i w)).
  rewrite (advance_panel dt _ i _ Hp0).
  assert (clock (panelClosed i w) = clock w) as ->.
  { unfold panelClosed. rewrite Hp, Hlive.
    destruct (p_onDispose p); [|done]. by destruct (p_server p). }
  change (timeout_due (clock w + Z.max 0 dt) (panel_disposed p))
    with (timeout_due (clock w + Z.max 0 dt) p). rewrite Hdue.
  eexists. split; [done|].
  by destruct (timeout_fires_disposed (documents (panelClosed i w))
                 (panel_disposed p) eq_refl) as (_ & ? & ?).
Qed.

End PanelFacts.

Lemma timeoutDelay_in_range delay :
  1 ≤ delay ≤ TIMEOUT_MAX → timeoutDelay delay = delay.
Proof.
  intros [Hlo Hhi]. unfold timeoutDelay.
  apply Z.leb_le in Hlo. apply Z.leb_le in Hhi. by rewrite Hlo, Hhi.
Qed.

Lemma timeoutDelay_out_of_range delay :
  delay < 1 ∨ TIMEOUT_MAX < delay → timeoutDelay delay = 1.
Proof.
  intros Hout. unfold timeoutDelay.
  destruct (1 <=? delay) eqn:Hlo; simpl; [|done].
  destruct (delay <=? TIMEOUT_MAX) eqn:Hhi; [|done].
  apply Z.leb_le in Hlo. apply Z.leb_le in Hhi. lia.
Qed.

Lemma runs_at_call now d :
  timeout_runs_at (debounced_call now d) = Some (now + timeoutDelay (delayMs d)).
Proof. unfold timeout_runs_at. simpl. f_equal. lia. Qed.

Lemma timeout_due_elapsed now p d :
  p_send p = Some d → timeout_due now p = elapsed now (timeout_runs_at d).
Proof. intros Hsend. unfold timeout_due, timer_due, elapsed. by rewrite Hsend. Qed.

Section StreamerFacts.
Context {H : HostApi}.

(** Time passing over a live session: the timeout runs once the runtime has
    it due, and posts the document. *)
Lemma advance_streaming w i key sent delay due doc dt :
  streaming w i key sent delay due doc →
  let now := clock w + Z.max 0 dt in
  clock (advance dt w) = now
  ∧ streaming (advance dt w) i key
      (if elapsed now due then sent ++ [updateMessage key doc] else sent)%list
      delay (if elapsed now due then None else due) doc.
Proof.
  intros (p & d & Hp & Hk & Hsub & Hdis & Hposts & Hsend & Hdelay & Hdue & Hdoc).
  simpl. split; [done|].
  unfold streaming. rewrite (advance_panel dt w i p Hp).
  rewrite (timeout_due_elapsed _ p d Hsend), Hdue.
  destruct (elapsed (clock w + Z.max 0 dt) due).
  - exists (timeout_fires (documents w) p), (timer_ran d).
    unfold timeout_fires. rewrite Hdis, Hk, Hdoc. simpl.
    rewrite Hsend, Hposts. done.
  - by exists p, d.
Qed.

Lemma tick_streaming w i key sent delay due doc dt :
  streaming w i key sent delay due doc →
  let now := clock w + Z.max 0 dt in
  let w' := step w (dt, Tick) in
  clock w' = now
  ∧ streaming w' i key
      (if elapsed now due then sent ++ [updateMessage key doc] else sent)%list
      delay (if elapsed now due then None else due) doc.
Proof. apply advance_streaming. Qed.

(** A change notification for the document of a live session: the timeout
    that was due runs first, then the listener restarts the timer. *)
Lemma change_streaming w i key sent delay due doc dt text :
  streaming w i key sent delay due doc →
  let now := clock w + Z.max 0 dt in
  let w' := step w (dt, DocChange key text) in
  clock w' = now
  ∧ streaming w' i key
      (if elapsed now due then sent ++ [updateMessage key doc] else sent)%list
      delay (Some (now + timeoutDelay delay)) (edited text doc).
Proof.
  intros Hlive. simpl.
  destruct (advance_streaming w i key sent delay due doc dt Hlive)
    as [Hclock (p & d & Hp & Hk & Hsub & Hdis & Hposts & Hsend & Hdelay & _ & Hdoc)].
  change (step w (dt, DocChange key text)) with (docChange key text (advance dt w)).
  revert Hclock Hp Hdoc. generalize (advance dt w). intros w1 Hclock Hp Hdoc.
  unfold docChange. rewrite Hdoc. simpl. split; [done|].
  unfold streaming. simpl. rewrite list_lookup_fmap, Hp, Hclock. simpl.
  exists (sendUpdate (clock w + Z.max 0 dt) p),
         (debounced_call (clock w + Z.max 0 dt) d).
  split.
  { unfold onDidChangeTextDocument. rewrite Hsub, Hk.
    by rewrite bool_decide_eq_false_2 by naive_solver. }
  unfold sendUpdate. simpl. rewrite Hsend. simpl.
  rewrite runs_at_call, Hdelay, lookup_insert_eq. done.
Qed.

Lemma run_app w evs1 evs2 : run w (evs1 ++ evs2) = run (run w evs1) evs2.
Proof. apply foldl_app. Qed.

(** Notifications that each come before the timeout set by the one before
    runs keep a timeout pending and post nothing. *)
Lemma burst_streaming more w i key sent delay doc :
  streaming w i key sent delay (Some (clock w + timeoutDelay delay)) doc →
  Forall (λ c, 0 ≤ fst c < timeoutDelay delay) more →
  ∃ doc',
    streaming (run w (changes key more)) i key sent delay
      (Some (clock (run w (changes key more)) + timeoutDelay delay)) doc'
    ∧ doc_text doc' = default (doc_text doc) (last (snd <$> more))
    ∧ doc_version doc' = doc_version doc + Z.of_nat (length more).
Proof.
  revert w doc. induction more as [|[dt text] more IH]; intros w doc Hlive Hgaps.
  - exists doc. simpl. split; [done|]. split; [done|]. lia.
  - apply Forall_cons in Hgaps as [Hdt Hgaps]. simpl in Hdt.
    destruct (change_streaming w i key sent delay _ doc dt text Hlive)
      as [Hclock Hnext].
    assert (elapsed (clock w + Z.max 0 dt) (Some (clock w + timeoutDelay delay))
            = false) as Hno.
    { simpl. apply Z.leb_gt. lia. }
    rewrite Hno in Hnext. rewrite <- Hclock in Hnext.
    destruct (IH _ _ Hnext Hgaps) as (doc' & Hlive' & Htext & Hversion).
    exists doc'. split; [exact Hlive'|]. split.
    + rewrite Htext.
      change (snd <$> (dt, text) :: more) with (text :: (snd <$> more)).
      rewrite last_cons. by destruct (last (snd <$> more)).
    + rewrite Hversion. simpl. lia.
Qed.

(** C6, with the delay that the runtime gives the timeout.  On a live
    session, change notifications that each come sooner after the one
    before than the timeout takes end in exactly one snapshot, posted once
    the timeout has run after the last of them; its [yaml] and [version] are
    the text and the version the document has since that last notification.
    Two notifications further apart than that end in two snapshots, one
    for each.  The timeout takes [debounceMs] when that is between 1 and
    [TIMEOUT_MAX], and 1 ms otherwise.  [before] is what the session had
    posted when the first notification is handled: a timeout that was
    already due by then runs before it. *)
Theorem burst_sends_one_snapshot
    (w : World) (i : nat) (key : string) (sent : list Message)
    (delay : Z) (due : option Z) (doc : TextDocument)
    (d1 : Z) (t1 : string) (more : list (Z * string))
    (gap : Z) (t2 : string) (quiet : Z)
    (Hlive : streaming w i key sent delay due doc)
    (Hburst : Forall (λ c, 0 ≤ fst c < timeoutDelay delay) more)
    (Hquiet : timeoutDelay delay ≤ quiet) :
  let before :=
    (if elapsed (clock w + Z.max 0 d1) due
     then sent ++ [updateMessage key doc] else sent)%list in
  (∃ m doc',
     streaming (run w (changes key ((d1, t1) :: more) ++ [(quiet, Tick)])) i key
       (before ++ [m])%list delay None doc'
     ∧ doc_text doc' = default t1 (last (snd <$> more))
     ∧ doc_version doc' = doc_version doc + 1 + Z.of_nat (length more)
     ∧ msg_type m = "yaml:update"
     ∧ uri (payload m) = key
     ∧ yaml (payload m) = default t1 (last (snd <$> more))
     ∧ version (payload m) = doc_version doc + 1 + Z.of_nat (length more))
  ∧ (timeoutDelay delay < gap →
     ∃ m1 m2,
       streaming (run w (changes key [(d1, t1); (gap, t2)] ++ [(quiet, Tick)])) i key
         (before ++ [m1; m2])%list delay None (edited t2 (edited t1 doc))
       ∧ yaml (payload m1) = t1 ∧ version (payload m1) = doc_version doc + 1
       ∧ yaml (payload m2) = t2 ∧ version (payload m2) = doc_version doc + 2)
  ∧ (1 ≤ delay ≤ TIMEOUT_MAX → timeoutDelay delay = delay)
  ∧ (delay < 1 ∨ TIMEOUT_MAX < delay → timeoutDelay delay = 1).
Proof.
  intros before.
  destruct (change_streaming w i key sent delay due doc d1 t1 Hlive)
    as [Hclock1 Hfirst].
  fold before in Hfirst. rewrite <- Hclock1 in Hfirst.
  set (w1 := step w (d1, DocChange key t1)) in *.
  split; [|split; [|split; [apply timeoutDelay_in_range
                           | apply timeoutDelay_out_of_range]]].
  - destruct (burst_streaming more w1 i key before delay _ Hfirst Hburst)
      as (doc' & Hlive' & Htext & Hversion).
    assert (doc_version doc' = doc_version doc + 1 + Z.of_nat (length more))
      as Hversion' by (rewrite Hversion; simpl; lia).
    simpl in Htext.
    exists (updateMessage key doc'), doc'. split; [|by repeat split].
    rewrite run_app. change (run w (changes key ((d1, t1) :: more)))
      with (run w1 (changes key more)).
    destruct (tick_streaming _ i key before delay _ doc' quiet Hlive')
      as [_ Hend].
    assert (elapsed (clock (run w1 (changes key more)) + Z.max 0 quiet)
              (Some (clock (run w1 (changes key more)) + timeoutDelay delay)) = true)
      as Hyes.
    { simpl. apply Z.leb_le. lia. }
    rewrite Hyes in Hend. exact Hend.
  - intros Hgap. simpl.
    destruct (change_streaming w1 i key before delay _ _ gap t2 Hfirst)
      as [Hclock2 Hsecond].
    assert (elapsed (clock w1 + Z.max 0 gap) (Some (clock w1 + timeoutDelay delay))
            = true) as Hyes.
    { simpl. apply Z.leb_le. lia. }
    rewrite Hyes in Hsecond. rewrite <- Hclock2 in Hsecond.
    destruct (tick_streaming _ i key _ delay _ _ quiet Hsecond) as [_ Hend].
    assert (elapsed (clock (step w1 (gap, DocChange key t2)) + Z.max 0 quiet)
              (Some (clock (step w1 (gap, DocChange key t2)) + timeoutDelay delay))
            = true) as Hyes'.
    { simpl. apply Z.leb_le. lia. }
    rewrite Hyes' in Hend. rewrite <- app_assoc in Hend.
    exists (updateMessage key (edited t1 doc)),
           (updateMessage key (edited t2 (edited t1 doc))).
    split; [exact Hend|]. simpl. repeat split; lia.
Qed.

End StreamerFacts.

(** ** The registry *)

Lemma filter_none {A} (f : A → bool) (l : list A) :
  (∀ j y, l !! j = Some y → f y = false) → List.filter f l = [].
Proof.
  induction l as [|x l IH]; intros Hall; simpl; [done|].
  rewrite (Hall 0%nat x eq_refl). apply IH. intros j y Hj. by apply (Hall (S j)).
Qed.

Lemma filter_at_most_one {A} (f : A → bool) (l : list A) :
  (∀ i j x y, l !! i = Some x → l !! j = Some y →
              f x = true → f y = true → i = j) →
  (length (List.filter f l) ≤ 1)%nat.
Proof.
  induction l as [|x l IH]; intros Huniq; simpl; [lia|].
  destruct (f x) eqn:Hx.
  - rewrite filter_none; [simpl; lia|].
    intros j y Hj. destruct (f y) eqn:Hy; [|done].
    by specialize (Huniq 0%nat (S j) x y eq_refl Hj Hx Hy).
  - apply IH. intros i j a b Hi Hj Ha Hb.
    specialize (Huniq (S i) (S j) a b Hi Hj Ha Hb). lia.
Qed.

Lemma filter_at_least_one {A} (f : A → bool) (l : list A) i x :
  l !! i = Some x → f x = true → (1 ≤ length (List.filter f l))%nat.
Proof.
  revert i. induction l as [|a l IH]; intros i Hi Hx; [done|]. simpl.
  destruct i as [|i]; simpl in Hi.
  - injection Hi as ->. rewrite Hx. simpl. lia.
  - destruct (f a); simpl; [lia|]. by apply (IH i).
Qed.

Lemma is_live_true key p :
  is_live key p = true ↔ p_subscribed p = true ∧ p_key p = key.
Proof.
  unfold is_live. rewrite andb_true_iff, bool_decide_eq_true. done.
Qed.

Lemma live_sessions_le_1 key w : registry_ok w → (live_sessions key w ≤ 1)%nat.
Proof.
  intros (_ & Hreg & _). apply filter_at_most_one.
  intros i j p q Hi Hj Hp Hq.
  apply is_live_true in Hp as [Hp Hkp]. apply is_live_true in Hq as [Hq Hkq].
  pose proof (Hreg i p Hi Hp) as Ei. pose proof (Hreg j q Hj Hq) as Ej.
  rewrite Hkp in Ei. rewrite Hkq in Ej. congruence.
Qed.

Lemma live_sessions_registered key w i :
  registry_ok w → previewByDoc w !! key = Some i → live_sessions key w = 1%nat.
Proof.
  intros Hok Hi. pose proof (live_sessions_le_1 key w Hok) as Hle.
  destruct Hok as (Hentry & _ & _).
  destruct (Hentry key i Hi) as (p & Hp & Hk & Hs).
  assert (1 ≤ live_sessions key w)%nat; [|lia].
  apply filter_at_least_one with i p; [done|]. by apply is_live_true.
Qed.

Lemma live_sessions_unregistered key w :
  registry_ok w → previewByDoc w !! key = None → live_sessions key w = 0%nat.
Proof.
  intros (_ & Hreg & _) Hnone. unfold live_sessions.
  rewrite filter_none; [done|].
  intros j p Hj. destruct (is_live key p) eqn:Hl; [|done].
  apply is_live_true in Hl as [Hs Hk].
  pose proof (Hreg j p Hj Hs) as Ej. rewrite Hk in Ej. congruence.
Qed.

Lemma registry_ok_fresh ctx c docs fs : registry_ok (freshWorld ctx c docs fs).
Proof. split; [|split]; intros ??; simpl; by rewrite ?lookup_empty. Qed.

Section RegistryFacts.
Context {H : HostApi}.

Lemma registry_ok_pointwise w w' :
  previewByDoc w' = previewByDoc w →
  (∀ i, match panels w !! i, panels w' !! i with
        | Some p, Some p' => same_wiring p p'
        | None, None => True
        | _, _ => False
        end) →
  registry_ok w → registry_ok w'.
Proof.
  intros Hreg Hpanels (Hentry & Hlisten & Hwired).
  split; [|split].
  - intros key i Hi. rewrite Hreg in Hi.
    destruct (Hentry key i Hi) as (p & Hp & Hk & Hs).
    specialize (Hpanels i). rewrite Hp in Hpanels.
    destruct (panels w' !! i) as [p'|]; [|done].
    destruct Hpanels as (Hk' & Hs' & _). exists p'. split; [done|]. split; congruence.
  - intros i p' Hp' Hs'. specialize (Hpanels i). rewrite Hp' in Hpanels.
    destruct (panels w !! i) as [p|] eqn:Hp; [|done].
    destruct Hpanels as (Hk & Hs & _). rewrite Hreg, Hk.
    apply Hlisten; congruence.
  - intros i p' Hp'. specialize (Hpanels i). rewrite Hp' in Hpanels.
    destruct (panels w !! i) as [p|] eqn:Hp; [|done].
    destruct Hpanels as (Hk & Hs & Ho & Hd). rewrite Hs, Ho, Hd. by apply (Hwired i).
Qed.

Lemma same_wiring_fmap (g : Panel → Panel) (l : list Panel) i :
  (∀ p, same_wiring p (g p)) →
  match l !! i, (g <$> l) !! i with
  | Some p, Some p' => same_wiring p p'
  | None, None => True
  | _, _ => False
  end.
Proof. intros Hg. rewrite list_lookup_fmap. destruct (l !! i); simpl; auto. Qed.

Lemma same_wiring_refl p : same_wiring p p.
Proof. by repeat split. Qed.

Lemma registry_ok_advance dt w : registry_ok w → registry_ok (advance dt w).
Proof.
  apply registry_ok_pointwise; [done|]. intros i. unfold advance. simpl.
  apply same_wiring_fmap. intros p.
  destruct (timeout_due _ p); [|apply same_wiring_refl].
  unfold timeout_fires. destruct (p_disposed p); [by repeat split|].
  destruct (documents w !! p_key p); by repeat split.
Qed.

Lemma registry_ok_docChange key text w :
  registry_ok w → registry_ok (docChange key text w).
Proof.
  unfold docChange. destruct (documents w !! key); [|done].
  apply registry_ok_pointwise; [done|]. intros i. simpl.
  apply same_wiring_fmap. intros p. unfold onDidChangeTextDocument.
  destruct (p_subscribed p); [|apply same_wiring_refl].
  destruct (bool_decide _); [apply same_wiring_refl|]. by repeat split.
Qed.

Lemma registry_ok_reveal i w :
  registry_ok w → registry_ok (with_panels (alter panel_reveal i (panels w)) w).
Proof.
  apply registry_ok_pointwise; [done|]. intros j. simpl.
  rewrite list_lookup_alter. case_decide as Hij.
  - subst j. destruct (panels w !! i); simpl; [by repeat split|done].
  - destruct (panels w !! j); [apply same_wiring_refl|done].
Qed.

Lemma registry_ok_createPreview key listen nonce w :
  previewByDoc w !! key = None →
  registry_ok w → registry_ok (fst (createPreview key listen nonce w)).
Proof.
  intros Hmiss (Hentry & Hlisten & Hwired).
  destruct (createPreview_result key listen nonce w)
    as [(html & sv & svs & -> & _) | (m & svs & -> & _)]; simpl.
  - split; [|split]; simpl.
    + intros k i Hi. destruct (decide (key = k)) as [<-|Hk].
      * rewrite lookup_insert_eq in Hi. injection Hi as <-.
        eexists. split; [by apply list_lookup_middle|]. done.
      * rewrite lookup_insert_ne in Hi by done.
        destruct (Hentry k i Hi) as (p & Hp & Hkp & Hs).
        exists p. split; [by apply lookup_app_l_Some|]. done.
    + intros i p Hp Hs. apply lookup_app_Some in Hp as [Hp | [Hlen Hp]].
      * pose proof (Hlisten i p Hp Hs) as Ei.
        rewrite lookup_insert_ne; [done|]. intros Hk. congruence.
      * apply list_lookup_singleton_Some in Hp as [Hi <-]. simpl.
        rewrite lookup_insert_eq. f_equal. lia.
    + intros i p Hp. apply lookup_app_Some in Hp as [Hp | [Hlen Hp]].
      * by apply (Hwired i).
      * by apply list_lookup_singleton_Some in Hp as [Hi <-].
  - split; [|split]; simpl.
    + intros k i Hi. destruct (Hentry k i Hi) as (p & Hp & Hkp & Hs).
      exists p. split; [by apply lookup_app_l_Some|]. done.
    + intros i p Hp Hs. apply lookup_app_Some in Hp as [Hp | [Hlen Hp]].
      * by apply Hlisten.
      * by apply list_lookup_singleton_Some in Hp as [Hi <-].
    + intros i p Hp. apply lookup_app_Some in Hp as [Hp | [Hlen Hp]].
      * by apply (Hwired i).
      * by apply list_lookup_singleton_Some in Hp as [Hi <-].
Qed.

Lemma panelClosed_registry j w q :
  panels w !! j = Some q → p_disposed q = false →
  previewByDoc (panelClosed j w) =
  if p_onDispose q then delete (p_key q) (previewByDoc w) else previewByDoc w.
Proof.
  intros Hq Hd. unfold panelClosed. rewrite Hq, Hd.
  destruct (p_onDispose q); [|done]. by destruct (p_server q).
Qed.

Lemma registry_ok_panelClosed j w : registry_ok w → registry_ok (panelClosed j w).
Proof.
  intros Hok. destruct (panels w !! j) as [q|] eqn:Hq;
    [|by unfold panelClosed; rewrite Hq].
  destruct (p_disposed q) eqn:Hd; [by unfold panelClosed; rewrite Hq, Hd|].
  pose proof (panelClosed_panel j w q Hq Hd) as Hj.
  pose proof (λ i p Hij, panelClosed_other i j w p Hij) as Hother.
  pose proof (panelClosed_registry j w q Hq Hd) as Hreg.
  assert (∀ i p', panels (panelClosed j w) !! i = Some p' → i ≠ j →
                  panels w !! i = Some p') as Hback.
  { intros i p' Hp' Hij. destruct (panels w !! i) as [p|] eqn:Hp.
    - by rewrite (Hother i p Hij Hp) in Hp'.
    - apply lookup_lt_Some in Hp'. apply lookup_ge_None in Hp.
      assert (length (panels (panelClosed j w)) = length (panels w)); [|lia].
      unfold panelClosed. rewrite Hq, Hd.
      destruct (p_onDispose q); [destruct (p_server q)|]; simpl;
        by rewrite length_insert. }
  destruct Hok as (Hentry & Hlisten & Hwired).
  pose proof (Hwired j q Hq) as Hwq. rewrite Hd in Hwq.
  split; [|split].
  - intros key i Hi. rewrite Hreg in Hi.
    assert (previewByDoc w !! key = Some i ∧ (p_onDispose q = true → key ≠ p_key q))
      as [Hi' Hne].
    { destruct (p_onDispose q); [|done].
      apply lookup_delete_Some in Hi as [Hne Hi]. split; [done|]. by intros _ ->. }
    destruct (Hentry key i Hi') as (p & Hp & Hk & Hs).
    assert (i ≠ j) as Hij.
    { intros ->. rewrite Hq in Hp. injection Hp as <-.
      destruct (p_onDispose q); [by apply Hne | simpl in Hwq; congruence]. }
    exists p. split; [by apply Hother|]. done.
  - intros i p' Hp' Hs'. destruct (decide (i = j)) as [->|Hij].
    + rewrite Hj in Hp'. injection Hp' as <-. simpl in Hs'.
      destruct (p_onDispose q); [done | simpl in Hwq; congruence].
    + pose proof (Hback i p' Hp' Hij) as Hp.
      pose proof (Hlisten i p' Hp Hs') as Ei. rewrite Hreg.
      destruct (p_onDispose q); [|done].
      rewrite lookup_delete_ne; [done|]. intros Hk.
      assert (p_subscribed q = true) as Hsq by (by rewrite Hwq).
      pose proof (Hlisten j q Hq Hsq) as Ej. rewrite Hk in Ej. congruence.
  - intros i p' Hp'. destruct (decide (i = j)) as [->|Hij].
    + rewrite Hj in Hp'. injection Hp' as <-. simpl.
      destruct (p_onDispose q); [done | simpl in Hwq; by rewrite Hwq].
    + apply (Hwired i). by apply Hback.
Qed.

Lemma registry_ok_openCmd editor listen nonce w :
  registry_ok w → registry_ok (fst (openCmd editor listen nonce w)).
Proof.
  intros Hok. unfold openCmd.
  destruct (editor ≫= _) as [[key doc]|]; [|done].
  destruct (negb (isYaml doc)); [done|].
  destruct (previewByDoc w !! key) as [i|] eqn:Hi.
  - by apply registry_ok_reveal.
  - by apply registry_ok_createPreview.
Qed.

Lemma registry_ok_handle e w : registry_ok w → registry_ok (handle e w).
Proof.
  intros Hok. destruct e as [editor listen nonce|key text|j|sv url|c|path content|]; simpl.
  - by apply registry_ok_openCmd.
  - by apply registry_ok_docChange.
  - by apply registry_ok_panelClosed.
  - unfold httpRequest. destruct (servers w !! sv) as [s|]; [|done].
    by destruct (sv_listening s).
  - done.
  - done.
  - done.
Qed.




End RegistryFacts.

(** ** The properties on the example installation *)

Lemma demo_opened_panel : panels Demo.opened !! 0%nat = Some Demo.panel.
Proof. vm_compute. reflexivity. Qed.

Lemma demo_opened_streaming :
  streaming Demo.opened 0 Demo.key [] 300 (Some 300) Demo.doc.
Proof.
  exists Demo.panel, (mkDebounced (Some 300) 300).
  repeat split; vm_compute; reflexivity.
Qed.

Lemma demo_server_responses_witness :
  statusCode (requestListener Demo.demoPath (files Demo.opened) (Some "/missing.png"))
    = 404
  ∧ responses (httpRequest 0 (Some "/") Demo.opened)
    = [mkResponse 200 [("Content-Type", "text/html; charset=utf-8")]
         (Some "<html>demo</html>")].
Proof.
  pose proof (demo_server_responses Demo.opened 0 (mkServer Demo.demoPath true)
                (Some "/missing.png") eq_refl eq_refl) as (_ & _ & Hmiss & _).
  pose proof (demo_server_responses Demo.opened 0 (mkServer Demo.demoPath true)
                (Some "/") eq_refl eq_refl) as (Hlog & Hroot & _).
  split.
  - apply Hmiss; discriminate.
  - rewrite Hlog. reflexivity.
Defined.

Lemma no_snapshot_after_dispose_witness :
  ∃ p0 p',
    panels (panelClosed 0 Demo.opened) !! 0%nat = Some p0
    ∧ p_disposed p0 = true ∧ p_posts p0 = [] ∧ pending p0 = Some 300
    ∧ panels (run (H := NodeHost.host) (panelClosed 0 Demo.opened)
                [(100, DocChange Demo.key "a: 2"); (300, Tick)]) !! 0%nat = Some p'
    ∧ p_disposed p' = true
    ∧ p_posts p' = []
    ∧ ∃ p1, panels (step (H := NodeHost.host) (panelClosed 0 Demo.opened)
                      (300, Tick)) !! 0%nat = Some p1
            ∧ pending p1 = None ∧ p_posts p1 = [].
Proof.
  destruct (no_snapshot_after_dispose (H := NodeHost.host) Demo.opened 0 Demo.panel
              [(100, DocChange Demo.key "a: 2"); (300, Tick)]
              demo_opened_panel eq_refl)
    as (p0 & p' & H0 & Hd & Hposts & Hpend & H' & Hd' & Hposts' & Hfires).
  exists p0, p'. repeat split; try done.
  apply (Hfires 300). reflexivity.
Defined.

Lemma burst_sends_one_snapshot_witness :
  (∃ m doc',
     streaming (run (H := NodeHost.host) Demo.opened
                  (changes Demo.key [(100, "a: 2"); (100, "a: 3"); (299, "a: 4")]
                   ++ [(300, Tick)])) 0 Demo.key [m] 300 None doc'
     ∧ doc_text doc' = "a: 4" ∧ doc_version doc' = 4
     ∧ yaml (payload m) = "a: 4" ∧ version (payload m) = 4)
  ∧ (∃ m1 m2,
       streaming (run (H := NodeHost.host) Demo.opened
                    (changes Demo.key [(100, "a: 2"); (301, "a: 3")] ++ [(300, Tick)]))
         0 Demo.key [m1; m2] 300 None (edited "a: 3" (edited "a: 2" Demo.doc))
       ∧ yaml (payload m1) = "a: 2" ∧ version (payload m1) = 2
       ∧ yaml (payload m2) = "a: 3" ∧ version (payload m2) = 3).
Proof.
  split.
  - destruct (burst_sends_one_snapshot (H := NodeHost.host) Demo.opened 0 Demo.key
                [] 300 (Some 300) Demo.doc 100 "a: 2" [(100, "a: 3"); (299, "a: 4")]
                301 "a: 3" 300 demo_opened_streaming)
      as [(m & doc' & Hlive & Htext & Hversion & _ & _ & Hyaml & Hv) _].
    + repeat constructor; simpl; lia.
    + reflexivity.
    + by exists m, doc'.
  - destruct (burst_sends_one_snapshot (H := NodeHost.host) Demo.opened 0 Demo.key
                [] 300 (Some 300) Demo.doc 100 "a: 2" [] 301 "a: 3" 300
                demo_opened_streaming) as (_ & Htwo & _).
    + constructor.
    + reflexivity.
    + apply Htwo. reflexivity.
Defined.

(** C6 fails as stated when [debounceMs] is beyond what [setTimeout] takes.
    With [debounceMs] at 3000000000 the session has posted the document
    once; two change notifications follow, the second 1000 ms after the
    first, which is less than [debounceMs].  Each timeout runs 1 ms after it
    was set, so both edits are posted: two snapshots for the burst, not
    one. *)
Lemma overflowing_delay_sends_every_edit :
  let w0 := run (H := NodeHost.host) (Demo.world Demo.slow)
              [(0, CmdOpen (Some Demo.key) (Listening (AddrInfo 54321)) "n0");
               (10, Tick)] in
  let w1 := run (H := NodeHost.host) w0
              (changes Demo.key [(0, "a: 2"); (1000, "a: 3")]
               ++ [(3000000000, Tick)]) in
  effectiveDebounceMs (config w0) = 3000000000
  ∧ (p_subscribed <$> panels w0 !! 0%nat) = Some true
  ∧ (delayMs <$> (panels w0 !! 0%nat ≫= p_send)) = Some 3000000000
  ∧ (p_posts <$> panels w0 !! 0%nat) = Some [updateMessage Demo.key Demo.doc]
  ∧ (p_posts <$> panels w1 !! 0%nat)
    = Some [updateMessage Demo.key Demo.doc;
            updateMessage Demo.key (edited "a: 2" Demo.doc);
            updateMessage Demo.key (edited "a: 3" (edited "a: 2" Demo.doc))].
Proof. vm_compute. repeat split; reflexivity. Qed.



(** ** Escaping *)

Lemma string_app_assoc (s t u : string) : (s +:+ t) +:+ u = s +:+ (t +:+ u).
Proof. induction s as [|a s IH]; [done|]. rewrite !append_cons. by rewrite IH. Qed.

Lemma string_app_nil_r (s : string) : s +:+ "" = s.
Proof. induction s as [|a s IH]; [done|]. rewrite append_cons. by rewrite IH. Qed.

Lemma replaceAll_app c b s t :
  replaceAll c b (s +:+ t) = replaceAll c b s +:+ replaceAll c b t.
Proof.
  induction s as [|a s IH]; [done|].
  rewrite append_cons. cbn [replaceAll]. rewrite IH. by rewrite string_app_assoc.
Qed.

Lemma escapeHtml_replaces_app s t :
  escapeHtml_replaces (s +:+ t) = escapeHtml_replaces s +:+ escapeHtml_replaces t.
Proof. unfold escapeHtml_replaces. by rewrite !replaceAll_app. Qed.

Lemma escapeHtml_replaces_char a :
  escapeHtml_replaces (String a "") = escape_char a.
Proof. destruct a as [[] [] [] [] [] [] [] []]; reflexivity. Qed.

Lemma escapeHtml_app s t : escapeHtml (s +:+ t) = escapeHtml s +:+ escapeHtml t.
Proof.
  induction s as [|a s IH]; [done|].
  rewrite append_cons. cbn [escapeHtml]. rewrite IH. by rewrite string_app_assoc.
Qed.

Lemma escapeHtml_replaces_pass (input : string) :
  escapeHtml_replaces input = escapeHtml input.
Proof.
  induction input as [|a rest IH]; [done|].
  change (String a rest) with (String a "" +:+ rest).
  rewrite escapeHtml_replaces_app, escapeHtml_replaces_char, IH. done.
Qed.

Lemma has_char_app c s t : has_char c (s +:+ t) = (has_char c s || has_char c t)%bool.
Proof.
  induction s as [|a s IH]; [done|].
  rewrite append_cons. cbn [has_char]. rewrite IH. by rewrite orb_assoc.
Qed.

Lemma string_forallb_app f s t :
  string_forallb f (s +:+ t) = (string_forallb f s && string_forallb f t)%bool.
Proof.
  induction s as [|a s IH]; [done|].
  rewrite append_cons. cbn [string_forallb]. rewrite IH. by rewrite andb_assoc.
Qed.

Lemma escape_char_no_markup a : markup_free (escape_char a).
Proof. destruct a as [[] [] [] [] [] [] [] []]; reflexivity. Qed.

Lemma escapeHtml_no_markup s : markup_free (escapeHtml s).
Proof.
  unfold markup_free. induction s as [|a s IH]; [done|]. cbn [escapeHtml].
  by rewrite string_forallb_app, escape_char_no_markup, IH.
Qed.

Lemma unescape_escape_char a t :
  unescapeHtml (escape_char a +:+ t) = String a (unescapeHtml t).
Proof. destruct a as [[] [] [] [] [] [] [] []]; reflexivity. Qed.

Lemma unescape_escape s : unescapeHtml (escapeHtml s) = s.
Proof.
  induction s as [|a s IH]; [done|]. cbn [escapeHtml].
  by rewrite unescape_escape_char, IH.
Qed.


Lemma is_alnum_escape a : is_alnum a = true → escape_char a = String a "".
Proof. destruct a as [[] [] [] [] [] [] [] []]; vm_compute; congruence. Qed.

Lemma escapeHtml_alnum s : string_forallb is_alnum s = true → escapeHtml s = s.
Proof.
  induction s as [|a s IH]; [done|]. cbn [string_forallb escapeHtml].
  intros Hs. apply andb_true_iff in Hs as [Ha Hs].
  by rewrite (is_alnum_escape a Ha), (IH Hs).
Qed.

Lemma possible_get n :
  match String.get n possible with
  | Some c => is_alnum c = true ∧ (n < 62)%nat
  | None => (62 ≤ n)%nat
  end.
Proof.
  do 62 (destruct n as [|n]; [split; [reflexivity | lia]|]).
  change (String.get _ possible) with (String.get n ""). simpl. lia.
Qed.

Lemma charAt_possible z :
  string_forallb is_alnum (charAt possible z) = true
  ∧ (String.length (charAt possible z) ≤ 1)%nat
  ∧ (0 ≤ z < 62 → String.length (charAt possible z) = 1%nat).
Proof.
  unfold charAt. destruct (z <? 0) eqn:Hz.
  - apply Z.ltb_lt in Hz. simpl. repeat split; lia.
  - apply Z.ltb_ge in Hz. pose proof (possible_get (Z.to_nat z)) as Hg.
    destruct (String.get (Z.to_nat z) possible) as [c|].
    + destruct Hg as [Hc _]. simpl. rewrite Hc. repeat split; lia.
    + simpl. repeat split; lia.
Qed.

Lemma string_length_app s t :
  String.length (s +:+ t) = (String.length s + String.length t)%nat.
Proof. induction s as [|a s IH]; [done|]. rewrite append_cons. simpl. by rewrite IH. Qed.

Lemma getNonce_from_spec floors n : ∀ i text,
  string_forallb is_alnum text = true →
  string_forallb is_alnum (getNonce_from floors i n text) = true
  ∧ (String.length (getNonce_from floors i n text) ≤ String.length text + n)%nat
  ∧ ((∀ k, (i ≤ k < i + n)%nat → 0 ≤ floors k < 62) →
     String.length (getNonce_from floors i n text) = (String.length text + n)%nat).
Proof.
  induction n as [|n IH]; intros i text Ht; simpl.
  - repeat split; [done | lia | lia].
  - destruct (charAt_possible (floors i)) as (Hc & Hle & Heq).
    destruct (IH (S i) (text +:+ charAt possible (floors i))) as (Ha & Hl & He).
    { by rewrite string_forallb_app, Ht, Hc. }
    rewrite string_length_app in Hl, He.
    split; [done|]. split; [lia|].
    intros Hall. rewrite He.
    + rewrite Heq; [lia|]. apply Hall. lia.
    + intros k Hk. apply Hall. lia.
Qed.

(** ** The YAML guard *)

Lemma substring_all t : substring 0 (String.length t) t = t.
Proof. induction t as [|a t IH]; [done|]. simpl. by rewrite IH. Qed.

Lemma substring_app_suffix s t :
  substring (String.length s) (String.length t) (s +:+ t) = t.
Proof.
  induction s as [|a s IH]; [apply substring_all|].
  rewrite append_cons. simpl. exact IH.
Qed.

Lemma endsWith_app s t : endsWith (s +:+ t) t = true.
Proof.
  unfold endsWith. rewrite string_length_app.
  apply andb_true_iff. split; [apply Nat.leb_le; lia|].
  apply bool_decide_eq_true.
  replace (String.length s + String.length t - String.length t)%nat
    with (String.length s) by lia.
  apply substring_app_suffix.
Qed.

Lemma toLowerCase_app s t : toLowerCase (s +:+ t) = toLowerCase s +:+ toLowerCase t.
Proof. induction s as [|a s IH]; [done|]. rewrite append_cons. simpl. by rewrite IH. Qed.

Lemma toLowerCase_length s : String.length (toLowerCase s) = String.length s.
Proof. induction s as [|a s IH]; [done|]. simpl. by rewrite IH. Qed.

Lemma substring_toLowerCase s : ∀ n m,
  substring n m (toLowerCase s) = toLowerCase (substring n m s).
Proof.
  induction s as [|a s IH]; intros [|n] [|m]; simpl; rewrite ?IH; done.
Qed.

Lemma substring_split s : ∀ n m,
  (n + m = String.length s)%nat → substring 0 n s +:+ substring n m s = s.
Proof.
  induction s as [|a s IH]; intros [|n] m Hlen; simpl in *.
  - by destruct m.
  - lia.
  - subst m. simpl. by rewrite substring_all.
  - rewrite append_cons. rewrite IH; [done | lia].
Qed.

Lemma endsWith_split path suffix :
  endsWith (toLowerCase path) suffix = true →
  ∃ base ext, path = base +:+ ext ∧ toLowerCase ext = suffix.
Proof.
  unfold endsWith. rewrite toLowerCase_length. intros Hends.
  apply andb_true_iff in Hends as [Hle Hsub].
  apply Nat.leb_le in Hle. apply bool_decide_eq_true in Hsub.
  exists (substring 0 (String.length path - String.length suffix) path),
         (substring (String.length path - String.length suffix)
                    (String.length suffix) path).
  split.
  - symmetry. apply substring_split. lia.
  - by rewrite <- substring_toLowerCase.
Qed.

(** X5: the command accepts a document exactly when its language id is
    [yaml] or its file path ends in [.yml] or [.yaml], in any mix of upper
    and lower case. *)
Theorem isYaml_by_language_or_extension (doc : TextDocument) :
  isYaml doc = true ↔
  doc_languageId doc = "yaml"
  ∨ ∃ base ext, doc_fsPath doc = base +:+ ext
                ∧ (toLowerCase ext = ".yml" ∨ toLowerCase ext = ".yaml").
Proof.
  unfold isYaml. rewrite !orb_true_iff, bool_decide_eq_true. split.
  - intros [[Hl | Hy] | Hy]; [by left | right | right].
    + destruct (endsWith_split _ _ Hy) as (base & ext & Hp & He). eauto.
    + destruct (endsWith_split _ _ Hy) as (base & ext & Hp & He). eauto.
  - intros [Hl | (base & ext & Hp & [He | He])].
    + by left; left.
    + left; right. rewrite Hp, toLowerCase_app, He. apply endsWith_app.
    + right. rewrite Hp, toLowerCase_app, He. apply endsWith_app.
Qed.

(** ** Invariants of the sessions *)

Lemma ascending_snoc vs v :
  ascending vs → Forall (λ a, a ≤ v) vs → ascending (vs ++ [v]).
Proof.
  intros Hasc Hle j k a b Hjk Hj Hk.
  apply lookup_app_Some in Hk as [Hk | [Hlen Hk]].
  - assert (j < length vs)%nat by (apply lookup_lt_Some in Hk; lia).
    rewrite lookup_app_l in Hj by done. by apply (Hasc j k).
  - apply list_lookup_singleton_Some in Hk as [_ <-].
    apply lookup_app_Some in Hj as [Hj | [_ Hj]].
    + rewrite Forall_forall in Hle. apply Hle. by apply list_elem_of_lookup_2 in Hj.
    + apply list_lookup_singleton_Some in Hj as [_ <-]. lia.
Qed.

Lemma panel_ok_later now now' docs p :
  now ≤ now' → panel_ok now docs p → panel_ok now' docs p.
Proof.
  intros Hle (doc & Hdoc & Hsend & Hdue & Hsync & Hposts & Hasc).
  exists doc. split; [done|]. split; [done|]. split; [|done].
  intros d t Hd Ht. specialize (Hdue d t Hd Ht). lia.
Qed.

Lemma panel_ok_fires now docs p :
  panel_ok now docs p → panel_ok now docs (timeout_fires docs p).
Proof.
  intros (doc & Hdoc & Hsend & Hdue & Hsync & Hposts & Hasc).
  assert (∀ d t, timer_ran <$> p_send p = Some d → timer d = Some t →
            t ≤ now + delayMs d) as Hran.
  { intros d t Hd Ht. destruct (p_send p); simpl in Hd; [|done].
    injection Hd as <-. done. }
  unfold timeout_fires. destruct (p_disposed p) eqn:Hdis.
  { exists doc. simpl. split; [done|]. split; [|split; [done|split; [|done]]].
    - intros Hs. destruct (Hsend Hs) as (_ & Hnd & _). congruence.
    - intros Hs. destruct (Hsend Hs) as (_ & Hnd & _). congruence. }
  rewrite Hdoc.
  exists doc. simpl. split; [done|]. split; [|split; [done|split; [|split]]].
  - intros Hs. destruct (Hsend Hs) as ([d ->] & _ & Ho). by split; [eexists|].
  - intros _ _. by rewrite last_snoc.
  - apply Forall_app. split; [done|]. apply Forall_singleton. simpl.
    repeat split; lia.
  - rewrite fmap_app. apply ascending_snoc; [done|].
    apply Forall_fmap. eapply Forall_impl; [exact Hposts|].
    simpl. intros m (_ & _ & Hv). exact Hv.
Qed.

Lemma sessions_ok_advance dt w : sessions_ok w → sessions_ok (advance dt w).
Proof.
  unfold sessions_ok, advance. simpl. intros Hok.
  apply Forall_fmap. eapply Forall_impl; [exact Hok|]. simpl.
  intros p Hp. apply panel_ok_later with (clock w); [lia|].
  destruct (timeout_due _ p); [by apply panel_ok_fires | done].
Qed.

Lemma panel_ok_change now docs key doc0 text p :
  docs !! key = Some doc0 →
  panel_ok now docs p →
  panel_ok now (<[key := edited text doc0]> docs) (onDidChangeTextDocument now key p).
Proof.
  intros Hdoc0 (doc & Hdoc & Hsend & Hdue & Hsync & Hposts & Hasc).
  unfold onDidChangeTextDocument.
  destruct (decide (key = p_key p)) as [Hk | Hk].
  - subst key. rewrite Hdoc in Hdoc0. injection Hdoc0 as <-.
    rewrite bool_decide_eq_false_2 by (intros Hne; by apply Hne).
    assert (Forall (λ m, msg_type m = "yaml:update" ∧ uri (payload m) = p_key p
                         ∧ version (payload m) ≤ doc_version (edited text doc))
                   (p_posts p)) as Hposts'.
    { eapply Forall_impl; [exact Hposts|]. simpl. intros m (? & ? & ?).
      repeat split; try done. lia. }
    destruct (p_subscribed p) eqn:Hs.
    + exists (edited text doc). simpl. rewrite lookup_insert_eq.
      destruct (Hsend eq_refl) as ([d Hd] & Hnd & Ho). rewrite Hd. simpl.
      split; [done|]. split; [by split; [eexists|]|]. split; [|split; [|done]].
      * intros d' t [= <-]. simpl. intros [= <-]. lia.
      * intros _. unfold pending. simpl. rewrite Hd. simpl. discriminate.
    + exists (edited text doc). rewrite lookup_insert_eq.
      split; [done|]. split; [by rewrite Hs|]. split; [done|].
      split; [by rewrite Hs|]. done.
  - exists doc. rewrite bool_decide_eq_true_2 by done.
    assert ((if p_subscribed p then p else p) = p) as -> by (by destruct (p_subscribed p)).
    rewrite lookup_insert_ne by done. done.
Qed.

Lemma sessions_ok_docChange key text w :
  sessions_ok w → sessions_ok (docChange key text w).
Proof.
  unfold sessions_ok, docChange. intros Hok.
  destruct (documents w !! key) as [doc0|] eqn:Hdoc0; [|done]. simpl.
  apply Forall_fmap. eapply Forall_impl; [exact Hok|]. simpl.
  intros p Hp. by apply panel_ok_change.
Qed.

Section SessionFacts.
Context {H : HostApi}.

Lemma panel_ok_blank now docs key doc :
  docs !! key = Some doc → panel_ok now docs (blankPanel key).
Proof.
  intros Hdoc. exists doc. simpl. repeat split; done.
Qed.

Lemma panel_ok_wired now docs key doc delay html sv :
  docs !! key = Some doc → panel_ok now docs (wiredPanel key now delay html sv).
Proof.
  intros Hdoc. exists doc. simpl. repeat split; try done.
  intros d t [= <-]. simpl. intros [= <-]. lia.
Qed.

Lemma wiredPanel_live key now delay html sv :
  is_live key (wiredPanel key now delay html sv) = true.
Proof. unfold is_live. simpl. by rewrite bool_decide_eq_true_2. Qed.

Lemma sessions_ok_createPreview key doc listen nonce w :
  documents w !! key = Some doc →
  sessions_ok w → sessions_ok (fst (createPreview key listen nonce w)).
Proof.
  intros Hdoc Hok. unfold sessions_ok in *.
  destruct (createPreview_result key listen nonce w)
    as [(html & sv & svs & -> & _) | (m & svs & -> & _)]; simpl;
    apply Forall_app; (split; [done|]); apply Forall_singleton.
  - by apply panel_ok_wired with doc.
  - by apply panel_ok_blank with doc.
Qed.

Lemma panel_ok_reveal now docs p : panel_ok now docs p → panel_ok now docs (panel_reveal p).
Proof. intros (doc & Hp). by exists doc. Qed.

Lemma panel_ok_disposed now docs p :
  panel_ok now docs p → panel_ok now docs (panel_disposed p).
Proof.
  intros (doc & Hdoc & Hsend & Hdue & Hsync & Hposts & Hasc).
  assert (p_subscribed (panel_disposed p) = false) as Hoff.
  { simpl. destruct (p_onDispose p) eqn:Ho; [done|].
    destruct (p_subscribed p) eqn:Hs; [|done].
    destruct (Hsend eq_refl) as (_ & _ & Ho'). congruence. }
  exists doc. split; [done|]. split; [by rewrite Hoff|].
  split; [done|]. split; [by rewrite Hoff|]. done.
Qed.

Lemma sessions_ok_openCmd editor listen nonce w :
  sessions_ok w → sessions_ok (fst (openCmd editor listen nonce w)).
Proof.
  intros Hok. unfold openCmd.
  destruct editor as [key|]; simpl; [|done].
  destruct (documents w !! key) as [doc|] eqn:Hdoc; simpl; [|done].
  destruct (negb (isYaml doc)); [done|].
  destruct (previewByDoc w !! key) as [i|].
  - unfold sessions_ok. simpl. apply Forall_alter; [done|].
    intros p _. apply panel_ok_reveal.
  - by apply sessions_ok_createPreview with doc.
Qed.

Lemma panelClosed_frame j w :
  clock (panelClosed j w) = clock w
  ∧ documents (panelClosed j w) = documents w
  ∧ (panels (panelClosed j w) = panels w
     ∨ ∃ q, panels w !! j = Some q
            ∧ panels (panelClosed j w) = <[j := panel_disposed q]> (panels w)).
Proof.
  unfold panelClosed. destruct (panels w !! j) as [q|]; [|auto].
  destruct (p_disposed q); [auto|].
  destruct (p_onDispose q); [destruct (p_server q)|]; simpl; eauto 10.
Qed.

Lemma sessions_ok_panelClosed j w : sessions_ok w → sessions_ok (panelClosed j w).
Proof.
  unfold sessions_ok. intros Hok.
  destruct (panelClosed_frame j w) as (-> & -> & [-> | (q & Hq & ->)]); [done|].
  apply Forall_insert; [done|]. apply panel_ok_disposed.
  rewrite Forall_forall in Hok. apply Hok. by apply list_elem_of_lookup_2 in Hq.
Qed.

Lemma sessions_ok_handle e w : sessions_ok w → sessions_ok (handle e w).
Proof.
  intros Hok. destruct e as [editor listen nonce|key text|j|sv url|c|path content|]; simpl.
  - by apply sessions_ok_openCmd.
  - by apply sessions_ok_docChange.
  - by apply sessions_ok_panelClosed.
  - unfold httpRequest. destruct (servers w !! sv) as [s|]; [|done].
    by destruct (sv_listening s).
  - done.
  - done.
  - done.
Qed.

Lemma sessions_ok_run evs w : sessions_ok w → sessions_ok (run w evs).
Proof.
  revert w. induction evs as [|te evs IH]; intros w Hok; [done|].
  simpl. apply IH. unfold step. by apply sessions_ok_handle, sessions_ok_advance.
Qed.

Lemma sessions_ok_fresh ctx c docs fs : sessions_ok (freshWorld ctx c docs fs).
Proof. constructor. Qed.

(** X13: after any history since activation, what a panel was sent are
    [yaml:update] messages carrying the URI of its own document, their
    versions never go down from one message to the next, and none is ahead
    of the version the document has now. *)
Theorem snapshots_in_version_order
    (ctx : ExtensionContext) (c : Config) (docs : gmap string TextDocument)
    (fs : gmap string string) (evs : list (Z * Event)) (i : nat) (p : Panel)
    (Hp : panels (run (freshWorld ctx c docs fs) evs) !! i = Some p) :
  ∃ doc,
    documents (run (freshWorld ctx c docs fs) evs) !! p_key p = Some doc
    ∧ Forall (λ m, msg_type m = "yaml:update" ∧ uri (payload m) = p_key p
                   ∧ version (payload m) ≤ doc_version doc) (p_posts p)
    ∧ ascending ((λ m, version (payload m)) <$> p_posts p).
Proof.
  pose proof (sessions_ok_run evs _ (sessions_ok_fresh ctx c docs fs)) as Hok.
  unfold sessions_ok in Hok. rewrite Forall_forall in Hok.
  destruct (Hok p) as (doc & Hdoc & _ & _ & _ & Hposts & Hasc).
  { by apply list_elem_of_lookup_2 in Hp. }
  by exists doc.
Qed.

(** X12: after any history since activation, a live session that is left
    alone for as long as its timeout takes (its debounce delay when that is
    between 1 and [TIMEOUT_MAX], 1 ms otherwise) has, as its last snapshot,
    the document as it is, and no timeout pending: every edit restarts the
    timer, every pending timeout runs within that time, and a session with
    no timeout pending has already posted the current state. *)
Theorem quiet_session_catches_up
    (ctx : ExtensionContext) (c : Config) (docs : gmap string TextDocument)
    (fs : gmap string string) (evs : list (Z * Event))
    (i : nat) (p : Panel) (d : Debounced) (quiet : Z)
    (Hp : panels (run (freshWorld ctx c docs fs) evs) !! i = Some p)
    (Hlive : p_subscribed p = true)
    (Hsend : p_send p = Some d)
    (Hquiet : timeoutDelay (delayMs d) ≤ quiet) :
  let w := run (freshWorld ctx c docs fs) evs in
  ∃ p' doc,
    panels (step w (quiet, Tick)) !! i = Some p'
    ∧ documents (step w (quiet, Tick)) !! p_key p = Some doc
    ∧ last (p_posts p') = Some (updateMessage (p_key p) doc)
    ∧ pending p' = None.
Proof.
  intros w. change (panels w !! i = Some p) in Hp.
  assert (sessions_ok w) as Hok
    by apply (sessions_ok_run evs _ (sessions_ok_fresh ctx c docs fs)).
  clearbody w. unfold sessions_ok in Hok. rewrite Forall_forall in Hok.
  destruct (Hok p) as (doc & Hdoc & Hwired & Hdue & Hsync & _).
  { by apply list_elem_of_lookup_2 in Hp. }
  destruct (Hwired Hlive) as (_ & Hnd & _).
  change (step w (quiet, Tick)) with (advance quiet w).
  change (documents (advance quiet w)) with (documents w).
  rewrite (advance_panel quiet w i p Hp).
  unfold timeout_due, timer_due, timeout_runs_at. rewrite Hsend.
  destruct (timer d) as [t|] eqn:Ht; simpl.
  - specialize (Hdue d t Hsend Ht).
    assert ((t - delayMs d + timeoutDelay (delayMs d) <=? clock w + Z.max 0 quiet)
            = true) as -> by (apply Z.leb_le; lia).
    eexists _, doc. split; [done|]. split; [done|].
    unfold timeout_fires. rewrite Hnd, Hdoc. simpl. split; [by rewrite last_snoc|].
    unfold pending. simpl. by rewrite Hsend.
  - exists p, doc. split; [done|]. split; [done|].
    assert (pending p = None) as Hnone by (unfold pending; by rewrite Hsend).
    split; [by apply Hsync | done].
Qed.

(** X11: a change of another document does to a session what the mere
    passing of the same time does: the listener returns at the key test, so
    the edit neither posts anything nor restarts the pending timeout, and
    the session's document is untouched. *)
Theorem other_document_change_is_ignored
    (w : World) (i : nat) (p : Panel) (other text : string) (dt : Z)
    (Hp : panels w !! i = Some p)
    (Hother : other ≠ p_key p) :
  panels (step w (dt, DocChange other text)) !! i = panels (step w (dt, Tick)) !! i
  ∧ documents (step w (dt, DocChange other text)) !! p_key p = documents w !! p_key p.
Proof.
  change (step w (dt, DocChange other text))
    with (docChange other text (advance dt w)).
  change (step w (dt, Tick)) with (advance dt w).
  pose proof (advance_panel dt w i p Hp) as Hadv.
  assert (documents (advance dt w) = documents w) as Hdocs by done.
  revert Hadv Hdocs. generalize (advance dt w). intros w1 Hadv Hdocs.
  unfold docChange. destruct (documents w1 !! other) as [doc|];
    [|by rewrite Hdocs].
  simpl. rewrite list_lookup_fmap, Hadv. simpl. split.
  - f_equal. unfold onDidChangeTextDocument.
    assert (∀ q, p_key q = p_key p →
              (if p_subscribed q
               then if bool_decide (other ≠ p_key q) then q else sendUpdate (clock w1) q
               else q) = q) as Hsame.
    { intros q Hq. rewrite Hq, bool_decide_eq_true_2 by done.
      by destruct (p_subscribed q). }
    apply Hsame. destruct (timeout_due _ p); [|done].
    unfold timeout_fires. destruct (p_disposed p); [done|].
    by destruct (documents w !! p_key p).
  - rewrite lookup_insert_ne by done. by rewrite Hdocs.
Qed.

(** X10: a new session posts the document once without any edit: the
    handler calls [sendUpdate] itself, so nothing is posted before the
    timeout has run, and once it has, exactly one snapshot is there, with
    the text and the version of the document.  The timeout runs
    [debounceMs] after the handler's end when that is between 1 and
    [TIMEOUT_MAX], and 1 ms after it otherwise. *)
Theorem initial_snapshot_after_delay
    (w : World) (key : string) (doc : TextDocument)
    (listen : ListenOutcome) (nonce : string) (dt : Z)
    (Hdoc : documents w !! key = Some doc)
    (Hyaml : isYaml doc = true)
    (Hmiss : previewByDoc w !! key = None)
    (Hret : snd (openCmd (Some key) listen nonce w) = Returned tt) :
  let w1 := fst (openCmd (Some key) listen nonce w) in
  ∃ p', panels (step w1 (dt, Tick)) !! length (panels w) = Some p'
        ∧ p_posts p' = (if timeoutDelay (effectiveDebounceMs (config w)) <=? Z.max 0 dt
                        then [updateMessage key doc] else [])
        ∧ Forall (λ m, msg_type m = "yaml:update" ∧ uri (payload m) = key
                       ∧ yaml (payload m) = doc_text doc
                       ∧ fileName (payload m) = doc_fileName doc
                       ∧ languageId (payload m) = doc_languageId doc
                       ∧ version (payload m) = doc_version doc) (p_posts p')
        ∧ (1 ≤ effectiveDebounceMs (config w) ≤ TIMEOUT_MAX →
           timeoutDelay (effectiveDebounceMs (config w))
           = effectiveDebounceMs (config w)).
Proof.
  assert (opens_fresh key w) as Hopen by (split; [by exists doc | done]).
  rewrite (openCmd_fresh key listen nonce w Hopen) in Hret |- *.
  destruct (createPreview_result key listen nonce w)
    as [(html & sv & svs & Heq & _) | (m & svs & Heq & _)];
    rewrite Heq in Hret |- *; [|discriminate].
  cbn [fst]. set (w1 := mkWorld _ _ _ _ _ _ _ _ _ _).
  assert (streaming w1 (length (panels w)) key [] (effectiveDebounceMs (config w))
            (Some (clock w + timeoutDelay (effectiveDebounceMs (config w)))) doc)
    as Hlive.
  { eexists _, _. split; [by apply list_lookup_middle|].
    simpl. repeat split; try done. apply runs_at_call. }
  destruct (tick_streaming w1 (length (panels w)) key []
              (effectiveDebounceMs (config w)) _ doc dt Hlive)
    as [_ (p' & d' & Hp' & _ & _ & _ & Hposts & _)].
  assert (elapsed (clock w1 + Z.max 0 dt)
            (Some (clock w + timeoutDelay (effectiveDebounceMs (config w))))
          = (timeoutDelay (effectiveDebounceMs (config w)) <=? Z.max 0 dt)) as Hwhen.
  { simpl.
    destruct (Z.leb_spec (timeoutDelay (effectiveDebounceMs (config w))) (Z.max 0 dt));
      [apply Z.leb_le | apply Z.leb_gt]; lia. }
  rewrite Hwhen in Hposts.
  exists p'. split; [done|]. split; [by rewrite Hposts|].
  split; [|apply timeoutDelay_in_range].
  rewrite Hposts. destruct (_ <=? _); [|constructor].
  apply Forall_singleton. by repeat split.
Qed.

End SessionFacts.

Section ServerFacts.
Context {H : HostApi}.

Lemma servers_ok_pointwise w w' :
  servers w' = servers w →
  (∀ i, match panels w !! i, panels w' !! i with
        | Some p, Some p' => p_server p' = p_server p
                             ∧ (p_subscribed p' = true → p_subscribed p = true)
        | None, None => True
        | _, _ => False
        end) →
  servers_ok w → servers_ok w'.
Proof.
  intros Hsv Hpanels Hok i p' s Hp' Hs.
  pose proof (Hpanels i) as Hi. rewrite Hp' in Hi.
  destruct (panels w !! i) as [p|] eqn:Hp; [|done]. destruct Hi as [Hserver Hsub].
  rewrite Hserver in Hs. destruct (Hok i p s Hp Hs) as [Huniq (sv & Hlook & Hlisten)].
  split.
  - intros j q' Hq' Hsq. pose proof (Hpanels j) as Hj. rewrite Hq' in Hj.
    destruct (panels w !! j) as [q|] eqn:Hq; [|done]. destruct Hj as [Hserver' _].
    rewrite Hserver' in Hsq. by apply (Huniq j q).
  - exists sv. rewrite Hsv. split; [done|]. intros Hs'. by apply Hlisten, Hsub.
Qed.

Lemma pointwise_fmap (g : Panel → Panel) (l : list Panel) i :
  (∀ p, p_server (g p) = p_server p ∧ (p_subscribed (g p) = true → p_subscribed p = true)) →
  match l !! i, (g <$> l) !! i with
  | Some p, Some p' => p_server p' = p_server p
                       ∧ (p_subscribed p' = true → p_subscribed p = true)
  | None, None => True
  | _, _ => False
  end.
Proof. intros Hg. rewrite list_lookup_fmap. destruct (l !! i); simpl; auto. Qed.

Lemma servers_ok_advance dt w : servers_ok w → servers_ok (advance dt w).
Proof.
  apply servers_ok_pointwise; [done|]. intros i. unfold advance. simpl.
  apply pointwise_fmap. intros p.
  destruct (timeout_due _ p); [|done].
  unfold timeout_fires. destruct (p_disposed p); [done|].
  by destruct (documents w !! p_key p).
Qed.

Lemma servers_ok_docChange key text w : servers_ok w → servers_ok (docChange key text w).
Proof.
  unfold docChange. destruct (documents w !! key); [|done].
  apply servers_ok_pointwise; [done|]. intros i. simpl.
  apply pointwise_fmap. intros p. unfold onDidChangeTextDocument.
  destruct (p_subscribed p) eqn:Hs; [|by rewrite Hs].
  by destruct (bool_decide _).
Qed.

Lemma servers_ok_reveal i w :
  servers_ok w → servers_ok (with_panels (alter panel_reveal i (panels w)) w).
Proof.
  apply servers_ok_pointwise; [done|]. intros j. simpl.
  rewrite list_lookup_alter. case_decide as Hij.
  - subst j. by destruct (panels w !! i).
  - by destruct (panels w !! j).
Qed.

(** The panel and the server that a run of [createPreview] adds. *)
Lemma createPreview_added key listen nonce w :
  ∃ x svs,
    panels (fst (createPreview key listen nonce w)) = (panels w ++ [x])%list
    ∧ servers (fst (createPreview key listen nonce w)) = (servers w ++ svs)%list
    ∧ (p_server x = None
       ∨ (p_server x = Some (length (servers w))
          ∧ ∃ sv, svs = [sv] ∧ sv_listening sv = true)).
Proof.
  unfold createPreview.
  destruct (isHttpsUrl _); simpl.
  - destruct (getWebviewHtml _ _ _ _ _ _) as [html|m]; simpl.
    + eexists _, []. rewrite insert_last, app_nil_r. split; [done|]. split; [done|].
      by left.
    + eexists _, []. rewrite app_nil_r. split; [done|]. split; [done|]. by left.
  - destruct listen as [m|[|path|port]]; simpl;
      try (eexists _, [_]; split; [done|]; split; [done|]; by left).
    destruct (getWebviewHtml _ _ _ _ _ _) as [html|m]; simpl.
    + eexists _, [_]. rewrite insert_last. split; [done|]. split; [done|].
      right. split; [done|]. by eexists.
    + eexists _, [_]. split; [done|]. split; [done|]. by left.
Qed.

Lemma servers_ok_createPreview key listen nonce w :
  servers_ok w → servers_ok (fst (createPreview key listen nonce w)).
Proof.
  intros Hok.
  destruct (createPreview_added key listen nonce w) as (x & svs & Hps & Hsv & Hx).
  intros i p s Hp Hs. rewrite Hps in Hp. rewrite Hps, Hsv.
  assert (∀ j q s', panels w !! j = Some q → p_server q = Some s' →
            (s' < length (servers w))%nat) as Hold.
  { intros j q s' Hq Hsq. destruct (Hok j q s' Hq Hsq) as [_ (sv & Hlook & _)].
    by apply lookup_lt_Some in Hlook. }
  apply lookup_app_Some in Hp as [Hp | [Hlen Hp]].
  - destruct (Hok i p s Hp Hs) as [Huniq (sv & Hlook & Hlisten)]. split.
    + intros j q Hq Hsq. apply lookup_app_Some in Hq as [Hq | [_ Hq]].
      * by apply (Huniq j q).
      * apply list_lookup_singleton_Some in Hq as [_ <-].
        destruct Hx as [Hx | [Hx _]]; [congruence|].
        pose proof (Hold i p s Hp Hs). rewrite Hx in Hsq. injection Hsq as <-. lia.
    + exists sv. split; [by apply lookup_app_l_Some | done].
  - apply list_lookup_singleton_Some in Hp as [Hi <-].
    destruct Hx as [Hx | [Hx (sv & -> & Hlisten)]]; [congruence|].
    rewrite Hx in Hs. injection Hs as <-. split.
    + intros j q Hq Hsq. apply lookup_app_Some in Hq as [Hq | [Hlen' Hq]].
      * pose proof (Hold j q _ Hq Hsq). lia.
      * apply list_lookup_singleton_Some in Hq as [Hj _]. lia.
    + exists sv. split; [by apply list_lookup_middle | done].
Qed.

Lemma panelClosed_panels j w q :
  panels w !! j = Some q → p_disposed q = false →
  panels (panelClosed j w) = <[j := panel_disposed q]> (panels w).
Proof.
  intros Hq Hd. unfold panelClosed. rewrite Hq, Hd.
  destruct (p_onDispose q); [|done]. by destruct (p_server q).
Qed.

Lemma panelClosed_servers j w q :
  panels w !! j = Some q → p_disposed q = false →
  servers (panelClosed j w) =
  if p_onDispose q then
    match p_server q with
    | Some s => alter closeServer s (servers w)
    | None => servers w
    end
  else servers w.
Proof.
  intros Hq Hd. unfold panelClosed. rewrite Hq, Hd.
  destruct (p_onDispose q); [|done]. by destruct (p_server q).
Qed.

Lemma panel_disposed_subscribed q :
  p_subscribed (panel_disposed q) = true → p_subscribed q = true ∧ p_onDispose q = false.
Proof. simpl. by destruct (p_onDispose q). Qed.

Lemma servers_ok_panelClosed j w : servers_ok w → servers_ok (panelClosed j w).
Proof.
  intros Hok. destruct (panels w !! j) as [q|] eqn:Hq;
    [|by unfold panelClosed; rewrite Hq].
  destruct (p_disposed q) eqn:Hd; [by unfold panelClosed; rewrite Hq, Hd|].
  pose proof (panelClosed_panels j w q Hq Hd) as Hps.
  pose proof (panelClosed_servers j w q Hq Hd) as Hsv.
  assert (∀ i p', panels (panelClosed j w) !! i = Some p' →
            ∃ p, panels w !! i = Some p ∧ p_server p' = p_server p
                 ∧ (p_subscribed p' = true → p_subscribed p = true)
                 ∧ (i = j → p = q ∧ p' = panel_disposed q)) as Hback.
  { intros i p' Hp'. rewrite Hps in Hp'.
    destruct (decide (i = j)) as [->|Hij].
    - rewrite list_lookup_insert_eq in Hp' by (by apply lookup_lt_Some with q).
      injection Hp' as <-. exists q. repeat split; try done.
      intros Hs. by apply panel_disposed_subscribed in Hs as [Hs _].
    - rewrite list_lookup_insert_ne in Hp' by done. exists p'. by repeat split. }
  intros i p' s Hp' Hs.
  destruct (Hback i p' Hp') as (p & Hp & Hserver & Hsub & Hij).
  rewrite Hserver in Hs.
  destruct (Hok i p s Hp Hs) as [Huniq (sv & Hlook & Hlisten)]. split.
  - intros k r' Hr' Hsr. destruct (Hback k r' Hr') as (r & Hr & Hserver' & _).
    rewrite Hserver' in Hsr. by apply (Huniq k r).
  - rewrite Hsv. destruct (p_onDispose q) eqn:Ho;
      [destruct (p_server q) as [sq|] eqn:Hsq|].
    + destruct (decide (sq = s)) as [->|Hne].
      * assert (j = i) as <- by (by apply (Huniq j q)).
        destruct (Hij eq_refl) as [-> ->].
        exists (closeServer sv). split.
        { by rewrite list_lookup_alter_eq, Hlook. }
        simpl. by rewrite Ho.
      * exists sv. split; [by rewrite list_lookup_alter_ne|].
        intros Hs'. by apply Hlisten, Hsub.
    + exists sv. split; [done|]. intros Hs'. by apply Hlisten, Hsub.
    + exists sv. split; [done|]. intros Hs'. by apply Hlisten, Hsub.
Qed.

Lemma servers_ok_openCmd editor listen nonce w :
  servers_ok w → servers_ok (fst (openCmd editor listen nonce w)).
Proof.
  intros Hok. unfold openCmd.
  destruct (editor ≫= _) as [[key doc]|]; [|done].
  destruct (negb (isYaml doc)); [done|].
  destruct (previewByDoc w !! key) as [i|].
  - by apply servers_ok_reveal.
  - by apply servers_ok_createPreview.
Qed.

Lemma servers_ok_handle e w : servers_ok w → servers_ok (handle e w).
Proof.
  intros Hok. destruct e as [editor listen nonce|key text|j|sv url|c|path content|]; simpl.
  - by apply servers_ok_openCmd.
  - by apply servers_ok_docChange.
  - by apply servers_ok_panelClosed.
  - unfold httpRequest. destruct (servers w !! sv) as [s|]; [|done].
    by destruct (sv_listening s).
  - done.
  - done.
  - done.
Qed.

Lemma servers_ok_run evs w : servers_ok w → servers_ok (run w evs).
Proof.
  revert w. induction evs as [|te evs IH]; intros w Hok; [done|].
  simpl. apply IH. unfold step. by apply servers_ok_handle, servers_ok_advance.
Qed.

Lemma servers_ok_fresh ctx c docs fs : servers_ok (freshWorld ctx c docs fs).
Proof. intros i p s Hp. simpl in Hp. by rewrite lookup_nil in Hp. Qed.

(** X14: after any history since activation, the server of a live session
    belongs to that session alone and is listening, so requests to it are
    answered; closing any other panel leaves it as it is. *)
Theorem session_server_stays_up
    (ctx : ExtensionContext) (c : Config) (docs : gmap string TextDocument)
    (fs : gmap string string) (evs : list (Z * Event))
    (i : nat) (p : Panel) (s : nat)
    (Hp : panels (run (freshWorld ctx c docs fs) evs) !! i = Some p)
    (Hs : p_server p = Some s)
    (Hlive : p_subscribed p = true) :
  let w := run (freshWorld ctx c docs fs) evs in
  (∀ j q, panels w !! j = Some q → p_server q = Some s → j = i)
  ∧ (∃ sv, servers w !! s = Some sv ∧ sv_listening sv = true)
  ∧ (∀ j, j ≠ i → servers (panelClosed j w) !! s = servers w !! s)
  ∧ (∀ url, ∃ res, responses (httpRequest s url w) = (responses w ++ [res])%list).
Proof.
  intros w. change (panels w !! i = Some p) in Hp.
  assert (servers_ok w) as Hok
    by apply (servers_ok_run evs _ (servers_ok_fresh ctx c docs fs)).
  clearbody w. destruct (Hok i p s Hp Hs) as [Huniq (sv & Hlook & Hlisten)].
  split; [done|]. split; [by eauto|]. split.
  - intros j Hij. destruct (panels w !! j) as [q|] eqn:Hq;
      [|by unfold panelClosed; rewrite Hq].
    destruct (p_disposed q) eqn:Hd; [by unfold panelClosed; rewrite Hq, Hd|].
    rewrite (panelClosed_servers j w q Hq Hd).
    destruct (p_onDispose q); [|done].
    destruct (p_server q) as [sq|] eqn:Hsq; [|done].
    apply list_lookup_alter_ne. intros ->. by apply Hij, (Huniq j q).
  - intros url. unfold httpRequest. rewrite Hlook, (Hlisten Hlive). by eexists.
Qed.

End ServerFacts.

(** ** Life cycle of a session *)

Section LifecycleFacts.
Context {H : HostApi}.

Lemma same_frame_refl p : same_frame p p.
Proof. by repeat split. Qed.

Lemma same_frame_trans p q r : same_frame p q → same_frame q r → same_frame p r.
Proof.
  intros (? & ? & ? & ? & ?) (? & ? & ? & ? & ?). repeat split; congruence.
Qed.

Lemma same_frame_send f p :
  (∀ d, delayMs (f d) = delayMs d) →
  same_frame p (panel_with_send (f <$> p_send p) p).
Proof.
  intros Hf. repeat split. simpl. destruct (p_send p); simpl; [by rewrite Hf | done].
Qed.

Lemma same_frame_fires docs p : same_frame p (timeout_fires docs p).
Proof.
  unfold timeout_fires.
  pose proof (same_frame_send timer_ran p (λ d, eq_refl)) as Hran.
  destruct (p_disposed p); [done|].
  destruct (docs !! p_key p); [|done].
  destruct Hran as (? & ? & ? & ? & ?). by repeat split.
Qed.

Lemma step_same_frame te w i p :
  panels w !! i = Some p →
  ∃ p', panels (step w te) !! i = Some p' ∧ same_frame p p'.
Proof.
  intros Hp. unfold step.
  pose proof (advance_panel (fst te) w i p Hp) as Hadv.
  set (p1 := if timeout_due _ p then _ else p) in Hadv.
  assert (same_frame p p1) as H1.
  { subst p1. destruct (timeout_due _ p);
      [apply same_frame_fires | apply same_frame_refl]. }
  revert Hadv. generalize (advance (fst te) w). intros w1 Hadv.
  assert (∃ p', panels (handle (snd te) w1) !! i = Some p' ∧ same_frame p1 p')
    as (p' & Hp' & H2);
    [|exists p'; split; [done | by apply same_frame_trans with p1]].
  destruct (snd te) as [editor listen nonce|key text|j|sv url|c|path content|]; simpl.
  - destruct (openCmd_panel editor listen nonce w1 i p1 Hadv) as [-> | ->];
      eexists; (split; [done|]); by repeat split.
  - unfold docChange. destruct (documents w1 !! key);
      [|exists p1; split; [done | apply same_frame_refl]].
    simpl. rewrite list_lookup_fmap, Hadv. simpl. eexists. split; [done|].
    unfold onDidChangeTextDocument.
    destruct (p_subscribed p1); [|apply same_frame_refl].
    destruct (bool_decide _); [apply same_frame_refl|].
    apply (same_frame_send (debounced_call (clock w1)) p1). done.
  - destruct (decide (i = j)) as [<-|Hij].
    + destruct (p_disposed p1) eqn:Hd.
      * unfold panelClosed. rewrite Hadv, Hd. exists p1. split; [done|].
        apply same_frame_refl.
      * rewrite (panelClosed_panel i w1 p1 Hadv Hd). eexists. split; [done|].
        by repeat split.
    + rewrite (panelClosed_other i j w1 p1 Hij Hadv). exists p1.
      split; [done | apply same_frame_refl].
  - unfold httpRequest. destruct (servers w1 !! sv) as [s|];
      [destruct (sv_listening s)|]; exists p1; (split; [done | apply same_frame_refl]).
  - exists p1. split; [done | apply same_frame_refl].
  - exists p1. split; [done | apply same_frame_refl].
  - exists p1. split; [done | apply same_frame_refl].
Qed.

(** X15: whatever happens after a panel was set up (edits, time, other
    open requests, changed settings, its own disposal), the document it is
    for, its title, the content of its webview, its server and its debounce
    delay stay as they were: settings are read once, when the preview is
    opened. *)
Theorem session_frame_is_fixed
    (w : World) (i : nat) (p : Panel) (evs : list (Z * Event))
    (Hp : panels w !! i = Some p) :
  ∃ p', panels (run w evs) !! i = Some p' ∧ same_frame p p'.
Proof.
  revert w p Hp. induction evs as [|te evs IH]; intros w p Hp; simpl.
  - exists p. split; [done | apply same_frame_refl].
  - destruct (step_same_frame te w i p Hp) as (p1 & Hp1 & H1).
    destruct (IH _ p1 Hp1) as (p' & Hp' & H2).
    exists p'. split; [done | by apply same_frame_trans with p1].
Qed.

Lemma filter_insert_count {A} (f : A → bool) (l : list A) i x y :
  l !! i = Some x →
  (length (List.filter f (<[i := y]> l)) + (if f x then 1 else 0)
   = length (List.filter f l) + (if f y then 1 else 0))%nat.
Proof.
  revert i. induction l as [|a l IH]; intros i Hi; [done|].
  destruct i as [|i]; simpl in *.
  - injection Hi as ->. destruct (f x), (f y); simpl; lia.
  - specialize (IH i Hi). destruct (f a); simpl; lia.
Qed.

Lemma filter_snoc_count {A} (f : A → bool) (l : list A) y :
  length (List.filter f (l ++ [y])) = (length (List.filter f l) + (if f y then 1 else 0))%nat.
Proof.
  induction l as [|a l IH]; simpl.
  - by destruct (f y).
  - destruct (f a); simpl; lia.
Qed.

(** X16: disposing the panel of a live session runs its dispose handler.
    The registry loses the entry of the panel's document, whichever panel
    that entry pointed at; the listener of the panel is removed, so its
    document has one live session fewer and every other document as many
    as before; its server is closed if it has one, and no other; no other
    panel changes; disposing it once more changes nothing.  When registry
    and panels agreed before, they agree afterwards and the document is
    left without live session. *)
Theorem dispose_releases_session
    (w : World) (i : nat) (p : Panel)
    (Hp : panels w !! i = Some p)
    (Hlive : p_subscribed p = true)
    (Hwired : p_onDispose p = true)
    (Hopen : p_disposed p = false) :
  let w' := panelClosed i w in
  previewByDoc w' = delete (p_key p) (previewByDoc w)
  ∧ S (live_sessions (p_key p) w') = live_sessions (p_key p) w
  ∧ (∀ k, k ≠ p_key p → live_sessions k w' = live_sessions k w)
  ∧ servers w' = match p_server p with
                 | Some s => alter closeServer s (servers w)
                 | None => servers w
                 end
  ∧ (∀ s sv, p_server p = Some s → servers w !! s = Some sv →
       servers w' !! s = Some (mkServer (sv_demoPath sv) false))
  ∧ panels w' = <[i := panel_disposed p]> (panels w)
  ∧ panels w' !! i = Some (panel_disposed p)
  ∧ p_subscribed (panel_disposed p) = false
  ∧ p_disposed (panel_disposed p) = true
  ∧ panelClosed i w' = w'
  ∧ (registry_ok w → registry_ok w' ∧ live_sessions (p_key p) w' = 0%nat).
Proof.
  intros w'.
  assert (previewByDoc w' = delete (p_key p) (previewByDoc w)) as Hreg.
  { subst w'. by rewrite (panelClosed_registry i w p Hp Hopen), Hwired. }
  assert (panels w' !! i = Some (panel_disposed p)) as Hp'
    by apply (panelClosed_panel i w p Hp Hopen).
  assert (panels w' = <[i := panel_disposed p]> (panels w)) as Hpanels.
  { subst w'. by rewrite (panelClosed_panels i w p Hp Hopen). }
  assert (is_live (p_key p) p = true) as Hwas by (by apply is_live_true).
  assert (∀ k, is_live k (panel_disposed p) = false) as Hnow.
  { intros k. unfold is_live. simpl. by rewrite Hwired. }
  assert (S (live_sessions (p_key p) w') = live_sessions (p_key p) w) as Hless.
  { unfold live_sessions. rewrite Hpanels.
    pose proof (filter_insert_count (is_live (p_key p)) (panels w) i p
                  (panel_disposed p) Hp) as Hcount.
    rewrite Hwas, Hnow in Hcount. lia. }
  assert (servers w' = match p_server p with
                       | Some s => alter closeServer s (servers w)
                       | None => servers w
                       end) as Hservers.
  { subst w'. by rewrite (panelClosed_servers i w p Hp Hopen), Hwired. }
  split; [done|]. split; [done|].
  split; [|split; [done|split; [|split; [done|split; [done|split; [|split; [done|split]]]]]]].
  - intros k Hk. unfold live_sessions. rewrite Hpanels.
    pose proof (filter_insert_count (is_live k) (panels w) i p
                  (panel_disposed p) Hp) as Hcount.
    rewrite Hnow in Hcount.
    assert (is_live k p = false) as Hother.
    { unfold is_live. rewrite bool_decide_eq_false_2 by done. apply andb_false_r. }
    rewrite Hother in Hcount. lia.
  - intros s sv Hs Hsv. rewrite Hservers, Hs.
    by rewrite list_lookup_alter_eq, Hsv.
  - simpl. by rewrite Hwired.
  - unfold panelClosed at 1. by rewrite Hp'.
  - intros Hok. pose proof (registry_ok_panelClosed i w Hok) as Hok'. fold w' in Hok'.
    split; [done|].
    apply live_sessions_unregistered; [done|]. rewrite Hreg. apply lookup_delete_eq.
Qed.

(** X17: after the panel of a live session was closed, an open request for
    the same document that runs to its end finds no registry entry: it
    creates a new panel (the closed one stays closed), wires and registers
    it, and the document has as many live sessions as before the close;
    exactly one when registry and panels agreed before. *)
Theorem reopen_after_dispose
    (w : World) (i : nat) (p : Panel) (doc : TextDocument)
    (listen : ListenOutcome) (nonce : string)
    (Hp : panels w !! i = Some p)
    (Hlive : p_subscribed p = true)
    (Hwired : p_onDispose p = true)
    (Hopen : p_disposed p = false)
    (Hdoc : documents w !! p_key p = Some doc)
    (Hyaml : isYaml doc = true)
    (Hret : snd (openCmd (Some (p_key p)) listen nonce (panelClosed i w)) = Returned tt) :
  let w2 := fst (openCmd (Some (p_key p)) listen nonce (panelClosed i w)) in
  previewByDoc w2 !! p_key p = Some (length (panels w))
  ∧ i ≠ length (panels w)
  ∧ live_sessions (p_key p) w2 = live_sessions (p_key p) w
  ∧ panels w2 !! i = Some (panel_disposed p)
  ∧ (∃ q, panels w2 !! length (panels w) = Some q
          ∧ p_key q = p_key p ∧ p_subscribed q = true ∧ p_disposed q = false
          ∧ p_posts q = [] ∧ p_reveals q = 0%nat)
  ∧ (registry_ok w → live_sessions (p_key p) w2 = 1%nat).
Proof.
  intros w2.
  destruct (dispose_releases_session w i p Hp Hlive Hwired Hopen)
    as (Hreg & Hless & _ & _ & _ & Hpanels & Hp' & _ & _ & _ & Hagree).
  assert (length (panels (panelClosed i w)) = length (panels w)) as Hlen
    by (by rewrite Hpanels, length_insert).
  assert (opens_fresh (p_key p) (panelClosed i w)) as Hfresh.
  { split.
    - exists doc. split; [|done].
      destruct (panelClosed_frame i w) as (_ & -> & _). done.
    - rewrite Hreg. apply lookup_delete_eq. }
  set (w1 := panelClosed i w) in *. subst w2.
  rewrite (openCmd_fresh _ listen nonce w1 Hfresh) in Hret |- *.
  destruct (createPreview_result (p_key p) listen nonce w1)
    as [(html & sv & svs & Heq & _) | (m & svs & Heq & _)];
    rewrite Heq in Hret |- *; [|discriminate].
  cbn [fst]. rewrite Hlen.
  assert (live_sessions (p_key p)
            (mkWorld (clock w1) (extension w1) (config w1) (documents w1) (files w1)
               (panels w1 ++ [wiredPanel (p_key p) (clock w1)
                                (effectiveDebounceMs (config w1)) html sv])
               (servers w1 ++ svs) (<[p_key p := length (panels w)]> (previewByDoc w1))
               (notices w1) (responses w1))
          = live_sessions (p_key p) w) as Hcount.
  { unfold live_sessions. simpl. rewrite filter_snoc_count, wiredPanel_live.
    fold (live_sessions (p_key p) w1). unfold live_sessions in Hless |- *. lia. }
  split; [apply lookup_insert_eq|]. split.
  { apply lookup_lt_Some in Hp. lia. }
  split; [exact Hcount|]. split.
  { simpl. by apply lookup_app_l_Some. }
  split.
  { eexists. split.
    - simpl. rewrite <- Hlen. by apply list_lookup_middle.
    - done. }
  intros Hok. destruct (Hagree Hok) as [_ Hzero].
  rewrite Hcount. lia.
Qed.

End LifecycleFacts.

(** ** Invocations that overlap *)

Section FlightFacts.
Context {H : HostApi}.

Lemma begin_finished editor w w' listen nonce :
  openCmd_begin editor w = (w', Finished) →
  openCmd editor listen nonce w = (w', Returned tt).
Proof. intros Heq. by rewrite openCmd_stretches, Heq. Qed.

Lemma begin_registry editor w :
  previewByDoc (fst (openCmd_begin editor w)) = previewByDoc w.
Proof.
  unfold openCmd_begin. destruct (editor ≫= _) as [[key doc]|]; [|done].
  destruct (negb (isYaml doc)); [done|]. by destruct (previewByDoc w !! key).
Qed.

Lemma begin_awaits editor w w' key :
  openCmd_begin editor w = (w', AwaitsShow key) →
  w' = w ∧ previewByDoc w !! key = None.
Proof.
  unfold openCmd_begin. destruct (editor ≫= _) as [[k doc]|]; [|done].
  destruct (negb (isYaml doc)); [done|].
  destruct (previewByDoc w !! k) eqn:Hk; [done|].
  intros [= <- <-]. done.
Qed.

(** A panel that has neither listener nor dispose handler stays so under
    every event and as time passes. *)
Lemma unwired_handle e w i q :
  panels w !! i = Some q → p_subscribed q = false → p_onDispose q = false →
  ∃ q', panels (handle e w) !! i = Some q' ∧ p_key q' = p_key q
        ∧ p_subscribed q' = false ∧ p_onDispose q' = false.
Proof.
  intros Hq Hs Ho.
  destruct e as [editor listen nonce|key text|j|sv url|c|path content|]; simpl.
  - destruct (openCmd_panel editor listen nonce w i q Hq) as [-> | ->]; eauto 10.
  - unfold docChange. destruct (documents w !! key); [|eauto 10]. simpl.
    rewrite list_lookup_fmap, Hq. simpl. exists q.
    unfold onDidChangeTextDocument. by rewrite Hs.
  - destruct (decide (i = j)) as [<-|Hij].
    + destruct (p_disposed q) eqn:Hd.
      * unfold panelClosed. rewrite Hq, Hd. eauto 10.
      * rewrite (panelClosed_panel i w q Hq Hd). eexists. split; [done|].
        simpl. by rewrite Ho.
    + rewrite (panelClosed_other i j w q Hij Hq). eauto 10.
  - unfold httpRequest. destruct (servers w !! sv) as [s|]; [|eauto 10].
    destruct (sv_listening s); eauto 10.
  - eauto 10.
  - eauto 10.
  - eauto 10.
Qed.

Lemma unwired_advance dt w i q :
  panels w !! i = Some q → p_subscribed q = false → p_onDispose q = false →
  ∃ q', panels (advance dt w) !! i = Some q' ∧ p_key q' = p_key q
        ∧ p_subscribed q' = false ∧ p_onDispose q' = false.
Proof.
  intros Hq Hs Ho. rewrite (advance_panel dt w i q Hq).
  destruct (timeout_due _ q); [|eauto 10].
  eexists. split; [done|]. unfold timeout_fires.
  destruct (p_disposed q); [done|]. by destruct (documents w !! p_key q).
Qed.

(** An event leaves a document without registry entry, unless it is an
    invocation that starts a preview for it. *)
Lemma handle_registry_miss e w key :
  previewByDoc w !! key = None →
  starts (Happens e) w ≠ Some key →
  previewByDoc (handle e w) !! key = None.
Proof.
  intros Hmiss Hstart.
  destruct e as [editor listen nonce|k text|j|sv url|c|path content|]; simpl.
  - simpl in Hstart. rewrite openCmd_stretches.
    destruct (openCmd_begin editor w) as [w1 [|k]] eqn:Hbegin.
    + pose proof (begin_registry editor w) as Hreg. rewrite Hbegin in Hreg.
      simpl in *. by rewrite Hreg.
    + apply begin_awaits in Hbegin as [-> Hk]. simpl in Hstart.
      rewrite <- createPreview_stretches.
      destruct (createPreview_result k listen nonce w)
        as [(html & sv & svs & -> & _) | (m & svs & -> & _)]; simpl; [|done].
      rewrite lookup_insert_ne; [done|]. congruence.
  - unfold docChange. by destruct (documents w !! k).
  - unfold panelClosed. destruct (panels w !! j) as [q|] eqn:Hq; [|done].
    destruct (p_disposed q) eqn:Hd; [done|].
    pose proof (panelClosed_registry j w q Hq Hd) as Hreg.
    unfold panelClosed in Hreg. rewrite Hq, Hd in Hreg. rewrite Hreg.
    destruct (p_onDispose q); [|done].
    destruct (decide (p_key q = key)) as [->|Hne];
      [apply lookup_delete_eq | by rewrite lookup_delete_ne].
  - unfold httpRequest. destruct (servers w !! sv) as [s|]; [|done].
    by destruct (sv_listening s).
  - done.
  - done.
  - done.
Qed.

Lemma await_ok_handle e w a :
  await_ok w a → starts (Happens e) w ≠ Some (await_key a) →
  await_ok (handle e w) a.
Proof.
  intros [Hmiss Hpanel] Hstart. split; [by apply handle_registry_miss|].
  destruct a as [key|loc]; [done|].
  destruct Hpanel as (q & Hq & Hk & Hs & Ho).
  destruct (unwired_handle e w _ q Hq Hs Ho) as (q' & Hq' & Hk' & Hs' & Ho').
  exists q'. repeat split; congruence.
Qed.

Lemma await_ok_advance dt w a : await_ok w a → await_ok (advance dt w) a.
Proof.
  intros [Hmiss Hpanel]. split; [done|].
  destruct a as [key|loc]; [done|].
  destruct Hpanel as (q & Hq & Hk & Hs & Ho).
  destruct (unwired_advance dt w _ q Hq Hs Ho) as (q' & Hq' & Hk' & Hs' & Ho').
  exists q'. repeat split; congruence.
Qed.

(** Registry and panels still agree after a panel without listener is
    created. *)
Lemma registry_ok_grow w w' x :
  panels w' = (panels w ++ [x])%list → previewByDoc w' = previewByDoc w →
  p_subscribed x = false → p_onDispose x = false →
  registry_ok w → registry_ok w'.
Proof.
  intros Hpanels Hreg Hs Ho (Hentry & Hlisten & Hwired).
  split; [|split].
  - intros key i Hi. rewrite Hreg in Hi.
    destruct (Hentry key i Hi) as (p & Hp & Hk & Hsub).
    exists p. rewrite Hpanels. split; [by apply lookup_app_l_Some|]. done.
  - intros i p Hp Hsub. rewrite Hpanels in Hp. rewrite Hreg.
    apply lookup_app_Some in Hp as [Hp | [_ Hp]]; [by apply Hlisten|].
    apply list_lookup_singleton_Some in Hp as [_ <-]. congruence.
  - intros i p Hp. rewrite Hpanels in Hp.
    apply lookup_app_Some in Hp as [Hp | [_ Hp]]; [by apply (Hwired i)|].
    apply list_lookup_singleton_Some in Hp as [_ <-]. by rewrite Hs, Ho.
Qed.

Lemma shown_spec key w :
  panels (fst (openCmd_shown key w)) = (panels w ++ [blankPanel key])%list
  ∧ previewByDoc (fst (openCmd_shown key w)) = previewByDoc w
  ∧ l_key (snd (openCmd_shown key w)) = key
  ∧ l_panel (snd (openCmd_shown key w)) = length (panels w).
Proof. unfold openCmd_shown. by destruct (negb (isHttpsUrl _)). Qed.

(** The end of the handler either throws and changes nothing, or wires the
    panel of the invocation and sets the registry entry. *)
Lemma finish_spec loc demoServer demoUrl nonce w :
  fst (openCmd_finish loc demoServer demoUrl nonce w) = w
  ∨ ∃ html,
      fst (openCmd_finish loc demoServer demoUrl nonce w)
      = with_previewByDoc (<[l_key loc := l_panel loc]> (previewByDoc w))
          (with_panels
             (<[l_panel loc := wiredPanel (l_key loc) (clock w) (l_debounceMs loc)
                                 html demoServer]> (panels w)) w).
Proof.
  unfold openCmd_finish.
  destruct (default true _); [by left|].
  destruct (getWebviewHtml _ _ _ _ _ _) as [html|m]; [|by left].
  right. by exists html.
Qed.

(** Wiring the panel of an invocation whose document has no registry
    entry keeps registry and panels in agreement. *)
Lemma registry_ok_wire w key i q wired :
  registry_ok w → previewByDoc w !! key = None →
  panels w !! i = Some q → p_key q = key →
  p_key wired = key → p_subscribed wired = true → p_onDispose wired = true →
  p_disposed wired = false →
  registry_ok (with_previewByDoc (<[key := i]> (previewByDoc w))
                 (with_panels (<[i := wired]> (panels w)) w)).
Proof.
  intros (Hentry & Hlisten & Hwired) Hmiss Hq Hkq Hk Hs Ho Hd.
  assert (i < length (panels w))%nat as Hlt by (by apply lookup_lt_Some with q).
  split; [|split]; simpl.
  - intros k j Hj. destruct (decide (key = k)) as [<-|Hne].
    + rewrite lookup_insert_eq in Hj. injection Hj as <-.
      exists wired. by rewrite list_lookup_insert_eq.
    + rewrite lookup_insert_ne in Hj by done.
      destruct (Hentry k j Hj) as (p & Hp & Hkp & Hsp).
      exists p. split; [|done].
      rewrite list_lookup_insert_ne; [done|]. intros <-. congruence.
  - intros j p Hp Hsp. destruct (decide (i = j)) as [<-|Hne].
    + rewrite list_lookup_insert_eq in Hp by done. injection Hp as <-.
      rewrite Hk. apply lookup_insert_eq.
    + rewrite list_lookup_insert_ne in Hp by done.
      pose proof (Hlisten j p Hp Hsp) as Hj.
      rewrite lookup_insert_ne; [done|]. congruence.
  - intros j p Hp. destruct (decide (i = j)) as [<-|Hne].
    + rewrite list_lookup_insert_eq in Hp by done. injection Hp as <-.
      by rewrite Hs, Ho, Hd.
    + rewrite list_lookup_insert_ne in Hp by done. by apply (Hwired j).
Qed.

(** It leaves the invocations for other documents what they rely on. *)
Lemma await_ok_wire w key i q wired a :
  panels w !! i = Some q → p_key q = key → await_key a ≠ key →
  await_ok w a →
  await_ok (with_previewByDoc (<[key := i]> (previewByDoc w))
              (with_panels (<[i := wired]> (panels w)) w)) a.
Proof.
  intros Hq Hk Hne [Hmiss Hpanel]. split; simpl.
  - by rewrite lookup_insert_ne.
  - destruct a as [k|loc]; [done|].
    destruct Hpanel as (q' & Hq' & Hk' & Hs' & Ho'). exists q'.
    split; [|done]. rewrite list_lookup_insert_ne; [done|].
    intros Heq. rewrite Heq in Hq. simpl in Hne. congruence.
Qed.

(** The end of the handler for an invocation in flight. *)
Lemma finish_ok loc demoServer demoUrl nonce w q :
  registry_ok w → previewByDoc w !! l_key loc = None →
  panels w !! l_panel loc = Some q → p_key q = l_key loc →
  let w' := fst (openCmd_finish loc demoServer demoUrl nonce w) in
  registry_ok w'
  ∧ ∀ a, await_key a ≠ l_key loc → await_ok w a → await_ok w' a.
Proof.
  intros Hok Hmiss Hq Hk. simpl.
  destruct (finish_spec loc demoServer demoUrl nonce w) as [-> | (html & ->)];
    [done|].
  split.
  - by apply registry_ok_wire with q.
  - intros a Hne Ha. by apply await_ok_wire with q.
Qed.

Lemma settled_ok loc listen nonce w q :
  registry_ok w → previewByDoc w !! l_key loc = None →
  panels w !! l_panel loc = Some q → p_key q = l_key loc →
  let w' := fst (openCmd_settled loc listen nonce w) in
  registry_ok w'
  ∧ ∀ a, await_key a ≠ l_key loc → await_ok w a → await_ok w' a.
Proof.
  intros Hok Hmiss Hq Hk. unfold openCmd_settled.
  destruct (l_server loc) as [s|]; [|by apply finish_ok with q].
  destruct (startDemoServer (extension w) listen) as [sv [url|m]]; [|done].
  by apply (finish_ok loc (Some s) (Some url) nonce
              (with_servers (<[s := sv]> (servers w)) w) q).
Qed.

Lemma lookup_insert_Some_inv {A} (l : list A) n m x y :
  <[n := x]> l !! m = Some y → (m = n ∧ y = x) ∨ (m ≠ n ∧ l !! m = Some y).
Proof.
  intros Hm. destruct (decide (m = n)) as [->|Hne].
  - left. split; [done|].
    assert (n < length l)%nat as Hlt.
    { apply lookup_lt_Some in Hm. by rewrite length_insert in Hm. }
    rewrite list_lookup_insert_eq in Hm by done. congruence.
  - right. split; [done|]. by rewrite list_lookup_insert_ne in Hm.
Qed.

(** One act keeps the invariant, when it does not start a preview for a
    document that has an invocation in flight. *)
Lemma act_ok a f :
  flight_ok f →
  (∀ key, starts a (world f) = Some key → calm key f) →
  flight_ok (act a f).
Proof.
  intros (Hok & Hawait & Huniq) Hcalm.
  destruct a as [editor|n nonce|n|n listen nonce|e]; simpl.
  - (* the command is invoked *)
    destruct (openCmd_begin editor (world f)) as [w [|key]] eqn:Hbegin.
    + pose proof (begin_finished editor _ w (ListenError "") "" Hbegin) as Hrun.
      split; [|split; [|done]]; simpl.
      * replace w with (fst (openCmd editor (ListenError "") "" (world f)))
          by (by rewrite Hrun).
        by apply registry_ok_openCmd.
      * intros m a Hm.
        replace w with (handle (CmdOpen editor (ListenError "") "") (world f))
          by (simpl; by rewrite Hrun).
        apply await_ok_handle; [by apply (Hawait m)|].
        simpl. by rewrite Hbegin.
    + apply begin_awaits in Hbegin as Hfresh. destruct Hfresh as [-> Hmiss].
      assert (calm key f) as Hnone.
      { apply Hcalm. simpl. by rewrite Hbegin. }
      split; [done|]. split; simpl.
      * intros m a Hm. apply lookup_app_Some in Hm as [Hm | [_ Hm]];
          [by apply (Hawait m)|].
        apply list_lookup_singleton_Some in Hm as [_ [= <-]]. done.
      * intros m m' a b Hm Hm' Hkeys.
        apply lookup_app_Some in Hm as [Hm | [Hlen Hm]];
          apply lookup_app_Some in Hm' as [Hm' | [Hlen' Hm']].
        -- by apply (Huniq m m' a b).
        -- apply list_lookup_singleton_Some in Hm' as [_ [= <-]].
           by destruct (Hnone m a Hm).
        -- apply list_lookup_singleton_Some in Hm as [_ [= <-]].
           by destruct (Hnone m' b Hm').
        -- apply list_lookup_singleton_Some in Hm as [Hm _].
           apply list_lookup_singleton_Some in Hm' as [Hm' _]. lia.
  - (* [showTextDocument] resolves *)
    destruct (inflight f !! n) as [[[key|loc]|]|] eqn:Hn; try done.
    destruct (Hawait n _ Hn) as [Hmiss _]. simpl in Hmiss.
    destruct (shown_spec key (world f)) as (Hpanels & Hreg & Hkey & Hpanel).
    destruct (openCmd_shown key (world f)) as [w loc] eqn:Hshown. simpl in *.
    assert (registry_ok w) as Hok1.
    { by apply (registry_ok_grow (world f) w (blankPanel key)). }
    assert (panels w !! l_panel loc = Some (blankPanel key)) as Hblank.
    { rewrite Hpanels, Hpanel. by apply list_lookup_middle. }
    assert (∀ m a, inflight f !! m = Some (Some a) → await_ok w a) as Hawait1.
    { intros m a Hm. destruct (Hawait m a Hm) as [Hmiss' Hpanel'].
      split; [by rewrite Hreg|]. destruct a as [k|loc']; [done|].
      destruct Hpanel' as (q & Hq & Hrest). exists q. split; [|done].
      rewrite Hpanels. by apply lookup_app_l_Some. }
    destruct (l_server loc) as [s|].
    + split; [done|]. split; simpl.
      * intros m a Hm. apply lookup_insert_Some_inv in Hm as [[-> [= ->]] | [_ Hm]];
          [|by apply (Hawait1 m)].
        split; [simpl; by rewrite Hkey, Hreg|]. exists (blankPanel key).
        by rewrite Hkey.
      * intros m m' a b Hm Hm' Hkeys.
        apply lookup_insert_Some_inv in Hm as [[-> [= ->]] | [Hne Hm]];
          apply lookup_insert_Some_inv in Hm' as [[-> [= ->]] | [Hne' Hm']];
          try done.
        -- symmetry. apply (Huniq m' n b (AtShow key) Hm' Hn).
           simpl in *. congruence.
        -- apply (Huniq m n a (AtShow key) Hm Hn). simpl in *. congruence.
        -- by apply (Huniq m m' a b).
    + destruct (finish_ok loc None None nonce w (blankPanel key) Hok1)
        as [Hok2 Hawait2]; [by rewrite Hkey, Hreg | done | by rewrite Hkey |].
      split; [done|]. split; simpl.
      * intros m a Hm. apply lookup_insert_Some_inv in Hm as [[_ [=]] | [Hne Hm]].
        apply Hawait2; [|by apply (Hawait1 m)].
        intros Hsame. apply Hne. apply (Huniq m n a (AtShow key) Hm Hn).
        simpl. congruence.
      * intros m m' a b Hm Hm' Hkeys.
        apply lookup_insert_Some_inv in Hm as [[_ [=]] | [_ Hm]].
        apply lookup_insert_Some_inv in Hm' as [[_ [=]] | [_ Hm']].
        by apply (Huniq m m' a b).
  - (* [showTextDocument] rejects *)
    destruct (inflight f !! n) as [[[key|loc]|]|] eqn:Hn; try done.
    split; [done|]. split; simpl.
    + intros m a Hm. apply lookup_insert_Some_inv in Hm as [[_ [=]] | [_ Hm]].
      by apply (Hawait m).
    + intros m m' a b Hm Hm' Hkeys.
      apply lookup_insert_Some_inv in Hm as [[_ [=]] | [_ Hm]].
      apply lookup_insert_Some_inv in Hm' as [[_ [=]] | [_ Hm']].
      by apply (Huniq m m' a b).
  - (* the bind settles *)
    destruct (inflight f !! n) as [[[key|loc]|]|] eqn:Hn; try done.
    destruct (Hawait n _ Hn) as [Hmiss (q & Hq & Hk & _)]. simpl in Hmiss.
    destruct (settled_ok loc listen nonce (world f) q Hok Hmiss Hq Hk)
      as [Hok2 Hawait2].
    split; [done|]. split; simpl.
    + intros m a Hm. apply lookup_insert_Some_inv in Hm as [[_ [=]] | [Hne Hm]].
      apply Hawait2; [|by apply (Hawait m)].
      intros Hsame. apply Hne. by apply (Huniq m n a (AtListen loc) Hm Hn).
    + intros m m' a b Hm Hm' Hkeys.
      apply lookup_insert_Some_inv in Hm as [[_ [=]] | [_ Hm]].
      apply lookup_insert_Some_inv in Hm' as [[_ [=]] | [_ Hm']].
      by apply (Huniq m m' a b).
  - (* an event of the loop *)
    split; [by apply registry_ok_handle|]. split; [|done]. simpl.
    intros m a Hm. apply await_ok_handle; [by apply (Hawait m)|].
    intros Hstart. by destruct (Hcalm _ Hstart m a Hm).
Qed.

Lemma fstep_ok f ta :
  flight_ok f →
  (∀ key, starts (snd ta) (advance (fst ta) (world f)) = Some key → calm key f) →
  flight_ok (fstep f ta).
Proof.
  intros (Hok & Hawait & Huniq) Hcalm. apply act_ok.
  - split; [by apply registry_ok_advance|]. split; [|done]. simpl.
    intros m a Hm. by apply await_ok_advance, (Hawait m).
  - exact Hcalm.
Qed.

Lemma frun_ok acts f : flight_ok f → orderly f acts → flight_ok (frun f acts).
Proof.
  revert f. induction acts as [|ta acts IH]; intros f Hok Horder; [done|].
  destruct Horder as [Hcalm Hrest]. simpl. apply IH; [|done].
  by apply fstep_ok.
Qed.

Lemma frun_events evs w :
  frun (mkFlight w []) ((λ te, (fst te, Happens (snd te))) <$> evs)
  = mkFlight (run w evs) [].
Proof.
  revert w. induction evs as [|te evs IH]; intros w; [done|].
  simpl. apply IH.
Qed.

(** X18: the registry keeps one preview per document also when
    invocations of the command overlap with each other and with everything
    else, as long as no invocation starts a preview for a document for
    which another invocation is still in flight.  In every such history
    registry and panels agree, each document has at most one live session,
    exactly one when it has a registry entry, and none while an invocation
    for it is in flight.  The histories of the event loop are the ones in
    which no invocation is ever in flight. *)
Theorem orderly_invocations_keep_one_session
    (f : Flight) (acts : list (Z * Act))
    (Hok : flight_ok f)
    (Horder : orderly f acts) :
  let f' := frun f acts in
  flight_ok f'
  ∧ (∀ k, (live_sessions k (world f') ≤ 1)%nat
          ∧ (∀ i, previewByDoc (world f') !! k = Some i →
                  live_sessions k (world f') = 1%nat)
          ∧ (∀ n a, inflight f' !! n = Some (Some a) → await_key a = k →
                    live_sessions k (world f') = 0%nat))
  ∧ (∀ w evs, frun (mkFlight w []) ((λ te, (fst te, Happens (snd te))) <$> evs)
              = mkFlight (run w evs) []).
Proof.
  intros f'. pose proof (frun_ok acts f Hok Horder) as Hok'. fold f' in Hok'.
  split; [done|]. split; [|intros w evs; apply frun_events].
  destruct Hok' as (Hreg & Hawait & _).
  intros k. split; [by apply live_sessions_le_1|]. split.
  - intros i Hi. by apply live_sessions_registered with i.
  - intros n a Hn <-. apply live_sessions_unregistered; [done|].
    by destruct (Hawait n a Hn).
Qed.

End FlightFacts.

(** ** Statements about the helpers *)

(** X1: the five chained [replace] calls of [escapeHtml] amount to one pass
    over the input in which each of [&], [<], [>], the double and the single
    quote becomes its entity and every other character stays: the ampersand
    of an entity written by an earlier [replace] is not escaped again, and
    escaping a concatenation is concatenating the escapes. *)
Theorem escapeHtml_replaces_one_pass (s t : string) (c : ascii) :
  escapeHtml_replaces s = escapeHtml s
  ∧ escapeHtml_replaces (s +:+ t) = escapeHtml_replaces s +:+ escapeHtml_replaces t
  ∧ escapeHtml_replaces (String c s) = escape_char c +:+ escapeHtml_replaces s.
Proof.
  split; [apply escapeHtml_replaces_pass|]. split; [apply escapeHtml_replaces_app|].
  by rewrite !escapeHtml_replaces_pass.
Qed.

(** X2: escaped text holds none of [<], [>], the double and the single
    quote; so the address in the [src] attribute of the iframe and the two
    texts of the mode bar, which [getWebviewHtml] escapes, cannot close the
    attribute or open a tag. *)
Theorem escaped_text_is_markup_free {H : HostApi} (s : string) :
  markup_free (escapeHtml_replaces s)
  ∧ ∀ wv ctx nonce remoteUrl demoUrl allowHttp html,
      getWebviewHtml wv ctx nonce remoteUrl demoUrl allowHttp = Returned html →
      markup_free (html_iframeSrc html)
      ∧ markup_free (html_mode html)
      ∧ markup_free (html_modeDetail html).
Proof.
  split.
  - rewrite escapeHtml_replaces_pass. apply escapeHtml_no_markup.
  - intros wv ctx nonce remoteUrl demoUrl allowHttp html. unfold getWebviewHtml.
    destruct (resolveAppSrc_branch _ _ _ _ _) as [[kind r]|m]; [|discriminate].
    intros [= <-]. simpl. repeat split; apply escapeHtml_no_markup.
Qed.

(** X3: escaping loses nothing: decoding the five entities gives the
    input back, so two different inputs are never escaped to the same
    text. *)
Theorem escapeHtml_is_lossless (s t : string) :
  unescapeHtml (escapeHtml_replaces s) = s
  ∧ (escapeHtml_replaces s = escapeHtml_replaces t → s = t).
Proof.
  assert (∀ u, unescapeHtml (escapeHtml_replaces u) = u) as Hround.
  { intros u. rewrite escapeHtml_replaces_pass. apply unescape_escape. }
  split; [apply Hround|].
  intros Heq. rewrite <- (Hround s), <- (Hround t). by rewrite Heq.
Qed.

(** X4: whatever the random draws are, the nonce is made of ASCII letters
    and digits only and has at most 32 characters ([charAt] gives the empty
    string out of range); it has exactly 32 when every draw is an index into
    [possible], as [Math.floor(Math.random() * 62)] is.  Escaping would not
    change it, so it can stand unescaped in the policy and the script tag. *)
Theorem getNonce_is_alphanumeric (floors : nat → Z) :
  string_forallb is_alnum (getNonce floors) = true
  ∧ (String.length (getNonce floors) ≤ 32)%nat
  ∧ ((∀ k, (k < 32)%nat → 0 ≤ floors k < 62) →
     String.length (getNonce floors) = 32%nat)
  ∧ escapeHtml_replaces (getNonce floors) = getNonce floors.
Proof.
  destruct (getNonce_from_spec floors 32 0 "" eq_refl) as (Ha & Hl & He).
  split; [done|]. split; [exact Hl|]. split.
  - intros Hall. apply He. intros k Hk. apply Hall. lia.
  - rewrite escapeHtml_replaces_pass. by apply escapeHtml_alnum.
Qed.

Section GuardFacts.
Context {H : HostApi}.

(** X6: when there is no active editor, or its document fails the YAML
    guard, the command returns normally after one notice (an information
    message in the first case, a warning in the second) and creates no
    panel, starts no server and leaves the registry as it was. *)
Theorem rejected_open_allocates_nothing
    (editor : option string) (listen : ListenOutcome) (nonce : string) (w : World)
    (Hguard : ∀ key doc, editor = Some key → documents w !! key = Some doc →
                         isYaml doc = false) :
  openCmd editor listen nonce w
  = (showMessage
       (match editor ≫= (λ key, documents w !! key) with
        | Some _ => "Open a YAML (.yml/.yaml) file to use this preview."
        | None => "No active editor."
        end) w,
     Returned tt)
  ∧ panels (fst (openCmd editor listen nonce w)) = panels w
  ∧ servers (fst (openCmd editor listen nonce w)) = servers w
  ∧ previewByDoc (fst (openCmd editor listen nonce w)) = previewByDoc w.
Proof.
  assert (openCmd editor listen nonce w
          = (showMessage
               (match editor ≫= (λ key, documents w !! key) with
                | Some _ => "Open a YAML (.yml/.yaml) file to use this preview."
                | None => "No active editor."
                end) w,
             Returned tt)) as Heq.
  { unfold openCmd. destruct editor as [key|]; simpl; [|done].
    destruct (documents w !! key) as [doc|] eqn:Hdoc; simpl; [|done].
    by rewrite (Hguard key doc eq_refl Hdoc). }
  rewrite Heq. done.
Qed.

(** X7: [startDemoServer] either returns with the server listening and the
    address [http://127.0.0.1:port/index.html] of the port it bound, or
    throws with no server left listening: on a listen error the server never
    listened, and when the address is missing or is a pipe name the server
    is closed before the throw.  An open request that is rejected for that
    reason leaves one more server, not listening. *)
Theorem startDemoServer_outcomes (ctx : ExtensionContext) (listen : ListenOutcome) :
  match snd (startDemoServer ctx listen) with
  | Returned url =>
      sv_listening (fst (startDemoServer ctx listen)) = true
      ∧ ∃ port, listen = Listening (AddrInfo port)
                ∧ url = "http://127.0.0.1:" +:+ show_port port +:+ "/index.html"
  | Thrown m =>
      sv_listening (fst (startDemoServer ctx listen)) = false
      ∧ (listen = ListenError m
         ∨ (m = "Demo server failed to bind"
            ∧ (listen = Listening AddrNull ∨ ∃ path, listen = Listening (AddrPipe path))))
  end
  ∧ ∀ w key nonce m,
      opens_fresh key w →
      isHttpsUrl (Some (default "" (cfg_remoteUrl (config w)))) = false →
      snd (startDemoServer (extension w) listen) = Thrown m →
      snd (openCmd (Some key) listen nonce w) = Thrown m
      ∧ ∃ sv, servers (fst (openCmd (Some key) listen nonce w))
                = (servers w ++ [sv])%list
              ∧ sv_listening sv = false.
Proof.
  split.
  - destruct listen as [m|[|path|port]]; simpl; eauto 10.
  - intros w key nonce m Hopen Hs Hthrown.
    rewrite (openCmd_fresh key listen nonce w Hopen).
    split.
    + unfold createPreview. rewrite Hs. simpl.
      destruct (startDemoServer (extension w) listen) as [sv r].
      simpl in Hthrown. by subst r.
    + rewrite createPreview_servers, Hs. eexists. split; [done|].
      destruct listen as [m'|[|path|port]]; simpl in *; done.
Qed.

(** X9: the mode that the bar of the webview shows agrees with the branch
    that resolution took, although the two are computed apart: it reads
    [remote], with the escaped remote URL beside it and in the iframe, exactly
    when the remote branch ran, and [local] with [src/demo/index.html]
    otherwise. *)
Theorem mode_label_matches_source
    (wv : Webview) (ctx : ExtensionContext) (nonce remoteUrl : string)
    (demoUrl : option string) (allowHttp : bool) (html : WebviewHtml)
    (Hhtml : getWebviewHtml wv ctx nonce remoteUrl demoUrl allowHttp = Returned html) :
  (html_source html = Remote ↔ html_mode html = "remote")
  ∧ (html_source html = Remote →
       html_modeDetail html = escapeHtml_replaces remoteUrl
       ∧ html_iframeSrc html = escapeHtml_replaces remoteUrl)
  ∧ (html_source html ≠ Remote →
       html_mode html = "local" ∧ html_modeDetail html = "src/demo/index.html").
Proof.
  revert Hhtml. unfold getWebviewHtml, resolveAppSrc_branch.
  rewrite !escapeHtml_replaces_pass.
  destruct (isHttpsUrl (Some remoteUrl)).
  - destruct (URL_new remoteUrl); [|discriminate]. intros [= <-]. simpl.
    split; [done|]. split; [done|]. done.
  - destruct (js_and allowHttp demoUrl) as [d|].
    + destruct (URL_new d); [|discriminate]. intros [= <-]. simpl.
      split; [done|]. split; [done|]. done.
    + intros [= <-]. simpl. split; [done|]. split; [done|]. done.
Qed.

(** X8: with an https remote URL configured, an open request that misses
    the registry starts no server, whatever [allowHttp] says and however a
    bind would have ended: the handler runs to its end, the session holds no
    server, and the frame is pinned to the origin of the remote URL. *)
Theorem remote_session_starts_no_server
    (w : World) (key : string) (listen : ListenOutcome) (nonce : string)
    (Hopen : opens_fresh key w)
    (Hremote : isHttpsUrl (Some (default "" (cfg_remoteUrl (config w)))) = true) :
  let r := openCmd (Some key) listen nonce w in
  snd r = Returned tt
  ∧ servers (fst r) = servers w
  ∧ ∃ html u,
      URL_new (default "" (cfg_remoteUrl (config w))) = Some u
      ∧ panels (fst r) !! length (panels w)
        = Some (wiredPanel key (clock w) (effectiveDebounceMs (config w)) html None)
      ∧ html_source html = Remote
      ∧ html_frameSrc html = origin u
      ∧ html_relayTarget html = origin u.
Proof.
  simpl. rewrite (openCmd_fresh key listen nonce w Hopen).
  destruct (resolve_remote (panelWebview (length (panels w))) (extension w) _
              None (default true (cfg_allowHttp (config w))) Hremote)
    as (u & Hu & _ & Hres).
  unfold createPreview. rewrite Hremote. simpl.
  unfold getWebviewHtml. rewrite Hres. simpl.
  split; [done|]. split; [done|]. eexists _, u. split; [done|].
  split; [rewrite insert_last; by apply list_lookup_middle | done].
Qed.

End GuardFacts.

(** ** The statements on the example installation *)

Lemma escaped_text_is_markup_free_witness :
  markup_free (html_iframeSrc Demo.servedHtml)
  ∧ markup_free (escapeHtml_replaces "<a href='x'>&</a>").
Proof.
  destruct (escaped_text_is_markup_free (H := NodeHost.host) "<a href='x'>&</a>")
    as [Hs Hhtml].
  split; [|exact Hs].
  exact (proj1 (Hhtml Demo.webview Demo.ctx "n0" ""
                  (Some "http://127.0.0.1:54321/index.html") true
                  Demo.servedHtml eq_refl)).
Defined.

Lemma escapeHtml_is_lossless_witness :
  unescapeHtml (escapeHtml_replaces "a<b & 'c'") = "a<b & 'c'"
  ∧ "a<b" = "a<b".
Proof.
  destruct (escapeHtml_is_lossless "a<b & 'c'" "a<b") as [Hround _].
  destruct (escapeHtml_is_lossless "a<b" "a<b") as [_ Hinj].
  split; [exact Hround | exact (Hinj eq_refl)].
Defined.

Lemma getNonce_is_alphanumeric_witness :
  String.length (getNonce (λ k, Z.of_nat k)) = 32%nat.
Proof.
  destruct (getNonce_is_alphanumeric (λ k, Z.of_nat k)) as (_ & _ & Hlen & _).
  apply Hlen. intros k Hk. lia.
Defined.

Lemma isYaml_by_language_or_extension_witness : isYaml Demo2.upperCase = true.
Proof.
  apply (proj2 (isYaml_by_language_or_extension Demo2.upperCase)).
  right. exists "/work/CONFIG", ".YAML". split; [reflexivity|]. right. reflexivity.
Defined.

Lemma demo2_history_panel :
  panels (run (H := NodeHost.host) (Demo2.world Demo.defaults) Demo2.history) !! 0%nat
  = Some Demo2.synced.
Proof. vm_compute. reflexivity. Qed.

Lemma demo2_opened_panel :
  panels (run (H := NodeHost.host) (Demo2.world Demo.defaults) [Demo2.openDemo]) !! 0%nat
  = Some Demo.panel.
Proof. vm_compute. reflexivity. Qed.

Lemma snapshots_in_version_order_witness :
  ∃ doc,
    documents (run (H := NodeHost.host) (Demo2.world Demo.defaults) Demo2.history)
      !! Demo.key = Some doc
    ∧ Forall (λ m, msg_type m = "yaml:update" ∧ uri (payload m) = Demo.key
                   ∧ version (payload m) ≤ doc_version doc) (p_posts Demo2.synced)
    ∧ ascending ((λ m, version (payload m)) <$> p_posts Demo2.synced).
Proof.
  exact (snapshots_in_version_order (H := NodeHost.host) Demo.ctx Demo.defaults
           Demo2.docs Demo2.files Demo2.history 0 Demo2.synced demo2_history_panel).
Defined.

Lemma quiet_session_catches_up_witness :
  ∃ p' doc,
    panels (step (H := NodeHost.host)
              (run (H := NodeHost.host) (Demo2.world Demo.defaults) [Demo2.openDemo])
              (300, Tick)) !! 0%nat = Some p'
    ∧ documents (step (H := NodeHost.host)
                   (run (H := NodeHost.host) (Demo2.world Demo.defaults)
                      [Demo2.openDemo])
                   (300, Tick)) !! Demo.key = Some doc
    ∧ last (p_posts p') = Some (updateMessage Demo.key doc)
    ∧ pending p' = None.
Proof.
  apply (quiet_session_catches_up (H := NodeHost.host) Demo.ctx Demo.defaults
           Demo2.docs Demo2.files [Demo2.openDemo] 0 Demo.panel
           (mkDebounced (Some 300) 300) 300 demo2_opened_panel eq_refl eq_refl).
  reflexivity.
Defined.

Lemma other_document_change_is_ignored_witness :
  panels (step (H := NodeHost.host)
            (run (H := NodeHost.host) (Demo2.world Demo.defaults) [Demo2.openDemo])
            (100, DocChange Demo2.notesKey "bye")) !! 0%nat
  = panels (step (H := NodeHost.host)
              (run (H := NodeHost.host) (Demo2.world Demo.defaults) [Demo2.openDemo])
              (100, Tick)) !! 0%nat.
Proof.
  refine (proj1 (other_document_change_is_ignored (H := NodeHost.host)
                   (run (H := NodeHost.host) (Demo2.world Demo.defaults)
                      [Demo2.openDemo])
                   0 Demo.panel Demo2.notesKey "bye" 100 demo2_opened_panel _)).
  discriminate.
Defined.

Lemma initial_snapshot_after_delay_witness :
  (∃ p', panels (step (H := NodeHost.host) Demo.opened (300, Tick)) !! 0%nat = Some p'
         ∧ p_posts p' = [updateMessage Demo.key Demo.doc])
  ∧ (∃ p', panels (step (H := NodeHost.host)
                     (fst (openCmd (H := NodeHost.host) (Some Demo.key)
                             (Listening (AddrInfo 54321)) "n0" (Demo.world Demo.slow)))
                     (1, Tick)) !! 0%nat = Some p'
           ∧ p_posts p' = [updateMessage Demo.key Demo.doc]).
Proof.
  split.
  - destruct (initial_snapshot_after_delay (H := NodeHost.host)
                (Demo.world Demo.defaults) Demo.key Demo.doc
                (Listening (AddrInfo 54321)) "n0" 300 eq_refl eq_refl eq_refl eq_refl)
      as (p' & Hp' & Hposts & _).
    by exists p'.
  - destruct (initial_snapshot_after_delay (H := NodeHost.host)
                (Demo.world Demo.slow) Demo.key Demo.doc
                (Listening (AddrInfo 54321)) "n0" 1 eq_refl eq_refl eq_refl eq_refl)
      as (p' & Hp' & Hposts & _).
    by exists p'.
Defined.

Lemma session_server_stays_up_witness :
  ∃ sv, servers (run (H := NodeHost.host) (Demo2.world Demo.defaults) Demo2.history)
          !! 0%nat = Some sv
        ∧ sv_listening sv = true.
Proof.
  exact (proj1 (proj2 (session_server_stays_up (H := NodeHost.host) Demo.ctx
                         Demo.defaults Demo2.docs Demo2.files Demo2.history
                         0 Demo2.synced 0 demo2_history_panel eq_refl eq_refl))).
Defined.

Lemma session_frame_is_fixed_witness :
  ∃ p', panels (run (H := NodeHost.host) Demo.opened
                  [(10, ConfigChanged Demo2.remote);
                   (10, DocChange Demo.key "a: 2"); (400, PanelClosed 0)]) !! 0%nat
        = Some p'
        ∧ same_frame Demo.panel p'.
Proof.
  exact (session_frame_is_fixed (H := NodeHost.host) Demo.opened 0 Demo.panel
           [(10, ConfigChanged Demo2.remote);
            (10, DocChange Demo.key "a: 2"); (400, PanelClosed 0)]
           demo_opened_panel).
Defined.

Lemma demo_opened_registry_ok : registry_ok Demo.opened.
Proof.
  apply (registry_ok_openCmd (H := NodeHost.host) (Some Demo.key)
           (Listening (AddrInfo 54321)) "n0" (Demo.world Demo.defaults)).
  apply registry_ok_fresh.
Qed.

Lemma dispose_releases_session_witness :
  live_sessions Demo.key (panelClosed 0 Demo.opened) = 0%nat
  ∧ servers (panelClosed 0 Demo.opened) = [mkServer Demo.demoPath false]
  ∧ panelClosed 0 (panelClosed 0 Demo.opened) = panelClosed 0 Demo.opened.
Proof.
  destruct (dispose_releases_session Demo.opened 0 Demo.panel
              demo_opened_panel eq_refl eq_refl eq_refl)
    as (_ & _ & _ & Hsv & _ & _ & _ & _ & _ & Hagain & Hagree).
  split; [exact (proj2 (Hagree demo_opened_registry_ok))|]. split; [|exact Hagain].
  rewrite Hsv. reflexivity.
Defined.

Lemma reopen_after_dispose_witness :
  previewByDoc
    (fst (openCmd (H := NodeHost.host) (Some Demo.key) (Listening (AddrInfo 54322))
            "n1" (panelClosed 0 Demo.opened))) !! Demo.key = Some 1%nat
  ∧ live_sessions Demo.key
      (fst (openCmd (H := NodeHost.host) (Some Demo.key) (Listening (AddrInfo 54322))
              "n1" (panelClosed 0 Demo.opened))) = 1%nat.
Proof.
  destruct (reopen_after_dispose (H := NodeHost.host) Demo.opened 0 Demo.panel
              Demo.doc (Listening (AddrInfo 54322)) "n1"
              demo_opened_panel eq_refl eq_refl eq_refl eq_refl eq_refl
              eq_refl) as (Hreg & _ & _ & _ & _ & Hone).
  split; [exact Hreg | exact (Hone demo_opened_registry_ok)].
Defined.

Lemma rejected_open_allocates_nothing_witness :
  notices (fst (openCmd (H := NodeHost.host) (Some Demo2.notesKey)
                  (Listening (AddrInfo 54321)) "n0" (Demo2.world Demo.defaults)))
  = ["Open a YAML (.yml/.yaml) file to use this preview."]
  ∧ panels (fst (openCmd (H := NodeHost.host) (Some Demo2.notesKey)
                   (Listening (AddrInfo 54321)) "n0" (Demo2.world Demo.defaults)))
    = [].
Proof.
  assert (∀ key doc, Some Demo2.notesKey = Some key →
            documents (Demo2.world Demo.defaults) !! key = Some doc →
            isYaml doc = false) as Hguard.
  { intros key doc Hk. apply (inj Some) in Hk as <-.
    change (Some Demo2.notes = Some doc → isYaml doc = false).
    intros Hd. apply (inj Some) in Hd as <-. reflexivity. }
  destruct (rejected_open_allocates_nothing (H := NodeHost.host)
              (Some Demo2.notesKey) (Listening (AddrInfo 54321)) "n0"
              (Demo2.world Demo.defaults) Hguard) as (Heq & Hpanels & _).
  split; [|exact Hpanels]. rewrite Heq. reflexivity.
Defined.

Lemma startDemoServer_outcomes_witness :
  snd (openCmd (H := NodeHost.host) (Some Demo.key) (Listening AddrNull) "n0"
         (Demo.world Demo.defaults)) = Thrown "Demo server failed to bind"
  ∧ ∃ sv, servers (fst (openCmd (H := NodeHost.host) (Some Demo.key)
                          (Listening AddrNull) "n0" (Demo.world Demo.defaults)))
            = [sv]
          ∧ sv_listening sv = false.
Proof.
  destruct (startDemoServer_outcomes (H := NodeHost.host) Demo.ctx (Listening AddrNull))
    as [_ Hcmd].
  exact (Hcmd (Demo.world Demo.defaults) Demo.key "n0" "Demo server failed to bind"
           (demo_opens_fresh _) eq_refl eq_refl).
Defined.

Lemma mode_label_matches_source_witness :
  html_mode Demo.servedHtml = "local"
  ∧ html_modeDetail Demo.servedHtml = "src/demo/index.html".
Proof.
  destruct (mode_label_matches_source (H := NodeHost.host) Demo.webview Demo.ctx
              "n0" "" (Some "http://127.0.0.1:54321/index.html") true
              Demo.servedHtml eq_refl) as (_ & _ & Hlocal).
  apply Hlocal. discriminate.
Defined.

Lemma remote_session_starts_no_server_witness :
  snd (openCmd (H := NodeHost.host) (Some Demo.key) (ListenError "EADDRINUSE") "n0"
         (Demo.world Demo2.remote)) = Returned tt
  ∧ servers (fst (openCmd (H := NodeHost.host) (Some Demo.key)
                    (ListenError "EADDRINUSE") "n0" (Demo.world Demo2.remote))) = [].
Proof.
  destruct (remote_session_starts_no_server (H := NodeHost.host)
              (Demo.world Demo2.remote) Demo.key (ListenError "EADDRINUSE") "n0"
              (demo_opens_fresh _) eq_refl) as (Hret & Hsv & _).
  split; [exact Hret | exact Hsv].
Defined.

Lemma flight_ok_fresh ctx c docs fs : flight_ok (mkFlight (freshWorld ctx c docs fs) []).
Proof. split; [apply registry_ok_fresh|]. by split. Qed.

(** An orderly history, in which an edit and another invocation fall
    between the stretches of an invocation; and one that is not orderly,
    where a second invocation for the same document starts while the first
    is in flight. *)
Lemma orderly_invocations_keep_one_session_witness :
  let f' := frun (H := NodeHost.host) (mkFlight (Demo.world Demo.defaults) [])
              [(0, Invoke (Some Demo.key));
               (5, Happens (DocChange Demo.key "a: 2"));
               (5, ShowDone 0 "n0");
               (5, Happens (CmdOpen None (Listening (AddrInfo 54399)) "n9"));
               (5, ListenDone 0 (Listening (AddrInfo 54321)) "n0");
               (0, Invoke (Some Demo.key))] in
  let g' := frun (H := NodeHost.host) (mkFlight (Demo.world Demo.defaults) [])
              [(0, Invoke (Some Demo.key));
               (0, Invoke (Some Demo.key));
               (1, ShowDone 0 "n0");
               (0, ShowDone 1 "n1");
               (1, ListenDone 0 (Listening (AddrInfo 54321)) "n0");
               (0, ListenDone 1 (Listening (AddrInfo 54322)) "n1")] in
  (live_sessions Demo.key (world f') = 1%nat
   ∧ previewByDoc (world f') !! Demo.key = Some 0%nat
   ∧ inflight f' = [None])
  ∧ (live_sessions Demo.key (world g') = 2%nat
     ∧ length (panels (world g')) = 2%nat
     ∧ (sv_listening <$> servers (world g')) = [true; true]
     ∧ inflight g' = [None; None]).
Proof.
  split; [|by vm_compute].
  destruct (orderly_invocations_keep_one_session (H := NodeHost.host)
              (mkFlight (Demo.world Demo.defaults) [])
              [(0, Invoke (Some Demo.key));
               (5, Happens (DocChange Demo.key "a: 2"));
               (5, ShowDone 0 "n0");
               (5, Happens (CmdOpen None (Listening (AddrInfo 54399)) "n9"));
               (5, ListenDone 0 (Listening (AddrInfo 54321)) "n0");
               (0, Invoke (Some Demo.key))]
              (flight_ok_fresh _ _ _ _)) as (_ & Hone & _).
  - repeat split; intros key Hkey; vm_compute in Hkey; discriminate.
  - destruct (Hone Demo.key) as (_ & Hreg & _).
    split; [by apply (Hreg 0%nat)|]. by split.
Defined.
